(** * cfcli: the judge-interaction core of the Codeforces command-line client

    A shallow embedding of [src/cfcli.py]: the request signer
    ([api_auth_params], [sign_request]), the API client ([call_api] with its
    file cache and [_retry_with_backoff]), the tail of [submit] and the
    verdict poller of [status]; then [web_login], the commands [login] and
    [status], and the file names that [generate] writes and [submit] reads.

    Python [str] values are represented by their UTF-8 byte strings
    ([String.string]): [encode('utf-8')] is then the identity on the
    representation, and both [sorted] (code-point order) and [rstrip('&')]
    agree with their byte-wise versions on valid UTF-8. *)

From Stdlib Require Import ZArith Lia List Ascii String Sorting.Permutation Sorting.Sorted.
From Stdlib Require Import DecimalString OrderedTypeEx.
From Stdlib Require DecimalPos.
From stdpp Require Import base option gmap strings list sorting.

Local Open Scope Z_scope.
Local Open Scope string_scope.

(** ** hashlib.sha512 (FIPS 180-4), on 64-bit words written as [Z] *)

Module Sha512.

Definition mask64 : Z := 0xffffffffffffffff.
Definition wrap (x : Z) : Z := Z.land x mask64.
Definition add64 (x y : Z) : Z := wrap (x + y).
Definition rotr (n x : Z) : Z :=
  wrap (Z.lor (Z.shiftr x n) (Z.shiftl x (64 - n))).
Definition not64 (x : Z) : Z := Z.lxor x mask64.

Definition Ch (x y z : Z) : Z := Z.lxor (Z.land x y) (Z.land (not64 x) z).
Definition Maj (x y z : Z) : Z :=
  Z.lxor (Z.lxor (Z.land x y) (Z.land x z)) (Z.land y z).
Definition Sigma0 (x : Z) : Z := Z.lxor (Z.lxor (rotr 28 x) (rotr 34 x)) (rotr 39 x).
Definition Sigma1 (x : Z) : Z := Z.lxor (Z.lxor (rotr 14 x) (rotr 18 x)) (rotr 41 x).
Definition sigma0 (x : Z) : Z := Z.lxor (Z.lxor (rotr 1 x) (rotr 8 x)) (Z.shiftr x 7).
Definition sigma1 (x : Z) : Z := Z.lxor (Z.lxor (rotr 19 x) (rotr 61 x)) (Z.shiftr x 6).

Definition H0 : list Z :=
  [ 0x6a09e667f3bcc908; 0xbb67ae8584caa73b; 0x3c6ef372fe94f82b; 0xa54ff53a5f1d36f1;
    0x510e527fade682d1; 0x9b05688c2b3e6c1f; 0x1f83d9abfb41bd6b; 0x5be0cd19137e2179 ].

Definition K : list Z :=
  [ 0x428a2f98d728ae22; 0x7137449123ef65cd; 0xb5c0fbcfec4d3b2f; 0xe9b5dba58189dbbc;
    0x3956c25bf348b538; 0x59f111f1b605d019; 0x923f82a4af194f9b; 0xab1c5ed5da6d8118;
    0xd807aa98a3030242; 0x12835b0145706fbe; 0x243185be4ee4b28c; 0x550c7dc3d5ffb4e2;
    0x72be5d74f27b896f; 0x80deb1fe3b1696b1; 0x9bdc06a725c71235; 0xc19bf174cf692694;
    0xe49b69c19ef14ad2; 0xefbe4786384f25e3; 0x0fc19dc68b8cd5b5; 0x240ca1cc77ac9c65;
    0x2de92c6f592b0275; 0x4a7484aa6ea6e483; 0x5cb0a9dcbd41fbd4; 0x76f988da831153b5;
    0x983e5152ee66dfab; 0xa831c66d2db43210; 0xb00327c898fb213f; 0xbf597fc7beef0ee4;
    0xc6e00bf33da88fc2; 0xd5a79147930aa725; 0x06ca6351e003826f; 0x142929670a0e6e70;
    0x27b70a8546d22ffc; 0x2e1b21385c26c926; 0x4d2c6dfc5ac42aed; 0x53380d139d95b3df;
    0x650a73548baf63de; 0x766a0abb3c77b2a8; 0x81c2c92e47edaee6; 0x92722c851482353b;
    0xa2bfe8a14cf10364; 0xa81a664bbc423001; 0xc24b8b70d0f89791; 0xc76c51a30654be30;
    0xd192e819d6ef5218; 0xd69906245565a910; 0xf40e35855771202a; 0x106aa07032bbd1b8;
    0x19a4c116b8d2d0c8; 0x1e376c085141ab53; 0x2748774cdf8eeb99; 0x34b0bcb5e19b48a8;
    0x391c0cb3c5c95a63; 0x4ed8aa4ae3418acb; 0x5b9cca4f7763e373; 0x682e6ff3d6b2b8a3;
    0x748f82ee5defb2fc; 0x78a5636f43172f60; 0x84c87814a1f0ab72; 0x8cc702081a6439ec;
    0x90befffa23631e28; 0xa4506cebde82bde9; 0xbef9a3f7b2c67915; 0xc67178f2e372532b;
    0xca273eceea26619c; 0xd186b8c721c0c207; 0xeada7dd6cde0eb1e; 0xf57d4f7fee6ed178;
    0x06f067aa72176fba; 0x0a637dc5a2c898a6; 0x113f9804bef90dae; 0x1b710b35131c471b;
    0x28db77f523047d84; 0x32caab7b40c72493; 0x3c9ebe0a15c9bebc; 0x431d67c49c100d4c;
    0x4cc5d4becb3e42b6; 0x597f299cfc657e2a; 0x5fcb6fab3ad6faec; 0x6c44198c4a475817 ].

(** Big-endian packing of bytes into a word, and back. *)
Definition be_word (bs : list Z) : Z :=
  fold_left (fun acc b => Z.lor (Z.shiftl acc 8) b) bs 0.

Fixpoint be_bytes (n : nat) (x : Z) : list Z :=
  match n with
  | O => []
  | S k => Z.land (Z.shiftr x (8 * Z.of_nat k)) 0xff :: be_bytes k x
  end.

(** Padding: 0x80, zeros up to 112 mod 128, then the bit length on 16 bytes. *)
Definition pad (msg : list Z) : list Z :=
  let len := Z.of_nat (length msg) in
  let zeros := Z.to_nat ((111 - len) mod 128) in
  msg ++ [0x80] ++ repeat 0 zeros ++ be_bytes 16 (8 * len).

Fixpoint chunks {A} (size : nat) (fuel : nat) (l : list A) : list (list A) :=
  match fuel with
  | O => []
  | S f =>
      match l with
      | [] => []
      | _ => firstn size l :: chunks size f (skipn size l)
      end
  end.

Definition words_of_block (blk : list Z) : list Z :=
  map be_word (chunks 8 16 blk).

(** Message schedule, most recent word first: [W t] is computed from
    [W (t-2)], [W (t-7)], [W (t-15)] and [W (t-16)]. *)
Fixpoint schedule (n : nat) (rw : list Z) : list Z :=
  match n with
  | O => rw
  | S k =>
      let w := add64 (add64 (add64 (sigma1 (nth 1 rw 0)) (nth 6 rw 0))
                            (sigma0 (nth 14 rw 0))) (nth 15 rw 0) in
      schedule k (w :: rw)
  end.

Record regs := Regs { ra : Z; rb : Z; rc : Z; rd : Z; re : Z; rf : Z; rg : Z; rh : Z }.

Definition round (s : regs) (kw : Z * Z) : regs :=
  let t1 := add64 (add64 (add64 (add64 (rh s) (Sigma1 (re s)))
                                (Ch (re s) (rf s) (rg s))) (fst kw)) (snd kw) in
  let t2 := add64 (Sigma0 (ra s)) (Maj (ra s) (rb s) (rc s)) in
  Regs (add64 t1 t2) (ra s) (rb s) (rc s) (add64 (rd s) t1) (re s) (rf s) (rg s).

Definition regs_of (h : list Z) : regs :=
  Regs (nth 0 h 0) (nth 1 h 0) (nth 2 h 0) (nth 3 h 0)
       (nth 4 h 0) (nth 5 h 0) (nth 6 h 0) (nth 7 h 0).

Definition list_of (s : regs) : list Z :=
  [ra s; rb s; rc s; rd s; re s; rf s; rg s; rh s].

Definition compress (h : list Z) (blk : list Z) : list Z :=
  let w := rev (schedule 64 (rev (words_of_block blk))) in
  let s := fold_left round (combine K w) (regs_of h) in
  map (fun p => add64 (fst p) (snd p)) (combine h (list_of s)).

Definition digest (msg : list Z) : list Z :=
  let p := pad msg in
  let h := fold_left compress (chunks 128 (length p) p) H0 in
  flat_map (be_bytes 8) h.

End Sha512.

(** ** Bytes, hexadecimal and decimal rendering *)

Definition bytes_of_string (s : string) : list Z :=
  map (fun c => Z.of_N (N_of_ascii c)) (list_ascii_of_string s).

Definition hex_digit (d : Z) : ascii :=
  nth (Z.to_nat d) (list_ascii_of_string "0123456789abcdef") "0"%char.

Definition hex_of_bytes (bs : list Z) : string :=
  string_of_list_ascii
    (flat_map (fun b => [hex_digit (Z.shiftr b 4); hex_digit (Z.land b 15)]) bs).

(** [hashlib.sha512(s.encode('utf-8')).hexdigest()] *)
Definition sha512_hexdigest (s : string) : string :=
  hex_of_bytes (Sha512.digest (bytes_of_string s)).

(** [str(n)] for a Python int. *)
Definition str_of_Z (n : Z) : string := NilZero.string_of_int (Z.to_int n).

Fixpoint drop_while {A} (f : A -> bool) (l : list A) : list A :=
  match l with
  | [] => []
  | x :: rest => if f x then drop_while f rest else l
  end.

(** [s.rstrip(c)]: every trailing occurrence of [c] is removed. *)
Definition rstrip (c : ascii) (s : string) : string :=
  string_of_list_ascii
    (rev (drop_while (Ascii.eqb c) (rev (list_ascii_of_string s)))).

(** [needle in hay] on strings. *)
Fixpoint contains (needle hay : string) : bool :=
  String.prefix needle hay ||
  match hay with
  | EmptyString => false
  | String _ rest => contains needle rest
  end.

(** The byte-wise (code point) order of strings. *)
Definition str_le (a b : string) : Prop := String.leb a b = true.

#[global] Instance str_le_dec (a b : string) : Decision (str_le a b).
Proof. unfold str_le. apply _. Defined.

(** [sorted(keys)]: a stable merge sort under that order. *)
Definition sorted (l : list string) : list string := merge_sort str_le l.

(** ** Python values *)

(** Parameter values: the callers pass strings and ints; an unset
    credential is [None]. *)
Inductive pval := PStr (s : string) | PInt (n : Z) | PNone.

(** [str(v)], as an f-string renders it *)
Definition pval_str (v : pval) : string :=
  match v with PStr s => s | PInt n => str_of_Z n | PNone => "None" end.

Definition opt_pval (o : option string) : pval :=
  match o with Some s => PStr s | None => PNone end.

(** Decoded JSON documents; the numbers of the judge's documents are
    integers. *)
#[warnings="-register-all"] Inductive json :=
| JNull
| JBool (b : bool)
| JInt (n : Z)
| JStr (s : string)
| JList (l : list json)
| JDict (d : list (string * json)).

(** A [dict]: insertion-ordered, one entry per key. *)
Definition pydict (V : Type) : Type := list (string * V).

Fixpoint dict_get {V} (k : string) (d : pydict V) : option V :=
  match d with
  | [] => None
  | (k', v) :: rest => if String.eqb k k' then Some v else dict_get k rest
  end.

(** [d[k] = v]: an existing key keeps its position, a new key goes last. *)
Fixpoint dict_set {V} (k : string) (v : V) (d : pydict V) : pydict V :=
  match d with
  | [] => [(k, v)]
  | (k', v') :: rest =>
      if String.eqb k k' then (k', v) :: rest else (k', v') :: dict_set k v rest
  end.

Definition dict_keys {V} (d : pydict V) : list string := map fst d.

(** [d.update(src)] *)
Definition dict_update {V} (d src : pydict V) : pydict V :=
  fold_left (fun acc kv => dict_set (fst kv) (snd kv) acc) src d.

Definition dict_has {V} (k : string) (d : pydict V) : bool :=
  match dict_get k d with Some _ => true | None => false end.

(** Truthiness of a decoded document, as in [if cached_data:]. *)
Definition truthy (j : json) : bool :=
  match j with
  | JNull => false
  | JBool b => b
  | JInt n => negb (Z.eqb n 0)
  | JStr s => negb (String.eqb s "")
  | JList l => match l with [] => false | _ => true end
  | JDict d => match d with [] => false | _ => true end
  end.

Definition truthy_opt (o : option json) : bool :=
  match o with Some j => truthy j | None => false end.

Definition truthy_str (o : option string) : bool :=
  match o with Some s => negb (String.eqb s "") | None => false end.

Definition type_name (j : json) : string :=
  match j with
  | JNull => "NoneType" | JBool _ => "bool" | JInt _ => "int"
  | JStr _ => "str" | JList _ => "list" | JDict _ => "dict"
  end.

(** ** Exceptions, requests and the process state *)

Inductive exn :=
| ValueError (msg : string)
| TypeError (msg : string)
| AttributeError (msg : string)
| RequestException (msg : string)  (* requests.RequestException and subclasses *)
| PyException (msg : string).      (* a plain [Exception(msg)] *)

Definition exn_str (e : exn) : string :=
  match e with
  | ValueError m | TypeError m | AttributeError m
  | RequestException m | PyException m => m
  end.

Definition is_request_exception (e : exn) : bool :=
  match e with RequestException _ => true | _ => false end.

Inductive http_verb := GET | POST.

Record request := Request
  { verb : http_verb; req_url : string; req_params : pydict pval }.

(** What the client reads from a [requests.Response]; [json_body] is the
    result of [response.json()], which raises on a body that is not JSON. *)
Record response := Response
  { status_code : Z; reason : string; text : string; resp_url : string;
    json_body : exn + json }.

Inductive net_result := NetRaises (e : exn) | NetResponse (r : response).

Record cache_file := CacheFile
  { mtime : Z;                (* microseconds since the epoch *)
    content : option json }.  (* [None]: not readable as JSON *)

Inductive event :=
| EvCacheGet (key : string) (res : option json)
| EvCacheSave (key : string) (data : json) (written : bool)
| EvNet (req : request) (res : net_result)
| EvSleep (seconds : Z)
| EvOut (s : string).

Record CFSession := Session
  { handle : option string; api_key : option string; api_secret : option string;
    csrf_token : option string; logged_in : bool }.

(** The running process and its environment.  The transport and the random
    generator are sequences consumed one element per use; [py_hash] is the
    interpreter's [hash] of a frozenset of items and [py_repr] its rendering
    of a non-scalar document in an f-string.  [log] has the newest event
    first. *)
Record world := World
  { now : Z;                          (* the clock, in microseconds *)
    rng : nat -> nat; rng_pos : nat;
    net : nat -> net_result; net_pos : nat;
    cache : gmap string cache_file;
    disk_ok : string -> bool;
    py_hash : pydict pval -> Z;
    py_repr : json -> string;
    heap : gmap nat (pydict pval);
    sess : CFSession;
    log : list event }.

Definition set_now (t : Z) (w : world) : world :=
  World t (rng w) (rng_pos w) (net w) (net_pos w) (cache w) (disk_ok w)
        (py_hash w) (py_repr w) (heap w) (sess w) (log w).
Definition set_rng_pos (n : nat) (w : world) : world :=
  World (now w) (rng w) n (net w) (net_pos w) (cache w) (disk_ok w)
        (py_hash w) (py_repr w) (heap w) (sess w) (log w).
Definition set_net_pos (n : nat) (w : world) : world :=
  World (now w) (rng w) (rng_pos w) (net w) n (cache w) (disk_ok w)
        (py_hash w) (py_repr w) (heap w) (sess w) (log w).
Definition set_cache (c : gmap string cache_file) (w : world) : world :=
  World (now w) (rng w) (rng_pos w) (net w) (net_pos w) c (disk_ok w)
        (py_hash w) (py_repr w) (heap w) (sess w) (log w).
Definition set_heap (h : gmap nat (pydict pval)) (w : world) : world :=
  World (now w) (rng w) (rng_pos w) (net w) (net_pos w) (cache w) (disk_ok w)
        (py_hash w) (py_repr w) h (sess w) (log w).
Definition set_sess (s : CFSession) (w : world) : world :=
  World (now w) (rng w) (rng_pos w) (net w) (net_pos w) (cache w) (disk_ok w)
        (py_hash w) (py_repr w) (heap w) s (log w).
Definition emit (e : event) (w : world) : world :=
  World (now w) (rng w) (rng_pos w) (net w) (net_pos w) (cache w) (disk_ok w)
        (py_hash w) (py_repr w) (heap w) (sess w) (e :: log w).

(** ** The monad of the client: state, exceptions and divergence *)

Inductive outcome (A : Type) :=
| Return (a : A)
| Raise (e : exn)
| Diverge.
Arguments Return {A} a.
Arguments Raise {A} e.
Arguments Diverge {A}.

Definition M (A : Type) : Type := world -> outcome A * world.

Definition ret {A} (a : A) : M A := fun w => (Return a, w).
Definition raise {A} (e : exn) : M A := fun w => (Raise e, w).
Definition diverge {A} : M A := fun w => (Diverge, w).

Definition bind {A B} (m : M A) (k : A -> M B) : M B :=
  fun w =>
    match m w with
    | (Return a, w') => k a w'
    | (Raise e, w') => (Raise e, w')
    | (Diverge, w') => (Diverge, w')
    end.

(** [try: m  except <any> as e: h e] *)
Definition try_catch {A} (m : M A) (h : exn -> M A) : M A :=
  fun w =>
    match m w with
    | (Raise e, w') => h e w'
    | r => r
    end.

Declare Scope py_scope.
Delimit Scope py_scope with py.
Notation "'let!' x ':=' m 'in' k" := (bind m (fun x => k))
  (at level 10, x name, m at level 200, k at level 200) : py_scope.
Notation "'do!' m 'in' k" := (bind m (fun _ => k))
  (at level 10, m at level 200, k at level 200) : py_scope.
Local Open Scope py_scope.

Definition get_world : M world := fun w => (Return w, w).
Definition modify (f : world -> world) : M unit := fun w => (Return tt, f w).

(** colorama's escape sequences *)
Definition ESC : string := String (ascii_of_nat 27) "".
Definition Fore_RED : string := ESC ++ "[31m".
Definition Fore_GREEN : string := ESC ++ "[32m".
Definition Fore_YELLOW : string := ESC ++ "[33m".
Definition Fore_CYAN : string := ESC ++ "[36m".
Definition Style_RESET_ALL : string := ESC ++ "[0m".
Definition NL : string := String (ascii_of_nat 10) "".
Definition CR : string := String (ascii_of_nat 13) "".

Definition stdout_write (s : string) : M unit := modify (emit (EvOut s)).
Definition print (s : string) : M unit := stdout_write (s ++ NL).

(** [time.sleep(seconds)] *)
Definition sleep (seconds : Z) : M unit :=
  modify (fun w => emit (EvSleep seconds) (set_now (now w + seconds * 1000000) w)).

(** [int(time.time())] *)
Definition unix_time : M Z := fun w => (Return (Z.quot (now w) 1000000), w).

(** [random.choice(seq)] for a non-empty [seq] *)
Definition random_choice (seq : string) : M ascii :=
  fun w =>
    let i := (rng w (rng_pos w) mod String.length seq)%nat in
    (Return (nth i (list_ascii_of_string seq) "a"%char),
     set_rng_pos (S (rng_pos w)) w).

(** [session.get] / [session.post] *)
Definition session_send (req : request) : M response :=
  fun w =>
    let res := net w (net_pos w) in
    let w' := emit (EvNet req res) (set_net_pos (S (net_pos w)) w) in
    match res with
    | NetRaises e => (Raise e, w')
    | NetResponse r => (Return r, w')
    end.

(** [response.raise_for_status()] *)
Definition raise_for_status (r : response) : M unit :=
  if Z.leb 400 (status_code r) && Z.ltb (status_code r) 500 then
    raise (RequestException (str_of_Z (status_code r) ++ " Client Error: "
                             ++ reason r ++ " for url: " ++ resp_url r))
  else if Z.leb 500 (status_code r) && Z.ltb (status_code r) 600 then
    raise (RequestException (str_of_Z (status_code r) ++ " Server Error: "
                             ++ reason r ++ " for url: " ++ resp_url r))
  else ret tt.

(** [response.json()] *)
Definition response_json (r : response) : M json :=
  match json_body r with
  | inl e => raise e
  | inr j => ret j
  end.

(** Objects: the caller's [params] dict lives at a location of the heap. *)
Definition read_dict (p : nat) : M (pydict pval) :=
  fun w => (Return (heap w !!! p), w).
Definition write_dict (p : nat) (d : pydict pval) : M unit :=
  modify (fun w => set_heap (<[p := d]> (heap w)) w).
Definition fresh_loc (h : gmap nat (pydict pval)) : nat :=
  S (max_list (elements (dom h))).
Definition alloc_dict (d : pydict pval) : M nat :=
  fun w => let p := fresh_loc (heap w) in
           (Return p, set_heap (<[p := d]> (heap w)) w).

(** [str(x)] of a document inside an f-string *)
Definition render (w : world) (x : json) : string :=
  match x with
  | JNull => "None"
  | JBool true => "True"
  | JBool false => "False"
  | JInt n => str_of_Z n
  | JStr s => s
  | _ => py_repr w x
  end.

Definition json_str (x : json) : M string := fun w => (Return (render w x), w).

(** [data.get(key, default)] on a decoded document *)
Definition json_get (data : json) (key : string) (default : json) : M json :=
  match data with
  | JDict d => ret (match dict_get key d with Some v => v | None => default end)
  | _ => raise (AttributeError ("'" ++ type_name data
                                ++ "' object has no attribute 'get'"))
  end.

(** ** class CFSession *)

Definition CF_API_BASE : string := "https://codeforces.com/api/".
Definition CF_BASE_URL : string := "https://codeforces.com/".
Definition CACHE_TTL : Z := 300.

(** [urljoin(base, rel)] for the relative paths the client joins to a base
    that ends in a slash. *)
Definition urljoin (base rel : string) : string := base ++ rel.

Definition range (n : Z) : list Z := map Z.of_nat (seq 0 (Z.to_nat n)).

Definition get_session : M CFSession := fun w => (Return (sess w), w).

Definition is_authenticated (s : CFSession) : bool :=
  truthy_str (handle s) && truthy_str (api_key s) && truthy_str (api_secret s).

Definition ascii_lowercase_digits : string := "abcdefghijklmnopqrstuvwxyz0123456789".

Fixpoint random_string (n : nat) : M string :=
  match n with
  | O => ret ""
  | S k =>
      let! c := random_choice ascii_lowercase_digits in
      let! rest := random_string k in
      ret (String c rest)
  end.

Definition api_auth_params : M (pydict pval) :=
  let! s := get_session in
  if negb (is_authenticated s) then
    raise (ValueError "Not authenticated. Please run 'cfcli login' first.")
  else
    let! rand := random_string 6 in
    let! current_time := unix_time in
    ret [ ("apiKey", opt_pval (api_key s));
          ("time", PStr (str_of_Z current_time));
          ("rand", PStr rand) ].

(** The string that [sign_request] hashes.  [params[key]] cannot fail: the
    keys come from the dict itself. *)
Definition signature_string (method : string) (params : pydict pval)
    (secret : option string) : string :=
  let sorted_keys := sorted (dict_keys params) in
  let signature_string :=
    fold_left
      (fun acc key =>
         acc ++ key ++ "="
             ++ match dict_get key params with Some v => pval_str v | None => "" end
             ++ "&")
      sorted_keys (method ++ "?") in
  rstrip "&" signature_string ++ "#" ++ pval_str (opt_pval secret).

Definition api_sig (method : string) (params : pydict pval)
    (secret : option string) : string :=
  "123456" ++ sha512_hexdigest (signature_string method params secret).

(** [sign_request] stores the signature in the dict it was given and returns
    that same object. *)
Definition sign_request (method : string) (p : nat) : M nat :=
  let! s := get_session in
  let! params := read_dict p in
  do! write_dict p (dict_set "apiSig" (PStr (api_sig method params (api_secret s))) params) in
  ret p.

(** What [_get_from_cache] returns: nothing for an absent file, nothing when
    [datetime.now() - file_time > timedelta(seconds=CACHE_TTL)], nothing for
    a file that does not load, the loaded document otherwise. *)
Definition cache_read (key : string) (w : world) : option json :=
  match cache w !! key with
  | None => None
  | Some f =>
      if Z.gtb (now w - mtime f) (CACHE_TTL * 1000000) then None
      else content f
  end.

Definition _get_from_cache (key : string) : M (option json) :=
  fun w => (Return (cache_read key w), emit (EvCacheGet key (cache_read key w)) w).

(** [_save_to_cache], for a key that names a file (as the keys that
    [call_api] builds from a method name and a number do): [disk_ok] tells
    whether [open] succeeds, and when it does not it fails with the
    [IOError] that the function catches. *)
Definition _save_to_cache (key : string) (data : json) : M unit :=
  let! w := get_world in
  if disk_ok w key then
    modify (fun w => emit (EvCacheSave key data true)
                       (set_cache (<[key := CacheFile (now w) (Some data)]> (cache w)) w))
  else
    do! modify (emit (EvCacheSave key data false)) in
    print (Fore_YELLOW ++ "Warning: Could not cache data." ++ Style_RESET_ALL).

Fixpoint retry_loop {A} (func : M A) (max_retries base_delay : Z)
    (attempts : list Z) : M (option A) :=
  match attempts with
  | [] => ret None
  | attempt :: rest =>
      let delay := base_delay * 2 ^ attempt in
      do! print (Fore_YELLOW ++ "Retrying in " ++ str_of_Z delay
                 ++ " seconds... (Attempt " ++ str_of_Z (attempt + 1) ++ "/"
                 ++ str_of_Z max_retries ++ ")" ++ Style_RESET_ALL) in
      do! sleep delay in
      try_catch
        (let! r := func in ret (Some r))
        (fun e =>
           if Z.eqb attempt (max_retries - 1) then
             do! print (Fore_RED ++ "Max retries reached. Giving up." ++ Style_RESET_ALL) in
             raise e
           else retry_loop func max_retries base_delay rest)
  end.

Definition _retry_with_backoff {A} (func : M A) (max_retries base_delay : Z)
    : M (option A) :=
  retry_loop func max_retries base_delay (range max_retries).

Definition json_is_str (j : json) (s : string) : bool :=
  match j with JStr s' => String.eqb s' s | _ => false end.

(** [f"{method}_{hash(frozenset(params.items()))}"] *)
Definition cache_key_of (w : world) (method : string) (items : pydict pval) : string :=
  method ++ "_" ++ str_of_Z (py_hash w items).

(** The [try] block of [call_api]. *)
Definition api_request (url : string) (p : nat) (cache_key : string) : M (option json) :=
  let! params := read_dict p in
  let! response := session_send (Request GET url params) in
  do! raise_for_status response in
  let! data := response_json response in
  let! status := json_get data "status" JNull in
  if json_is_str status "OK" then
    do! _save_to_cache cache_key data in
    ret (Some data)
  else
    let! comment := json_get data "comment" (JStr "Unknown error") in
    let! c := json_str comment in
    raise (PyException ("API Error: " ++ c)).

(** The [if self.is_authenticated() and method != "user.info"] block of
    [call_api]: the dict at [p] is updated in place and signed. *)
Definition authenticate_params (method : string) (p : nat) : M unit :=
  let! s := get_session in
  if is_authenticated s && negb (String.eqb method "user.info") then
    let! auth_params := api_auth_params in
    let! d := read_dict p in
    do! write_dict p (dict_update d auth_params) in
    let! _ := sign_request method p in
    ret tt
  else ret tt.

(** The two [except] clauses of [call_api]; [again] is the body of the
    lambda handed to [_retry_with_backoff], whose result is not returned. *)
Definition call_api_except (again : M (option json)) (e : exn) : M (option json) :=
  if is_request_exception e then
    do! print (Fore_RED ++ "Network error: " ++ exn_str e ++ Style_RESET_ALL) in
    let! _ := _retry_with_backoff again 3 1 in
    ret None
  else
    do! print (Fore_RED ++ "Error: " ++ exn_str e ++ Style_RESET_ALL) in
    raise e.

(** [call_api]; [fuel] bounds the depth of the self-calls made through
    [_retry_with_backoff].  A call that returns nothing returns [None]. *)
Fixpoint call_api (fuel : nat) (method : string) (params : option nat)
    : M (option json) :=
  match fuel with
  | O => diverge
  | S fuel' =>
      let! p := match params with
                | None => alloc_dict []
                | Some p => ret p
                end in
      let! items := read_dict p in
      let! w := get_world in
      let cache_key := cache_key_of w method items in
      let! cached_data := _get_from_cache cache_key in
      if truthy_opt cached_data then ret cached_data
      else
        let url := urljoin CF_API_BASE method in
        do! authenticate_params method p in
        try_catch (api_request url p cache_key)
                  (call_api_except (call_api fuel' method (Some p)))
  end.

(** ** submit: from the prepared submission on (the token, the form, the POST) *)

Definition DQ : string := String (ascii_of_nat 34) "".

Fixpoint str_drop (n : nat) (s : string) : string :=
  match n, s with
  | S k, String _ rest => str_drop k rest
  | _, _ => s
  end.

Fixpoint take_until_quote (s : string) : string * string :=
  match s with
  | EmptyString => (EmptyString, EmptyString)
  | String c rest =>
      if Ascii.eqb c (ascii_of_nat 34) then (EmptyString, s)
      else let '(run, tl) := take_until_quote rest in (String c run, tl)
  end.

Definition csrf_prefix : string :=
  "name=" ++ DQ ++ "X-Csrf-Token" ++ DQ ++ " content=" ++ DQ.

(** One attempt of the token pattern at the start of [s]: the attribute
    prefix, then a non-empty run of characters other than the double quote,
    then a double quote. *)
Definition csrf_match_here (s : string) : option string :=
  if String.prefix csrf_prefix s then
    let '(run, tl) := take_until_quote (str_drop (String.length csrf_prefix) s) in
    match run, tl with
    | String _ _, String _ _ => Some run
    | _, _ => None
    end
  else None.

(** [re.search(csrf_pattern, text)], group 1 of the leftmost match *)
Fixpoint csrf_search (s : string) : option string :=
  match csrf_match_here s with
  | Some tok => Some tok
  | None =>
      match s with
      | EmptyString => None
      | String _ rest => csrf_search rest
      end
  end.

Definition is_digit (c : ascii) : bool :=
  (48 <=? nat_of_ascii c)%nat && (nat_of_ascii c <=? 57)%nat.

Fixpoint take_digits (s : string) : string * string :=
  match s with
  | EmptyString => (EmptyString, EmptyString)
  | String c rest =>
      if is_digit c then let '(run, tl) := take_digits rest in (String c run, tl)
      else (EmptyString, s)
  end.

Definition submission_id_prefix : string := "submissionId=" ++ DQ.

Definition submission_id_match_here (s : string) : option string :=
  if String.prefix submission_id_prefix s then
    let '(run, tl) := take_digits (str_drop (String.length submission_id_prefix) s) in
    match run, tl with
    | String _ _, String c _ =>
        if Ascii.eqb c (ascii_of_nat 34) then Some run else None
    | _, _ => None
    end
  else None.

(** [re.search] of the submission id pattern (the attribute prefix, one or
    more digits, a double quote), on pages whose digits are ASCII *)
Fixpoint submission_id_search (s : string) : option string :=
  match submission_id_match_here s with
  | Some i => Some i
  | None =>
      match s with
      | EmptyString => None
      | String _ rest => submission_id_search rest
      end
  end.

Definition duplicate_phrase : string := "You have submitted exactly the same code".

Definition duplicate_warning_line : string :=
  Fore_YELLOW ++ "Warning: You have submitted exactly the same code before."
              ++ Style_RESET_ALL ++ NL.

Definition submission_failed_line : string :=
  Fore_RED ++ "Submission failed. Please check your credentials and try again."
           ++ Style_RESET_ALL ++ NL.

(** The [try] block of [submit]: the POST and the reading of its response. *)
Definition submit_form (submit_url : string) (contest_id : Z)
    (problem_index : string) (submit_data : pydict pval) : M unit :=
  do! print (Fore_CYAN ++ "Submitting solution to problem " ++ problem_index
             ++ " in contest " ++ str_of_Z contest_id ++ "..." ++ Style_RESET_ALL) in
  let! response := session_send (Request POST submit_url submit_data) in
  if contains duplicate_phrase (text response) then
    print (Fore_YELLOW ++ "Warning: You have submitted exactly the same code before."
           ++ Style_RESET_ALL)
  else if contains ("contest/" ++ str_of_Z contest_id ++ "/my") (resp_url response) then
    do! print (Fore_GREEN ++ "Solution submitted successfully!" ++ Style_RESET_ALL) in
    match submission_id_search (text response) with
    | Some submission_id =>
        do! print (Fore_CYAN ++ "Submission ID: " ++ submission_id ++ Style_RESET_ALL) in
        print (Fore_CYAN ++ "Run 'cfcli status " ++ submission_id
               ++ "' to check the verdict." ++ Style_RESET_ALL)
    | None => ret tt
    end
  else
    do! print (Fore_RED ++ "Submission failed. Please check your credentials and try again."
               ++ Style_RESET_ALL) in
    print (Fore_YELLOW ++ "Response URL: " ++ resp_url response ++ Style_RESET_ALL).

(** [cf_session.csrf_token = tok] *)
Definition with_csrf_token (tok : string) (s : CFSession) : CFSession :=
  Session (handle s) (api_key s) (api_secret s) (Some tok) (logged_in s).

(** The form fields of a submission. *)
Definition submit_data (token : option string) (problem_index source_code : string)
    : pydict pval :=
  [ ("csrf_token", opt_pval token);
    ("action", PStr "submitSolutionFormSubmitted");
    ("submittedProblemIndex", PStr problem_index);
    ("programTypeId", PStr "54");
    ("source", PStr source_code);
    ("tabSize", PStr "4");
    ("sourceFile", PStr "") ].

(** The [except] clause of [submit]. *)
Definition submit_except (e : exn) : M unit :=
  print (Fore_RED ++ "Error submitting solution: " ++ exn_str e ++ Style_RESET_ALL).

(** [submit] once the contest id, the problem index and the source text are
    known and the web login is done. *)
Definition submit_source (contest_id : Z) (problem_index source_code : string)
    : M unit :=
  let submit_url :=
    urljoin CF_BASE_URL ("contest/" ++ str_of_Z contest_id ++ "/submit") in
  let! s := get_session in
  let! have_token :=
    (if negb (truthy_str (csrf_token s)) then
       do! print (Fore_CYAN ++ "Getting CSRF token..." ++ Style_RESET_ALL) in
       let! response := session_send (Request GET submit_url []) in
       match csrf_search (text response) with
       | None =>
           do! print (Fore_RED ++ "Could not extract CSRF token." ++ Style_RESET_ALL) in
           ret false
       | Some tok =>
           do! modify (fun w => set_sess (with_csrf_token tok (sess w)) w) in
           ret true
       end
     else ret true) in
  if negb have_token then ret tt
  else
    let! s := get_session in
    try_catch (submit_form submit_url contest_id problem_index
                 (submit_data (csrf_token s) problem_index source_code))
              submit_except.

(** ** status: the verdict poller of one submission *)

Fixpoint str_repeat (s : string) (n : nat) : string :=
  match n with O => "" | S k => s ++ str_repeat s k end.

(** [x // 1024] *)
Definition floordiv_1024 (x : json) : M json :=
  match x with
  | JInt n => ret (JInt (n / 1024))
  | JBool b => ret (JInt ((if b then 1 else 0) / 1024))
  | _ => raise (TypeError ("unsupported operand type(s) for //: '"
                           ++ type_name x ++ "' and 'int'"))
  end.

Definition json_has (data : json) (key : string) : bool :=
  match data with JDict d => dict_has key d | _ => false end.

Definition max_polling_line : string :=
  NL ++ Fore_YELLOW ++ "Reached maximum polling attempts. Please check the status manually."
     ++ Style_RESET_ALL ++ NL.

(** The body of [for attempt in range(max_attempts)] with its [else]. *)
Fixpoint poll (url : string) (params : pydict pval) (attempts : list Z) : M unit :=
  match attempts with
  | [] =>
      print (NL ++ Fore_YELLOW
             ++ "Reached maximum polling attempts. Please check the status manually."
             ++ Style_RESET_ALL)
  | attempt :: rest =>
      let! response := session_send (Request GET url params) in
      if negb (Z.eqb (status_code response) 200) then
        print (Fore_RED ++ "Error: HTTP " ++ str_of_Z (status_code response)
               ++ Style_RESET_ALL)
      else
        let! data := response_json response in
        let! verdict := json_get data "verdict" JNull in
        if json_is_str verdict "TESTING" || json_is_str verdict "" then
          let dots := str_repeat "." (Z.to_nat (attempt + 1)) in
          do! stdout_write (CR ++ Fore_YELLOW ++ "Verdict: In queue" ++ dots
                            ++ str_repeat " " 10 ++ Style_RESET_ALL) in
          do! sleep 2 in
          poll url params rest
        else
          do! print "" in
          let color := if json_is_str verdict "OK" then Fore_GREEN else Fore_RED in
          let! time_consumed := json_get data "timeConsumedMillis" (JStr "N/A") in
          let! memory_bytes := json_get data "memoryConsumedBytes" (JStr "N/A") in
          let! memory_consumed := floordiv_1024 memory_bytes in
          let! v := json_str verdict in
          do! print (color ++ "Verdict: " ++ v ++ Style_RESET_ALL) in
          let! t := json_str time_consumed in
          do! print ("Time: " ++ t ++ " ms") in
          let! m := json_str memory_consumed in
          do! print ("Memory: " ++ m ++ " KB") in
          if json_has data "testset" && json_has data "testCount" then
            let! passed := json_get data "passedTestCount" (JInt 0) in
            let! total := json_get data "testCount" (JInt 0) in
            let! ps := json_str passed in
            let! ts := json_str total in
            print ("Tests: " ++ ps ++ "/" ++ ts)
          else ret tt
  end.

(** [status] for a given submission id, after the web login. *)
Definition status_submission (submission_id : string) : M unit :=
  try_catch
    (let url := urljoin CF_BASE_URL "data/submitSource" in
     let params := [("submissionId", PStr submission_id)] in
     do! print (Fore_CYAN ++ "Checking status for submission " ++ submission_id
                ++ "..." ++ Style_RESET_ALL) in
     let max_attempts := 10 in
     poll url params (range max_attempts))
    (fun e => print (Fore_RED ++ "Error checking status: " ++ exn_str e
                     ++ Style_RESET_ALL)).

(** ** web_login *)

(** [cf_session.logged_in = b] *)
Definition with_logged_in (b : bool) (s : CFSession) : CFSession :=
  Session (handle s) (api_key s) (api_secret s) (csrf_token s) b.

Definition invalid_login_phrase : string := "Invalid handle/email or password".

(** The [except requests.RequestException] clause of [web_login]: any other
    exception goes on to the caller. *)
Definition web_login_except (e : exn) : M bool :=
  if is_request_exception e then
    do! print (Fore_RED ++ "Network error during login: " ++ exn_str e
               ++ Style_RESET_ALL) in
    ret false
  else raise e.

Definition web_login : M bool :=
  let! s := get_session in
  if negb (truthy_str (handle s)) then
    do! print (Fore_RED ++ "Handle not set. Please run 'cfcli login' first."
               ++ Style_RESET_ALL) in
    ret false
  else
    try_catch
      (let! response := session_send (Request GET CF_BASE_URL []) in
       do! raise_for_status response in
       match csrf_search (text response) with
       | None =>
           do! print (Fore_RED ++ "Could not extract CSRF token." ++ Style_RESET_ALL) in
           ret false
       | Some tok =>
           do! modify (fun w => set_sess (with_csrf_token tok (sess w)) w) in
           let! s := get_session in
           let login_data :=
             [ ("handleOrEmail", opt_pval (handle s));
               ("action", PStr "enter");
               ("csrf_token", opt_pval (csrf_token s)) ] in
           let login_url := urljoin CF_BASE_URL "enter" in
           let! response := session_send (Request POST login_url login_data) in
           if contains invalid_login_phrase (text response) then
             do! print (Fore_RED ++ "Login failed. Please check your credentials."
                        ++ Style_RESET_ALL) in
             ret false
           else
             do! modify (fun w => set_sess (with_logged_in true (sess w)) w) in
             ret true
       end)
      web_login_except.

(** ** The command login *)

(** The three assignments to [cf_session] that open [login]. *)
Definition with_credentials (h key secret : string) (s : CFSession) : CFSession :=
  Session (Some h) (Some key) (Some secret) (csrf_token s) (logged_in s).

(** [login(handle, key, secret)]; [fuel] is the depth allowed to [call_api]. *)
Definition login (fuel : nat) (h key secret : string) : M bool :=
  do! modify (fun w => set_sess (with_credentials h key secret (sess w)) w) in
  try_catch
    (let! params := alloc_dict [("handles", PStr h)] in
     let! response := call_api fuel "user.info" (Some params) in
     let! ok := match response with
                | None => ret false
                | Some r =>
                    if truthy r then
                      let! status := json_get r "status" JNull in
                      ret (json_is_str status "OK")
                    else ret false
                end in
     if ok then
       do! print (Fore_GREEN ++ "Authentication successful! Welcome, " ++ h ++ "!"
                  ++ Style_RESET_ALL) in
       ret true
     else
       do! print (Fore_RED ++ "Authentication failed. Please check your credentials."
                  ++ Style_RESET_ALL) in
       ret false)
    (fun e =>
       do! print (Fore_RED ++ "Error during authentication: " ++ exn_str e
                  ++ Style_RESET_ALL) in
       ret false).

(** ** status: the command, with its contest listing *)

(** [len(s)]: the code points of [s], that is its bytes other than the
    continuation bytes of UTF-8. *)
Definition py_len (s : string) : nat :=
  length (filter (fun c => negb ((128 <=? nat_of_ascii c)%nat && (nat_of_ascii c <? 192)%nat))
                 (list_ascii_of_string s)).

(** [f"{s:<width}"] for a string *)
Definition ljust (width : nat) (s : string) : string :=
  s ++ str_repeat " " (width - py_len s).

(** [re.search] by one attempt per position, leftmost first: [here] is one
    attempt of the rest of the pattern at the start of its argument and gives
    what it captured with the text left after the match. *)
Fixpoint re_search {A} (here : string -> option (A * string)) (s : string)
    : option (A * string) :=
  match here s with
  | Some r => Some r
  | None =>
      match s with
      | EmptyString => None
      | String _ rest => re_search here rest
      end
  end.

(** An attribute with a value of one or more digits, in double quotes, at
    the start of [s] (the pattern's attribute name, a quote, a run of digits,
    a quote), on pages whose digits are ASCII: the digits and the text left. *)
Definition quoted_digits (attr : string) (s : string) : option (string * string) :=
  if String.prefix (attr ++ DQ) s then
    let '(run, tl) := take_digits (str_drop (String.length (attr ++ DQ)) s) in
    match run, tl with
    | String _ _, String c tl' =>
        if Ascii.eqb c (ascii_of_nat 34) then Some (run, tl') else None
    | _, _ => None
    end
  else None.

(** An attribute with a quoted value free of double quotes at the start of
    [s]; the value has at least one character when [nonempty] is set (the
    pattern's plus sign instead of its star). *)
Definition quoted_run (nonempty : bool) (attr : string) (s : string)
    : option (string * string) :=
  if String.prefix (attr ++ DQ) s then
    let '(run, tl) := take_until_quote (str_drop (String.length (attr ++ DQ)) s) in
    match tl with
    | String _ tl' =>
        if nonempty && String.eqb run "" then None else Some (run, tl')
    | EmptyString => None
    end
  else None.

(** One attempt of [submissions_pattern] at the start of [s]; each lazy
    [.*?] (with [re.DOTALL]) is a leftmost search for the rest of the
    pattern. *)
Definition submission_row_here (s : string)
    : option ((string * string * string) * string) :=
  match quoted_digits "data-submission-id=" s with
  | None => None
  | Some (subm_id, s1) =>
      re_search
        (fun s2 =>
           match quoted_digits "data-problemId=" s2 with
           | None => None
           | Some (_, s3) =>
               re_search
                 (fun s4 =>
                    match quoted_run true "data-problemIndex=" s4 with
                    | None => None
                    | Some (problem_index, s5) =>
                        re_search
                          (fun s6 =>
                             match quoted_run false "submissionVerdict=" s6 with
                             | None => None
                             | Some (verdict, s7) =>
                                 Some ((subm_id, problem_index, verdict), s7)
                             end)
                          s5
                    end)
                 s3
           end)
        s1
  end.

(** [re.findall(submissions_pattern, text, re.DOTALL)]: the matches from left
    to right, each search starting where the previous match ended.  A match
    is never empty, so [fuel] above the length of the text is enough. *)
Fixpoint findall_submissions (fuel : nat) (s : string)
    : list (string * string * string) :=
  match fuel with
  | O => []
  | S fuel' =>
      match re_search submission_row_here s with
      | None => []
      | Some (row, rest) => row :: findall_submissions fuel' rest
      end
  end.

Definition not_registered_phrase : string := "You are not registered".

(** The loop over the submissions found. *)
Fixpoint print_submissions (submissions : list (string * string * string))
    : M unit :=
  match submissions with
  | [] => ret tt
  | (subm_id, problem_index, verdict) :: rest =>
      let verdict := if negb (String.eqb verdict "") then verdict else "IN QUEUE" in
      let color :=
        if String.eqb verdict "OK" then Fore_GREEN
        else if negb (String.eqb verdict "IN QUEUE" || String.eqb verdict "TESTING")
             then Fore_RED
             else Fore_YELLOW in
      do! print (ljust 12 subm_id ++ " " ++ ljust 10 problem_index ++ " "
                 ++ color ++ verdict ++ Style_RESET_ALL) in
      print_submissions rest
  end.

(** The [else] branch of [status]: all the submissions of a contest. *)
Definition status_contest (contest_id : Z) : M unit :=
  let url := urljoin CF_BASE_URL ("contest/" ++ str_of_Z contest_id ++ "/my") in
  let! response := session_send (Request GET url []) in
  if contains not_registered_phrase (text response) then
    print (Fore_RED ++ "You are not registered for contest " ++ str_of_Z contest_id
           ++ "." ++ Style_RESET_ALL)
  else
    let submissions :=
      findall_submissions (S (String.length (text response))) (text response) in
    match submissions with
    | [] =>
        print (Fore_YELLOW ++ "No submissions found for contest "
               ++ str_of_Z contest_id ++ "." ++ Style_RESET_ALL)
    | _ :: _ =>
        do! print (NL ++ Fore_CYAN ++ "== Submissions for Contest "
                   ++ str_of_Z contest_id ++ " ==" ++ Style_RESET_ALL) in
        do! print (Fore_CYAN ++ ljust 12 "ID" ++ " " ++ ljust 10 "Problem" ++ " "
                   ++ ljust 15 "Verdict" ++ Style_RESET_ALL) in
        do! print (str_repeat "-" 40) in
        print_submissions submissions
    end.

(** [not contest_id] is true of [None] and of 0. *)
Definition truthy_Z (o : option Z) : bool :=
  match o with Some n => negb (Z.eqb n 0) | None => false end.

(** [status(submission_id, contest_id)] *)
Definition status (submission_id : option string) (contest_id : option Z) : M unit :=
  if negb (truthy_str submission_id) && negb (truthy_Z contest_id) then
    print (Fore_RED ++ "Please provide either a submission ID or a contest ID."
           ++ Style_RESET_ALL)
  else
    let! s := get_session in
    let! ready :=
      (if negb (logged_in s) then
         do! print (Fore_CYAN ++ "Logging in to Codeforces..." ++ Style_RESET_ALL) in
         let! ok := web_login in
         if negb ok then
           do! print (Fore_RED
                      ++ "Failed to log in to Codeforces website. Cannot check status."
                      ++ Style_RESET_ALL) in
           ret false
         else ret true
       else ret true) in
    if negb ready then ret tt
    else
      match submission_id, contest_id with
      | Some sid, _ =>
          if negb (String.eqb sid "") then status_submission sid
          else
            match contest_id with
            | Some cid =>
                try_catch (status_contest cid)
                  (fun e => print (Fore_RED ++ "Error checking status: " ++ exn_str e
                                   ++ Style_RESET_ALL))
            | None => ret tt
            end
      | None, Some cid =>
          try_catch (status_contest cid)
            (fun e => print (Fore_RED ++ "Error checking status: " ++ exn_str e
                             ++ Style_RESET_ALL))
      | None, None => ret tt
      end.

(** ** File names: generate writes them, submit reads them *)

Definition is_upper (c : ascii) : bool :=
  (65 <=? nat_of_ascii c)%nat && (nat_of_ascii c <=? 90)%nat.

(** [re.match(r'^[A-Z][0-9]?$', problem_index)] in [generate]: the dollar
    sign also matches just before a newline that ends the string. *)
Definition problem_index_ok (problem_index : string) : bool :=
  let at_end (s : string) := String.eqb s "" || String.eqb s NL in
  match problem_index with
  | EmptyString => false
  | String c rest =>
      is_upper c
      && (match rest with
          | String d rest' => (is_digit d && at_end rest') || at_end rest
          | EmptyString => true
          end)
  end.

(** [f"Contest{contest_id}_{problem_index}.cpp"] *)
Definition output_filename (contest_id : Z) (problem_index : string) : string :=
  "Contest" ++ str_of_Z contest_id ++ "_" ++ problem_index ++ ".cpp".

(** [f"https://codeforces.com/contest/{contest_id}/problem/{problem_index}"] *)
Definition problem_url (contest_id : Z) (problem_index : string) : string :=
  "https://codeforces.com/contest/" ++ str_of_Z contest_id ++ "/problem/"
  ++ problem_index.

(** [re.match(r'Contest(\d+)_([A-Z][0-9]?)\.cpp', name)] in [submit], for
    names whose digits are ASCII: groups 1 and 2.  The match is anchored at
    the start only. *)
Definition filename_match (name : string) : option (string * string) :=
  if String.prefix "Contest" name then
    let '(digits, tl) := take_digits (str_drop 7 name) in
    match digits, tl with
    | String _ _, String sep (String c tl2) =>
        if Ascii.eqb sep "_" && is_upper c then
          match tl2 with
          | String d tl3 =>
              if is_digit d && String.prefix ".cpp" tl3
              then Some (digits, String c (String d ""))
              else if String.prefix ".cpp" tl2 then Some (digits, String c "")
                   else None
          | EmptyString => None
          end
        else None
    | _, _ => None
    end
  else None.

(** [int(s)] for a run of ASCII digits *)
Definition int_of_digits (s : string) : Z :=
  fold_left (fun acc c => 10 * acc + (Z.of_nat (nat_of_ascii c) - 48))
            (list_ascii_of_string s) 0.

(** What [submit] reads from a file name that follows the pattern:
    [int(match.group(1))] and [match.group(2)]. *)
Definition submit_target (name : string) : option (Z * string) :=
  match filename_match name with
  | Some (digits, problem_index) => Some (int_of_digits digits, problem_index)
  | None => None
  end.

(** * Notions used in the statements *)

(** ** Digests *)

(** A lowercase hexadecimal digit. *)
Definition lower_hex (c : ascii) : bool :=
  existsb (Ascii.eqb c) (list_ascii_of_string "0123456789abcdef").

(** ** The authentication parameters *)

Definition credentials_complete (s : CFSession) : Prop :=
  exists h k x,
    handle s = Some h /\ api_key s = Some k /\ api_secret s = Some x
    /\ h <> "" /\ k <> "" /\ x <> "".

Definition lower_alnum (c : ascii) : bool :=
  ((97 <=? nat_of_ascii c)%nat && (nat_of_ascii c <=? 122)%nat)
  || ((48 <=? nat_of_ascii c)%nat && (nat_of_ascii c <=? 57)%nat).

(** ** A Hoare logic for the client's monad *)

Definition hoare {A} (P : world -> Prop) (m : M A)
    (Q : outcome A -> world -> Prop) : Prop :=
  forall w, P w -> Q (fst (m w)) (snd (m w)).

(** A state invariant, whatever the outcome. *)
Definition preserves {A} (I : world -> Prop) (m : M A) : Prop :=
  hoare I m (fun _ w => I w).

(** ** The API client: lookups, dispatches and cache writes *)

Definition status_ok (data : json) : Prop :=
  exists d, data = JDict d /\ dict_get "status" d = Some (JStr "OK").

Definition api_url (u : string) : bool := String.prefix CF_API_BASE u.

(** The discipline of the log, newest event first: a request to the API
    comes right after a cache lookup that gave nothing usable, and a cache
    write comes right after the response it stores, whose status is OK. *)
Fixpoint log_ok (l : list event) : Prop :=
  match l with
  | [] => True
  | EvNet req res :: rest =>
      (api_url (req_url req) = true ->
       match rest with
       | EvCacheGet _ cached :: _ => truthy_opt cached = false
       | _ => False
       end)
      /\ log_ok rest
  | EvCacheSave key data _ :: rest =>
      status_ok data
      /\ match rest with
         | EvNet _ (NetResponse r) :: _ => json_body r = inr data
         | _ => False
         end
      /\ log_ok rest
  | _ :: rest => log_ok rest
  end.

Definition cache_ok (c : gmap string cache_file) : Prop :=
  forall k f data, c !! k = Some f -> content f = Some data -> status_ok data.

Definition client_inv (w : world) : Prop :=
  log_ok (log w) /\ cache_ok (cache w).

Definition after_miss (w : world) : Prop :=
  match log w with
  | EvCacheGet _ cached :: _ => truthy_opt cached = false
  | _ => False
  end.

(** What [authenticate_params] leaves alone. *)
Definition same_env (w w' : world) : Prop :=
  log w' = log w /\ cache w' = cache w /\ net w' = net w
  /\ net_pos w' = net_pos w /\ now w' = now w /\ sess w' = sess w
  /\ disk_ok w' = disk_ok w /\ py_hash w' = py_hash w.

Definition signs (s : CFSession) (method : string) : bool :=
  is_authenticated s && negb (String.eqb method "user.info").

Definition auth_keys : list string := ["apiKey"; "time"; "rand"; "apiSig"].

(** The state of the caller's dict [p] and of the log, from the first
    dispatch on: keys outside [auth_keys] keep the value they have in [d0],
    every key of [d1] stays, the other objects are those of [h0], and the
    log extends [L]. *)
Definition params_inv (p : nat) (d0 d1 : pydict pval)
    (h0 : gmap nat (pydict pval)) (L : list event) (w : world) : Prop :=
  (forall k, ~ In k auth_keys -> dict_get k (heap w !!! p) = dict_get k d0)
  /\ (forall k, dict_has k d1 = true -> dict_has k (heap w !!! p) = true)
  /\ (forall q, q <> p -> heap w !! q = h0 !! q)
  /\ exists evs, log w = (evs ++ L)%list.

(** Without signing, nothing on the heap moves. *)
Definition unsigned_inv (method : string) (h0 : gmap nat (pydict pval))
    (w : world) : Prop :=
  heap w = h0 /\ signs (sess w) method = false.

(** ** Transport failures and the retry *)

(** The message of the [requests.RequestException] that the [try] block of
    [call_api] raises on this answer of the transport, if it raises one: the
    request itself fails, the status is an error status, or the body does
    not decode. *)
Definition transport_error (res : net_result) : option string :=
  match res with
  | NetRaises (RequestException m) => Some m
  | NetRaises _ => None
  | NetResponse r =>
      if Z.leb 400 (status_code r) && Z.ltb (status_code r) 500 then
        Some (str_of_Z (status_code r) ++ " Client Error: "
              ++ reason r ++ " for url: " ++ resp_url r)
      else if Z.leb 500 (status_code r) && Z.ltb (status_code r) 600 then
        Some (str_of_Z (status_code r) ++ " Server Error: "
              ++ reason r ++ " for url: " ++ resp_url r)
      else
        match json_body r with
        | inl (RequestException m) => Some m
        | _ => None
        end
  end.

(** The document of an answer that the [try] block accepts. *)
Definition ok_response (res : net_result) : option json :=
  match res with
  | NetRaises _ => None
  | NetResponse r =>
      if Z.leb 400 (status_code r) && Z.ltb (status_code r) 500 then None
      else if Z.leb 500 (status_code r) && Z.ltb (status_code r) 600 then None
      else
        match json_body r with
        | inr (JDict d) =>
            match dict_get "status" d with
            | Some (JStr s) => if String.eqb s "OK" then Some (JDict d) else None
            | _ => None
            end
        | _ => None
        end
  end.

Definition sent (req : request) (w : world) : world :=
  emit (EvNet req (net w (net_pos w))) (set_net_pos (S (net_pos w)) w).

(** The durations slept, newest first. *)
Fixpoint sleeps (l : list event) : list Z :=
  match l with
  | [] => []
  | EvSleep d :: rest => d :: sleeps rest
  | _ :: rest => sleeps rest
  end.

Definition retry_line (delay attempt max_retries : Z) : string :=
  Fore_YELLOW ++ "Retrying in " ++ str_of_Z delay
  ++ " seconds... (Attempt " ++ str_of_Z (attempt + 1) ++ "/"
  ++ str_of_Z max_retries ++ ")" ++ Style_RESET_ALL.

(** The state in which attempt 0 of a retry calls its function. *)
Definition before_first_retry (w : world) : world :=
  snd (sleep 1 (snd (print (retry_line 1 0 3) w))).

(** [params = None]: the call works on a fresh empty dict. *)
Definition enter (params : option nat) (w : world) : nat * world :=
  match params with
  | None => (fresh_loc (heap w),
             set_heap (<[fresh_loc (heap w) := []]> (heap w)) w)
  | Some p => (p, w)
  end.

(** The state right after the first request of a call has failed. *)
Definition failed_request (method : string) (p : nat) (w : world) : world :=
  let key := cache_key_of w method (heap w !!! p) in
  let w2 := snd (authenticate_params method p
                   (emit (EvCacheGet key (cache_read key w)) w)) in
  sent (Request GET (urljoin CF_API_BASE method) (heap w2 !!! p)) w2.

(** ** The verdict poller *)

(** An answer that keeps the poller waiting: status 200 and a document whose
    verdict is "TESTING" or empty. *)
Definition queued_answer (res : net_result) : bool :=
  match res with
  | NetRaises _ => false
  | NetResponse r =>
      Z.eqb (status_code r) 200
      && match json_body r with
         | inr (JDict d) =>
             match dict_get "verdict" d with
             | Some (JStr v) => String.eqb v "TESTING" || String.eqb v ""
             | _ => false
             end
         | _ => false
         end
  end.

Definition queue_line (attempt : Z) : string :=
  CR ++ Fore_YELLOW ++ "Verdict: In queue"
     ++ str_repeat "." (Z.to_nat (attempt + 1))
     ++ str_repeat " " 10 ++ Style_RESET_ALL.

(** The state after a tick that found the submission still queued. *)
Definition queued_tick (url : string) (params : pydict pval) (attempt : Z)
    (w : world) : world :=
  snd (sleep 2 (snd (stdout_write (queue_line attempt)
                       (sent (Request GET url params) w)))).

(** Steps that neither diverge, nor use the transport, nor sleep. *)
Definition quiet {A} (m : M A) : Prop :=
  forall w, fst (m w) <> Diverge
            /\ net_pos (snd (m w)) = net_pos w
            /\ sleeps (log (snd (m w))) = sleeps (log w).

(** What was written to the terminal, newest first. *)
Fixpoint outs (l : list event) : list string :=
  match l with
  | [] => []
  | EvOut s :: rest => s :: outs rest
  | _ :: rest => outs rest
  end.

Definition verdict_color (v : string) : string :=
  if String.eqb v "OK" then Fore_GREEN else Fore_RED.

(** The report of a final verdict, in the order printed: an empty line, the
    verdict, the time, the memory in KB and, for a document that has both
    [testset] and [testCount], the passed and total counts. *)
(** A line as [print] writes it. *)
Definition line (s : string) : string := s ++ NL.

Definition report_lines (w : world) (d : pydict json) (v : string) (mem : Z)
    : list string :=
  List.app
    [ line "";
      line (verdict_color v ++ "Verdict: " ++ v ++ Style_RESET_ALL);
      line ("Time: "
            ++ render w (default (JStr "N/A") (dict_get "timeConsumedMillis" d))
            ++ " ms");
      line ("Memory: " ++ str_of_Z (mem / 1024) ++ " KB") ]
    (if dict_has "testset" d && dict_has "testCount" d then
       [ line ("Tests: "
               ++ render w (default (JInt 0) (dict_get "passedTestCount" d))
               ++ "/" ++ render w (default (JInt 0) (dict_get "testCount" d))) ]
     else []).

Definition status_url : string := urljoin CF_BASE_URL "data/submitSource".

Definition checking_line (submission_id : string) : string :=
  Fore_CYAN ++ "Checking status for submission " ++ submission_id ++ "..."
            ++ Style_RESET_ALL.

(** ** submit: the duplicate-submission answer *)

Definition submitting_line (contest_id : Z) (problem_index : string) : string :=
  (Fore_CYAN ++ "Submitting solution to problem " ++ problem_index
             ++ " in contest " ++ str_of_Z contest_id ++ "..." ++ Style_RESET_ALL)
  ++ NL.

Definition getting_token_line : string :=
  Fore_CYAN ++ "Getting CSRF token..." ++ Style_RESET_ALL ++ NL.

Definition could_not_extract_line : string :=
  Fore_RED ++ "Could not extract CSRF token." ++ Style_RESET_ALL ++ NL.

(** ** The signed string, against its description *)

(** The string to hash as the specification words it: the method, a question
    mark, the [key=value] pairs in sorted key order joined by ampersands,
    then a hash sign and the secret. *)
Definition spec_signature_string (method : string) (params : pydict pval)
    (secret : option string) : string :=
  method ++ "?"
  ++ String.concat "&"
       (map (fun key => key ++ "="
               ++ match dict_get key params with Some v => pval_str v | None => "" end)
            (sorted (dict_keys params)))
  ++ "#" ++ pval_str (opt_pval secret).

Definition ends_with (c : ascii) (s : string) : bool :=
  match rev (list_ascii_of_string s) with
  | x :: _ => Ascii.eqb c x
  | [] => false
  end.

Definition pair_string (params : pydict pval) (key : string) : string :=
  key ++ "="
  ++ match dict_get key params with Some v => pval_str v | None => "" end.

(** ** The schedule of the retry *)

(** The delays of the first [k] attempts, newest first: the base delay times
    1, 2, 4, ... *)
Definition backoff_delays (base_delay : Z) (k : nat) : list Z :=
  rev (map (fun i => base_delay * 2 ^ Z.of_nat i) (seq 0 k)).

Definition giving_up_line : string :=
  Fore_RED ++ "Max retries reached. Giving up." ++ Style_RESET_ALL ++ NL.

(** The state in which an attempt of a retry calls its function. *)
Definition before_attempt (max_retries base_delay attempt : Z) (w : world) : world :=
  snd (sleep (base_delay * 2 ^ attempt)
         (snd (print (retry_line (base_delay * 2 ^ attempt) attempt max_retries) w))).

(** ** The web login *)

(** The message of the error that [raise_for_status] raises on a response,
    if it raises one. *)
Definition http_error (r : response) : option string :=
  if Z.leb 400 (status_code r) && Z.ltb (status_code r) 500 then
    Some (str_of_Z (status_code r) ++ " Client Error: "
          ++ reason r ++ " for url: " ++ resp_url r)
  else if Z.leb 500 (status_code r) && Z.ltb (status_code r) 600 then
    Some (str_of_Z (status_code r) ++ " Server Error: "
          ++ reason r ++ " for url: " ++ resp_url r)
  else None.

(** The form that [web_login] posts: three fields. *)
Definition login_form (s : CFSession) (tok : string) : pydict pval :=
  [ ("handleOrEmail", opt_pval (handle s));
    ("action", PStr "enter");
    ("csrf_token", PStr tok) ].

Definition login_url : string := "https://codeforces.com/enter".

Definition handle_not_set_line : string :=
  line (Fore_RED ++ "Handle not set. Please run 'cfcli login' first."
        ++ Style_RESET_ALL).

Definition login_failed_line : string :=
  line (Fore_RED ++ "Login failed. Please check your credentials." ++ Style_RESET_ALL).

(** The requests among the events of a log. *)
Fixpoint requests (l : list event) : list request :=
  match l with
  | [] => []
  | EvNet req _ :: rest => req :: requests rest
  | _ :: rest => requests rest
  end.

(** ** The command login *)

(** Whether [login] takes the answer of [call_api] for a success: a
    document with status OK. *)
Definition response_ok (response : option json) : bool :=
  match response with
  | Some (JDict d) => json_is_str (default JNull (dict_get "status" d)) "OK"
  | _ => false
  end.

Definition login_success_line (h : string) : string :=
  line (Fore_GREEN ++ "Authentication successful! Welcome, " ++ h ++ "!"
        ++ Style_RESET_ALL).

Definition login_failure_line : string :=
  line (Fore_RED ++ "Authentication failed. Please check your credentials."
        ++ Style_RESET_ALL).

Definition login_error_line (e : exn) : string :=
  line (Fore_RED ++ "Error during authentication: " ++ exn_str e ++ Style_RESET_ALL).

(** The state in which [login] calls the API, and the dict it passes. *)
Definition login_params (w : world) : nat := fresh_loc (heap w).

Definition login_start (h key secret : string) (w : world) : world :=
  set_heap (<[login_params w := [("handles", PStr h)]]> (heap w))
           (set_sess (with_credentials h key secret (sess w)) w).

(** A step whose outcome and effects do not depend on the session, and
    which leaves the session alone. *)
Definition session_blind {A} (m : M A) : Prop :=
  forall s w, m (set_sess s w) = (fst (m w), set_sess s (snd (m w))).

(** ** The verdict poller: ticks that fail *)

(** What a tick of the poller does on an answer that is neither a verdict
    nor a queued submission: it raises (the request raised, the body is not
    JSON, the document is not an object) or it reports the HTTP status. *)
Definition tick_failure (res : net_result) : option (exn + Z) :=
  match res with
  | NetRaises e => Some (inl e)
  | NetResponse r =>
      if negb (Z.eqb (status_code r) 200) then Some (inr (status_code r))
      else
        match json_body r with
        | inl e => Some (inl e)
        | inr (JDict _) => None
        | inr j => Some (inl (AttributeError ("'" ++ type_name j
                                              ++ "' object has no attribute 'get'")))
        end
  end.

(** The line that ends the polling after such a tick. *)
Definition tick_failure_line (f : exn + Z) : string :=
  match f with
  | inl e => line (Fore_RED ++ "Error checking status: " ++ exn_str e ++ Style_RESET_ALL)
  | inr code => line (Fore_RED ++ "Error: HTTP " ++ str_of_Z code ++ Style_RESET_ALL)
  end.

(** ** submit: what is sent *)

Definition submit_url (contest_id : Z) : string :=
  "https://codeforces.com/contest/" ++ str_of_Z contest_id ++ "/submit".

Definition submit_error_line (e : exn) : string :=
  line (Fore_RED ++ "Error submitting solution: " ++ exn_str e ++ Style_RESET_ALL).

(** ** status: the command *)

Definition need_argument_line : string :=
  line (Fore_RED ++ "Please provide either a submission ID or a contest ID."
        ++ Style_RESET_ALL).

Definition logging_in_line : string :=
  line (Fore_CYAN ++ "Logging in to Codeforces..." ++ Style_RESET_ALL).

Definition cannot_check_line : string :=
  line (Fore_RED ++ "Failed to log in to Codeforces website. Cannot check status."
        ++ Style_RESET_ALL).

Definition contest_url (contest_id : Z) : string :=
  "https://codeforces.com/contest/" ++ str_of_Z contest_id ++ "/my".

(** A text of ASCII characters only.  On such a text the digit class of
    Python's regular expressions is the ten digits 0 to 9; on other texts it
    also takes the decimal digits of other scripts. *)
Definition is_ascii_text (s : string) : bool :=
  forallb (fun c => (nat_of_ascii c <? 128)%nat) (list_ascii_of_string s).

(** A row as the listing can show it: an identifier made of digits, a
    problem index and a verdict free of double quotes, the first two not
    empty. *)
Definition row_ok (row : string * string * string) : Prop :=
  let '(subm_id, problem_index, verdict) := row in
  subm_id <> ""
  /\ forallb is_digit (list_ascii_of_string subm_id) = true
  /\ problem_index <> ""
  /\ contains DQ problem_index = false
  /\ contains DQ verdict = false.

(** ** The request that a signing session sends *)

(** The log extends [L]. *)
Definition log_extends (L : list event) (w : world) : Prop :=
  exists evs, log w = (evs ++ L)%list.

(** * Concrete states and transports *)

Definition anonymous : CFSession := Session None None None None false.
Definition alice : CFSession := Session (Some "alice") (Some "k") (Some "s") None false.
Definition alice_with_token : CFSession :=
  Session (Some "alice") (Some "k") (Some "s") (Some "tok") true.

(** A process started at a fixed time, with an empty cache directory and an
    empty log. *)
Definition world0 (s : CFSession) (transport : nat -> net_result)
    (h : gmap nat (pydict pval)) : world :=
  World 1700000000000000 (fun n => n) 0 transport 0 ∅ (fun _ => true)
        (fun _ => 0) (fun _ => "") h s [].

Definition down : nat -> net_result :=
  fun _ => NetRaises (RequestException "down").

Definition answer (code : Z) (body : json) : net_result :=
  NetResponse (Response code "" "" "" (inr body)).

Definition ok_doc : json := JDict [("status", JStr "OK"); ("result", JList [])].
Definition failed_doc : json :=
  JDict [("status", JStr "FAILED"); ("comment", JStr "x")].

(** The transport fails once, then answers with the given document. *)
Definition down_then (body : json) : nat -> net_result :=
  fun i => match i with O => NetRaises (RequestException "down") | _ => answer 200 body end.

Definition two_params : pydict pval := [("b", PStr "1"); ("a", PInt 2)].
Definition two_params_swapped : pydict pval := [("a", PInt 2); ("b", PStr "1")].

Definition duplicate_page : response :=
  Response 200 "" "<span>You have submitted exactly the same code before</span>"
           "https://codeforces.com/contest/1/submit" (inl (ValueError "not JSON")).

Definition duplicate_world : world :=
  world0 alice_with_token (fun _ => NetResponse duplicate_page) ∅.

Definition duplicate_post : request :=
  Request POST "https://codeforces.com/contest/1/submit"
          (submit_data (Some "tok") "A" "int main(){}").

Definition cached_world : world :=
  World 1700000000000000 (fun n => n) 0 down 0
        {[ "contest.standings_0" := CacheFile 1699999900000000 (Some ok_doc) ]}
        (fun _ => true) (fun _ => 0) (fun _ => "")
        {[ 0%nat := [("contestId", PInt 1)] ]} alice [].

Definition counts_doc : pydict json :=
  [ ("verdict", JStr "OK"); ("timeConsumedMillis", JInt 15);
    ("memoryConsumedBytes", JInt 2048);
    ("passedTestCount", JInt 3); ("testCount", JInt 3) ].

Definition no_memory_doc : pydict json :=
  [ ("verdict", JStr "OK"); ("timeConsumedMillis", JInt 15) ].

Definition printed (submission_id : string) (w : world) : list string :=
  rev (outs (log (snd (status_submission submission_id w)))).

Definition testing_doc : json := JDict [("verdict", JStr "TESTING")].

Definition accepted_doc : pydict json :=
  [ ("verdict", JStr "OK"); ("timeConsumedMillis", JInt 15);
    ("memoryConsumedBytes", JInt 2048); ("testset", JStr "TESTS");
    ("passedTestCount", JInt 3); ("testCount", JInt 3) ].

Definition accepted_page : response := Response 200 "" "" "" (inr (JDict accepted_doc)).

(** Queued twice, then accepted. *)
Definition accepted_third : nat -> net_result :=
  fun i => match i with
           | O | S O => answer 200 testing_doc
           | _ => NetResponse accepted_page
           end.

Definition standings_world : world :=
  world0 alice (fun _ => answer 200 ok_doc) {[ 0%nat := [("contestId", PInt 1)] ]}.

(** ** More concrete states and transports *)

Definition plain_get : request := Request GET "https://codeforces.com/ping" [].

Definition pong : response := Response 200 "OK" "pong" "https://codeforces.com/ping"
                                       (inl (ValueError "not JSON")).

(** Two failures, then [pong]. *)
Definition down_twice : nat -> net_result :=
  fun i => match i with
           | O | S O => NetRaises (RequestException "down")
           | _ => NetResponse pong
           end.

Definition empty_params_world (s : CFSession) (transport : nat -> net_result) : world :=
  world0 s transport {[ 0%nat := [] ]}.

Definition home_page : response :=
  Response 200 "OK" ("<meta " ++ csrf_prefix ++ "abc" ++ DQ ++ ">")
           "https://codeforces.com/" (inl (ValueError "not JSON")).

Definition error_page : response :=
  Response 500 "Internal Server Error" "<h1>Oops</h1>"
           "https://codeforces.com/enter" (inl (ValueError "not JSON")).

Definition alice_handle_only : CFSession :=
  Session (Some "alice") None None None false.

(** The home page, then an error page in answer to the POST. *)
Definition login_then_error : nat -> net_result :=
  fun i => match i with O => NetResponse home_page | _ => NetResponse error_page end.

Definition forbidden : response :=
  Response 403 "Forbidden" "" "https://codeforces.com/data/submitSource"
           (inl (ValueError "not JSON")).

(** Queued twice, then refused. *)
Definition forbidden_third : nat -> net_result :=
  fun i => match i with
           | O | S O => answer 200 testing_doc
           | _ => NetResponse forbidden
           end.

Definition contest_page : string :=
  "<tr data-submission-id=" ++ DQ ++ "123" ++ DQ ++ "><td data-problemId=" ++ DQ
  ++ "7" ++ DQ ++ " data-problemIndex=" ++ DQ ++ "A1" ++ DQ
  ++ "><span submissionVerdict=" ++ DQ ++ "OK" ++ DQ ++ ">"
  ++ "<tr data-submission-id=" ++ DQ ++ "124" ++ DQ ++ "><td data-problemId=" ++ DQ
  ++ "8" ++ DQ ++ " data-problemIndex=" ++ DQ ++ "B" ++ DQ
  ++ "><span submissionVerdict=" ++ DQ ++ DQ ++ ">".

(** * Properties *)

(** ** SHA-512 test vectors *)

Example sha512_abc :
  sha512_hexdigest "abc" =
  "ddaf35a193617abacc417349ae20413112e6fa4e89a97ea20a9eeee64b55d39a2192992a274fc1a836ba3c23a3feebbd454d4423643ce80e2a9ac94fa54ca49f".
Proof. vm_compute. reflexivity. Qed.

Example sha512_empty :
  sha512_hexdigest "" =
  "cf83e1357eefb8bdf1542850d66d8007d620e4050b5715dc83f4a921d36ce9ce47d0d13c5d85f2b0ff8318d2877eec2f63b931bd47417a81a538327af927da3e".
Proof. vm_compute. reflexivity. Qed.

Example sha512_two_blocks :
  sha512_hexdigest
    "aaaaaaaaaaaaaaaaaaaaaaaaaaaaaaaaaaaaaaaaaaaaaaaaaaaaaaaaaaaaaaaaaaaaaaaaaaaaaaaaaaaaaaaaaaaaaaaaaaaaaaaaaaaaaaaaaaaaaaaaaaaaaaaa" =
  "b73d1929aa615934e61a871596b3f3b33359f42b8175602e89f7e06e5f658a243667807ed300314b95cacdd579f3e33abdfbe351909519a846d465c59582f321".
Proof. vm_compute. reflexivity. Qed.

(** ** The shape of a digest: 128 lowercase hexadecimal digits *)

Lemma compress_length (h blk : list Z) :
  length h = 8%nat -> length (Sha512.compress h blk) = 8%nat.
Proof.
  intros Hh. unfold Sha512.compress.
  rewrite length_map, length_combine, Hh. reflexivity.
Qed.

Lemma digest_state_length (blocks : list (list Z)) (h : list Z) :
  length h = 8%nat -> length (fold_left Sha512.compress blocks h) = 8%nat.
Proof.
  revert h. induction blocks as [|blk blocks IH]; intros h Hh; [done|].
  simpl. apply IH. by apply compress_length.
Qed.

Lemma be_bytes_length (n : nat) (x : Z) : length (Sha512.be_bytes n x) = n.
Proof. induction n as [|n IH]; simpl; [done|]. by rewrite IH. Qed.

Lemma flat_map_length {A B} (f : A -> list B) (k : nat) (l : list A) :
  (forall x, length (f x) = k) -> length (flat_map f l) = (k * length l)%nat.
Proof.
  intros Hf. induction l as [|x l IH]; simpl; [lia|].
  rewrite length_app, Hf, IH. lia.
Qed.

Lemma string_of_list_length (l : list ascii) :
  String.length (string_of_list_ascii l) = length l.
Proof. induction l as [|c l IH]; simpl; [done|]. by rewrite IH. Qed.

Lemma hex_digit_lower (d : Z) : lower_hex (hex_digit d) = true.
Proof.
  unfold hex_digit.
  assert (Hall : forallb lower_hex
                   ("0"%char :: list_ascii_of_string "0123456789abcdef") = true)
    by (vm_compute; reflexivity).
  rewrite forallb_forall in Hall. apply Hall.
  destruct (nth_in_or_default (Z.to_nat d)
              (list_ascii_of_string "0123456789abcdef") "0"%char) as [Hin| ->].
  - by right.
  - by left.
Qed.

(** [hexdigest()] is always 128 characters among [0-9a-f]. *)
Lemma sha512_hexdigest_shape (s : string) :
  String.length (sha512_hexdigest s) = 128%nat
  /\ forallb lower_hex (list_ascii_of_string (sha512_hexdigest s)) = true.
Proof.
  unfold sha512_hexdigest, hex_of_bytes. split.
  - rewrite string_of_list_length.
    rewrite (flat_map_length _ 2) by done.
    unfold Sha512.digest.
    rewrite (flat_map_length _ 8) by (intros; apply be_bytes_length).
    by rewrite digest_state_length.
  - rewrite list_ascii_of_string_of_list_ascii.
    apply forallb_forall. intros c Hc. apply in_flat_map in Hc as (b & _ & Hc).
    destruct Hc as [<-|[<-|[]]]; apply hex_digit_lower.
Qed.

(** ** The order behind [sorted] *)

Lemma str_le_cases (a b : string) :
  str_le a b <-> String.compare a b = Lt \/ a = b.
Proof.
  unfold str_le, String.leb. split.
  - destruct (String.compare a b) eqn:E; intros H; try discriminate.
    + right. by apply String.compare_eq_iff.
    + by left.
  - intros [-> | ->]; [done|].
    pose proof (proj2 (String_as_OT.cmp_eq b b) eq_refl) as Hbb.
    unfold String_as_OT.cmp in Hbb. by rewrite Hbb.
Qed.

#[global] Instance str_le_trans : Transitive str_le.
Proof.
  intros a b c Hab Hbc. apply str_le_cases in Hab, Hbc. apply str_le_cases.
  destruct Hab as [Hab | ->]; destruct Hbc as [Hbc | ->]; auto.
  left. apply String_as_OT.cmp_lt. apply String_as_OT.cmp_lt in Hab, Hbc.
  eapply String_as_OT.lt_trans; eauto.
Qed.

#[global] Instance str_le_total : Total str_le.
Proof.
  intros a b. unfold str_le, String.leb.
  rewrite (String.compare_antisym b a).
  destruct (String.compare a b); simpl; auto.
Qed.

#[global] Instance str_le_antisym : AntiSymm (=) str_le.
Proof.
  intros a b Hab Hba. apply str_le_cases in Hab, Hba.
  destruct Hab as [Hab | ->]; [|done]. destruct Hba as [Hba | ->]; [|done].
  rewrite String.compare_antisym, Hba in Hab. discriminate.
Qed.

Lemma sorted_perm (l1 l2 : list string) :
  Permutation l1 l2 -> sorted l1 = sorted l2.
Proof.
  intros HP. unfold sorted.
  apply (StronglySorted_unique str_le); try apply StronglySorted_merge_sort; try apply _.
  by rewrite !merge_sort_Permutation.
Qed.

(** ** Dicts *)

Lemma dict_get_In {V} (k : string) (v : V) (d : pydict V) :
  dict_get k d = Some v -> In (k, v) d.
Proof.
  induction d as [|[k' v'] d IH]; simpl; [done|].
  destruct (String.eqb_spec k k') as [->|Hne].
  - intros [= ->]. by left.
  - intros H. right. by apply IH.
Qed.

Lemma dict_get_None {V} (k : string) (d : pydict V) :
  dict_get k d = None <-> ~ In k (dict_keys d).
Proof.
  induction d as [|[k' v'] d IH]; simpl; [tauto|].
  destruct (String.eqb_spec k k') as [->|Hne].
  - split; [done|]. intros H. exfalso. apply H. by left.
  - rewrite IH. split; intros H; [intros [?|?]; [congruence|tauto]|tauto].
Qed.

Lemma In_dict_get {V} (k : string) (v : V) (d : pydict V) :
  NoDup (dict_keys d) -> In (k, v) d -> dict_get k d = Some v.
Proof.
  induction d as [|[k' v'] d IH]; simpl; [done|].
  intros Hnd [Heq | Hin].
  - injection Heq as -> ->. by rewrite String.eqb_refl.
  - apply NoDup_cons in Hnd as [Hni Hnd].
    destruct (String.eqb_spec k k') as [->|Hne]; [|by apply IH].
    exfalso. apply Hni. apply list_elem_of_In.
    change k' with (fst (k', v)). by apply in_map.
Qed.

Lemma dict_get_perm {V} (k : string) (d d' : pydict V) :
  NoDup (dict_keys d) -> Permutation d d' -> dict_get k d = dict_get k d'.
Proof.
  intros Hnd HP.
  assert (Hnd' : NoDup (dict_keys d')).
  { unfold dict_keys. rewrite <- HP. exact Hnd. }
  destruct (dict_get k d) as [v|] eqn:E.
  - symmetry. apply In_dict_get; [done|].
    eapply Permutation_in; [exact HP|]. by apply dict_get_In.
  - destruct (dict_get k d') as [v'|] eqn:E'; [|done].
    apply dict_get_In in E'. apply dict_get_None in E. exfalso. apply E.
    change k with (fst (k, v')). apply in_map.
    eapply Permutation_in; [symmetry; exact HP|done].
Qed.

Lemma dict_get_set_eq {V} (k : string) (v : V) (d : pydict V) :
  dict_get k (dict_set k v d) = Some v.
Proof.
  induction d as [|[k' v'] d IH]; simpl.
  - by rewrite String.eqb_refl.
  - destruct (String.eqb_spec k k') as [->|Hne]; simpl.
    + by rewrite String.eqb_refl.
    + by destruct (String.eqb_spec k k').
Qed.

Lemma dict_get_set_ne {V} (k k0 : string) (v : V) (d : pydict V) :
  k0 <> k -> dict_get k0 (dict_set k v d) = dict_get k0 d.
Proof.
  intros Hne. induction d as [|[k' v'] d IH]; simpl.
  - destruct (String.eqb_spec k0 k); [congruence|done].
  - destruct (String.eqb_spec k k') as [->|Hne']; simpl.
    + destruct (String.eqb_spec k0 k'); [congruence|done].
    + by rewrite IH.
Qed.


(** ** The signer *)

Lemma signature_string_perm (method : string) (d d' : pydict pval)
    (secret : option string) :
  NoDup (dict_keys d) -> Permutation d d' ->
  signature_string method d secret = signature_string method d' secret.
Proof.
  intros Hnd HP. unfold signature_string.
  rewrite (sorted_perm (dict_keys d) (dict_keys d'))
    by (unfold dict_keys; by apply Permutation_map).
  match goal with
  | |- rstrip _ ?a ++ _ = rstrip _ ?b ++ _ => assert (a = b) as ->; [|done]
  end.
  generalize (method ++ "?"). generalize (sorted (dict_keys d')).
  intros l. induction l as [|k l IH]; intros acc; simpl; [done|].
  rewrite (dict_get_perm k d d' Hnd HP). apply IH.
Qed.

Lemma sign_request_run (method : string) (p : nat) (w : world) :
  sign_request method p w
  = (Return p,
     set_heap (<[p := dict_set "apiSig"
                       (PStr (api_sig method (heap w !!! p) (api_secret (sess w))))
                       (heap w !!! p)]> (heap w)) w).
Proof. reflexivity. Qed.

(** C3. The signature is a function of the method, the contents of the
    parameter mapping and the secret alone: two runs of [sign_request], in
    any two states of the process, on mappings that hold the same entries in
    any insertion order, store the same [apiSig], namely [api_sig] of the
    inputs. *)
Theorem sign_request_deterministic (method : string) (p1 p2 : nat) (w1 w2 : world) :
  api_secret (sess w1) = api_secret (sess w2) ->
  NoDup (dict_keys (heap w1 !!! p1)) ->
  Permutation (heap w1 !!! p1) (heap w2 !!! p2) ->
  dict_get "apiSig" (heap (snd (sign_request method p1 w1)) !!! p1)
  = Some (PStr (api_sig method (heap w1 !!! p1) (api_secret (sess w1))))
  /\ dict_get "apiSig" (heap (snd (sign_request method p2 w2)) !!! p2)
     = dict_get "apiSig" (heap (snd (sign_request method p1 w1)) !!! p1).
Proof.
  intros Hs Hnd HP. rewrite !sign_request_run. simpl.
  rewrite !lookup_total_insert_eq, !dict_get_set_eq.
  split; [done|]. unfold api_sig.
  by rewrite Hs, (signature_string_perm method _ _ _ Hnd HP).
Qed.

(** ** The cache *)

Lemma save_to_cache_written (key : string) (data : json) (w : world) :
  disk_ok w key = true ->
  _save_to_cache key data w
  = (Return tt,
     emit (EvCacheSave key data true)
          (set_cache (<[key := CacheFile (now w) (Some data)]> (cache w)) w)).
Proof. intros H. unfold _save_to_cache, bind, get_world. by rewrite H. Qed.

Lemma get_from_cache_run (key : string) (w : world) :
  _get_from_cache key w
  = (Return (cache_read key w), emit (EvCacheGet key (cache_read key w)) w).
Proof. reflexivity. Qed.

(** C5. An entry that [_save_to_cache] wrote at time [now w] is returned by
    [_get_from_cache] in every later state that still holds the file, as
    long as its age is below 300 seconds, and is a miss once its age exceeds
    300 seconds; a key with no file is a miss. *)
Theorem cache_ttl (key : string) (data : json) (w w1 : world) :
  disk_ok w key = true ->
  _save_to_cache key data w = (Return tt, w1) ->
  (forall w2, cache w2 !! key = cache w1 !! key ->
     (now w2 - now w < 300 * 1000000 ->
        fst (_get_from_cache key w2) = Return (Some data))
     /\ (now w2 - now w > 300 * 1000000 ->
        fst (_get_from_cache key w2) = Return None))
  /\ (forall w2 k, cache w2 !! k = None -> fst (_get_from_cache k w2) = Return None).
Proof.
  intros Hd Hs. rewrite (save_to_cache_written _ _ _ Hd) in Hs.
  injection Hs as <-. split.
  - intros w2 Hc. rewrite get_from_cache_run. simpl. unfold cache_read.
    rewrite Hc. simpl. rewrite lookup_insert_eq. simpl. unfold CACHE_TTL.
    split; intros Hage.
    + destruct (Z.gtb_spec (now w2 - now w) (300 * 1000000)); [lia|done].
    + destruct (Z.gtb_spec (now w2 - now w) (300 * 1000000)); [done|lia].
  - intros w2 k Hk. rewrite get_from_cache_run. simpl. unfold cache_read.
    by rewrite Hk.
Qed.

(** ** The authentication parameters *)

Lemma truthy_str_spec (o : option string) :
  truthy_str o = true <-> exists s, o = Some s /\ s <> "".
Proof.
  destruct o as [s|]; simpl.
  - destruct (String.eqb_spec s ""); simpl; split.
    + done.
    + intros (s' & [= <-] & Hne). done.
    + intros _. eauto.
    + done.
  - split; [done|]. by intros (s & ? & _).
Qed.

Lemma is_authenticated_spec (s : CFSession) :
  is_authenticated s = true <-> credentials_complete s.
Proof.
  unfold is_authenticated, credentials_complete.
  rewrite !andb_true_iff, !truthy_str_spec. split.
  - intros [[(h & ? & ?) (k & ? & ?)] (x & ? & ?)]. exists h, k, x. tauto.
  - intros (h & k & x & ? & ? & ? & ? & ? & ?). eauto 10.
Qed.

Lemma random_choice_in (w : world) :
  exists c, random_choice ascii_lowercase_digits w
            = (Return c, set_rng_pos (S (rng_pos w)) w)
            /\ lower_alnum c = true.
Proof.
  unfold random_choice. eexists. split; [reflexivity|].
  set (i := (rng w (rng_pos w) mod String.length ascii_lowercase_digits)%nat).
  assert (Hi : (i < 36)%nat).
  { subst i. apply Nat.mod_upper_bound. discriminate. }
  assert (Hall : forallb lower_alnum
                   (list_ascii_of_string ascii_lowercase_digits) = true).
  { vm_compute. reflexivity. }
  rewrite forallb_forall in Hall. apply Hall.
  apply nth_In. exact Hi.
Qed.

Lemma random_string_spec (n : nat) (w : world) :
  exists r, random_string n w = (Return r, set_rng_pos (n + rng_pos w) w)
            /\ String.length r = n
            /\ Forall (fun c => lower_alnum c = true) (list_ascii_of_string r).
Proof.
  revert w. induction n as [|n IH]; intros w; simpl.
  - exists "". destruct w. repeat split. constructor.
  - destruct (random_choice_in w) as (c & Hc & Hok).
    destruct (IH (set_rng_pos (S (rng_pos w)) w)) as (r & Hr & Hlen & Hall).
    exists (String c r). unfold bind. rewrite Hc, Hr. simpl.
    repeat split; [|by rewrite Hlen|by constructor].
    unfold ret, set_rng_pos; simpl. do 2 f_equal. lia.
Qed.

Lemma api_auth_params_run (w : world) :
  api_auth_params w
  = if is_authenticated (sess w) then
      match random_string 6 w with
      | (Return rand, w1) =>
          (Return [ ("apiKey", opt_pval (api_key (sess w)));
                    ("time", PStr (str_of_Z (Z.quot (now w1) 1000000)));
                    ("rand", PStr rand) ], w1)
      | (Raise e, w1) => (Raise e, w1)
      | (Diverge, w1) => (Diverge, w1)
      end
    else (Raise (ValueError "Not authenticated. Please run 'cfcli login' first."), w).
Proof.
  unfold api_auth_params, bind, get_session.
  destruct (is_authenticated (sess w)); simpl; [|done].
  by destruct (random_string 6 w) as [[r| |] w1].
Qed.

(** C7. [api_auth_params] raises ("Not authenticated", the client's
    authentication error, a [ValueError]) when the credential triple is
    incomplete, leaving the state untouched; with complete credentials it
    returns the mapping of exactly [apiKey], [time] and [rand], in which
    [time] is the decimal rendering of the clock in whole seconds and
    [rand] has six characters, each a lowercase letter or a digit. *)
Theorem api_auth_params_spec (w : world) :
  (~ credentials_complete (sess w) ->
     api_auth_params w
     = (Raise (ValueError "Not authenticated. Please run 'cfcli login' first."), w))
  /\ (credentials_complete (sess w) ->
      exists key rand w',
        api_key (sess w) = Some key
        /\ api_auth_params w
           = (Return [ ("apiKey", PStr key);
                       ("time", PStr (str_of_Z (Z.quot (now w) 1000000)));
                       ("rand", PStr rand) ], w')
        /\ String.length rand = 6%nat
        /\ Forall (fun c => lower_alnum c = true) (list_ascii_of_string rand)).
Proof.
  split; intros H.
  - rewrite <- is_authenticated_spec in H. apply not_true_is_false in H.
    by rewrite api_auth_params_run, H.
  - pose proof H as (h & k & x & Hh & Hk & Hx & _).
    apply is_authenticated_spec in H.
    destruct (random_string_spec 6 w) as (r & Hr & Hlen & Hall).
    exists k, r, (set_rng_pos (6 + rng_pos w) w).
    rewrite api_auth_params_run, H, Hr, Hk. done.
Qed.

(** ** Rules of the Hoare logic *)

Section HoareRules.
Context {A B : Type}.

Lemma hoare_conseq (P P' : world -> Prop) (m : M A)
    (Q Q' : outcome A -> world -> Prop) :
  hoare P' m Q' -> (forall w, P w -> P' w) -> (forall o w, Q' o w -> Q o w) ->
  hoare P m Q.
Proof. intros H HP HQ w Hw. apply HQ, H, HP, Hw. Qed.

Lemma hoare_ret (a : A) (Q : outcome A -> world -> Prop) :
  hoare (Q (Return a)) (ret a) Q.
Proof. intros w Hw. exact Hw. Qed.

Lemma hoare_raise (e : exn) (Q : outcome A -> world -> Prop) :
  hoare (Q (Raise e)) (raise e) Q.
Proof. intros w Hw. exact Hw. Qed.

Lemma hoare_bind (P : world -> Prop) (m : M A) (k : A -> M B)
    (R : outcome A -> world -> Prop) (Q : outcome B -> world -> Prop) :
  hoare P m R ->
  (forall a, hoare (R (Return a)) (k a) Q) ->
  (forall e w, R (Raise e) w -> Q (Raise e) w) ->
  (forall w, R Diverge w -> Q Diverge w) ->
  hoare P (bind m k) Q.
Proof.
  intros Hm Hk He Hd w Hw. specialize (Hm w Hw). unfold bind.
  destruct (m w) as [[a|e|] w1]; simpl in *; auto. by apply Hk.
Qed.

Lemma hoare_try_catch (P : world -> Prop) (m : M A) (h : exn -> M A)
    (R : outcome A -> world -> Prop) (Q : outcome A -> world -> Prop) :
  hoare P m R ->
  (forall e, hoare (R (Raise e)) (h e) Q) ->
  (forall a w, R (Return a) w -> Q (Return a) w) ->
  (forall w, R Diverge w -> Q Diverge w) ->
  hoare P (try_catch m h) Q.
Proof.
  intros Hm Hh Hr Hd w Hw. specialize (Hm w Hw). unfold try_catch.
  destruct (m w) as [[a|e|] w1]; simpl in *; auto. by apply Hh.
Qed.
End HoareRules.

Lemma bind_ret_l {A B} (a : A) (k : A -> M B) : bind (ret a) k = k a.
Proof. reflexivity. Qed.

Lemma bind_ret_l' {A B} (f : world -> A) (k : A -> M B) (w : world) :
  bind (fun w => (Return (f w), w)) k w = k (f w) w.
Proof. reflexivity. Qed.

Lemma bind_return {A B} (m : M A) (k : A -> M B) (w w1 : world) (a : A) :
  m w = (Return a, w1) -> bind m k w = k a w1.
Proof. intros H. unfold bind. by rewrite H. Qed.

Lemma bind_raise {A B} (m : M A) (k : A -> M B) (w w1 : world) (e : exn) :
  m w = (Raise e, w1) -> bind m k w = (Raise e, w1).
Proof. intros H. unfold bind. by rewrite H. Qed.

Lemma print_run (s : string) (w : world) :
  print s w = (Return tt, emit (EvOut (s ++ NL)) w).
Proof. reflexivity. Qed.

Lemma session_send_run (req : request) (w : world) :
  session_send req w
  = (match net w (net_pos w) with
     | NetRaises e => Raise e
     | NetResponse r => Return r
     end, emit (EvNet req (net w (net_pos w))) (set_net_pos (S (net_pos w)) w)).
Proof. unfold session_send. by destruct (net w (net_pos w)). Qed.

Lemma preserves_bind {A B} (I : world -> Prop) (m : M A) (k : A -> M B) :
  preserves I m -> (forall a, preserves I (k a)) -> preserves I (bind m k).
Proof. intros Hm Hk. eapply hoare_bind; eauto. Qed.

Lemma preserves_try_catch {A} (I : world -> Prop) (m : M A) (h : exn -> M A) :
  preserves I m -> (forall e, preserves I (h e)) -> preserves I (try_catch m h).
Proof. intros Hm Hh. eapply hoare_try_catch; eauto. Qed.

Lemma preserves_pure {A} (I : world -> Prop) (m : M A) :
  (forall w, snd (m w) = w) -> preserves I m.
Proof. intros H w Hw. simpl. by rewrite H. Qed.


Lemma preserves_retry_loop {A} (I : world -> Prop) (func : M A)
    (max_retries base_delay : Z) (attempts : list Z) :
  (forall s, preserves I (print s)) -> (forall d, preserves I (sleep d)) ->
  preserves I func ->
  preserves I (retry_loop func max_retries base_delay attempts).
Proof.
  intros Hp Hs Hf. induction attempts as [|attempt rest IH]; simpl.
  - by apply preserves_pure.
  - apply preserves_bind; [apply Hp|intros _].
    apply preserves_bind; [apply Hs|intros _].
    apply preserves_try_catch.
    + apply preserves_bind; [done|]. intros a. by apply preserves_pure.
    + intros e. destruct (Z.eqb attempt (max_retries - 1)); [|done].
      apply preserves_bind; [apply Hp|]. intros _. by apply preserves_pure.
Qed.

(** ** The API client: lookups, dispatches and cache writes *)

Lemma client_inv_print (s : string) : preserves client_inv (print s).
Proof. intros w [Hl Hc]. split; simpl; done. Qed.

Lemma client_inv_sleep (d : Z) : preserves client_inv (sleep d).
Proof. intros w [Hl Hc]. split; simpl; done. Qed.

Lemma json_get_status_ok (data : json) (w : world) (st : json) (w' : world) :
  json_get data "status" JNull w = (Return st, w') ->
  json_is_str st "OK" = true -> status_ok data.
Proof.
  destruct data as [| | | | |d]; try discriminate. simpl. unfold ret.
  intros [= <- <-] H. exists d. split; [done|].
  destruct (dict_get "status" d) as [[| | |s| |]|]; try discriminate.
  simpl in H. apply String.eqb_eq in H. by subst.
Qed.

Lemma api_request_inv (url : string) (p : nat) (key : string) :
  hoare (fun w => client_inv w /\ after_miss w) (api_request url p key)
        (fun _ w => client_inv w).
Proof.
  intros w [[Hl Hc] Hm]. unfold after_miss in Hm.
  unfold api_request, bind, read_dict, session_send.
  destruct (net w (net_pos w)) as [e|r] eqn:En; simpl.
  { split; simpl; [|done]. split; [|done]. intros _.
    destruct (log w) as [|[] ?]; done. }
  assert (Hsent : client_inv
            (emit (EvNet (Request GET url (heap w !!! p)) (NetResponse r))
                  (set_net_pos (S (net_pos w)) w))).
  { split; simpl; [|done]. split; [|done]. intros _.
    destruct (log w) as [|[] ?]; done. }
  unfold raise_for_status.
  destruct (Z.leb 400 (status_code r) && Z.ltb (status_code r) 500); [done|].
  destruct (Z.leb 500 (status_code r) && Z.ltb (status_code r) 600); [done|].
  unfold ret, response_json. simpl.
  destruct (json_body r) as [e|data] eqn:Eb; [done|]. simpl.
  destruct (json_get data "status" JNull _) as [[st|e|] w1] eqn:Eg.
  2,3: destruct data; simpl in Eg; unfold ret, raise in Eg; by simplify_eq.
  assert (w1 = emit (EvNet (Request GET url (heap w !!! p)) (NetResponse r))
                    (set_net_pos (S (net_pos w)) w)) as ->.
  { destruct data; simpl in Eg; unfold ret, raise in Eg; by simplify_eq. }
  destruct (json_is_str st "OK") eqn:Eok.
  - pose proof (json_get_status_ok _ _ _ _ Eg Eok) as Hst.
    unfold _save_to_cache, bind, get_world. simpl.
    destruct (disk_ok w key); simpl.
    + split; simpl.
      * split; [done|]. split; [done|]. split; [|done]. intros _.
        destruct (log w) as [|[] ?]; done.
      * intros k f data' Hk Hf.
        destruct (decide (k = key)) as [->|Hne].
        -- rewrite lookup_insert_eq in Hk. simplify_eq. simpl in Hf. by simplify_eq.
        -- rewrite lookup_insert_ne in Hk by done. eauto.
    + split; simpl; [|done].
      split; [done|]. split; [done|]. split; [|done]. intros _.
      destruct (log w) as [|[] ?]; done.
  - destruct data as [| | | | |d]; simpl; try done.
Qed.

Lemma authenticate_params_spec (method : string) (p : nat) (w : world) :
  exists w',
    authenticate_params method p w = (Return tt, w') /\ same_env w w'
    /\ if signs (sess w) method then
         exists rand,
           let d := dict_update (heap w !!! p)
                      [ ("apiKey", opt_pval (api_key (sess w)));
                        ("time", PStr (str_of_Z (Z.quot (now w) 1000000)));
                        ("rand", PStr rand) ] in
           heap w' = <[p := dict_set "apiSig"
                              (PStr (api_sig method d (api_secret (sess w)))) d]>
                       (heap w)
       else w' = w.
Proof.
  unfold authenticate_params, bind, get_session. fold (signs (sess w) method).
  destruct (signs (sess w) method) eqn:Es; [|by exists w].
  unfold signs in Es. apply andb_true_iff in Es as [Ha _].
  rewrite api_auth_params_run, Ha.
  destruct (random_string_spec 6 w) as (r & -> & _ & _).
  eexists. split; [reflexivity|]. split; [done|].
  exists r. simpl. rewrite lookup_total_insert_eq. by rewrite insert_insert_eq.
Qed.

Lemma authenticate_params_log (method : string) (p : nat) (w : world) :
  fst (authenticate_params method p w) = Return tt
  /\ log (snd (authenticate_params method p w)) = log w
  /\ cache (snd (authenticate_params method p w)) = cache w.
Proof.
  destruct (authenticate_params_spec method p w) as (w' & -> & Hs & _).
  destruct Hs as (? & ? & _). done.
Qed.

Lemma call_api_client_inv (fuel : nat) (method : string) (params : option nat) :
  preserves client_inv (call_api fuel method params).
Proof.
  revert params. induction fuel as [|fuel IH]; intros params; simpl.
  { by apply preserves_pure. }
  apply preserves_bind.
  { destruct params; [by apply preserves_pure|]. intros w [? ?]. split; done. }
  intros p. apply preserves_bind; [by apply preserves_pure|]. intros items.
  apply preserves_bind; [by apply preserves_pure|]. intros w0.
  eapply (hoare_bind _ _ _
            (fun o w => client_inv w
                        /\ forall c, o = Return c -> truthy_opt c = false -> after_miss w)).
  { intros w [Hl Hc]. rewrite get_from_cache_run. simpl. split; [done|].
    intros c [= <-] Hf. unfold after_miss. simpl. done. }
  2,3: by intros; tauto.
  intros cached. destruct (truthy_opt cached) eqn:Et.
  { intros w [Hw _]. exact Hw. }
  eapply (hoare_bind _ _ _ (fun _ w => client_inv w /\ after_miss w)).
  { intros w [[Hl Hc] Hm]. specialize (Hm _ eq_refl Et).
    destruct (authenticate_params_log method p w) as (_ & El & Ec).
    unfold client_inv, after_miss in *. by rewrite El, Ec. }
  2,3: by intros; tauto.
  intros _. eapply hoare_try_catch.
  - apply api_request_inv.
  - intros e. unfold call_api_except. destruct (is_request_exception e).
    + apply preserves_bind; [apply client_inv_print|]. intros _.
      apply preserves_bind; [|intros; by apply preserves_pure].
      apply preserves_retry_loop; auto using client_inv_print, client_inv_sleep.
    + apply preserves_bind; [apply client_inv_print|]. intros _.
      by apply preserves_pure.
  - done.
  - done.
Qed.

(** C6. In every run of [call_api], from a state whose log and cache obey the
    discipline ([log_ok]: each API request directly follows a cache lookup
    that gave nothing usable, each cache write directly follows the response
    it stores and that response has status OK; [cache_ok]: every readable
    cached payload has status OK), the resulting log and cache obey it
    too, whatever the transport answers and whether the call returns, raises
    or is cut short. *)
Theorem call_api_cache_discipline (fuel : nat) (method : string)
    (params : option nat) (w : world) :
  log_ok (log w) -> cache_ok (cache w) ->
  log_ok (log (snd (call_api fuel method params w)))
  /\ cache_ok (cache (snd (call_api fuel method params w))).
Proof.
  intros Hl Hc. apply (call_api_client_inv fuel method params w). by split.
Qed.

(** ** Invariants that the transport, the clock, the log and the cache files
    cannot break *)

Section CallApiPreserves.
Variable I : world -> Prop.
Hypothesis I_emit : forall e w, I w -> I (emit e w).
Hypothesis I_now : forall t w, I w -> I (set_now t w).
Hypothesis I_net_pos : forall n w, I w -> I (set_net_pos n w).
Hypothesis I_cache : forall c w, I w -> I (set_cache c w).

Lemma preserves_print (s : string) : preserves I (print s).
Proof. intros w Hw. by apply I_emit. Qed.

Lemma preserves_sleep (d : Z) : preserves I (sleep d).
Proof. intros w Hw. by apply I_emit, I_now. Qed.


Lemma preserves_save_to_cache (key : string) (data : json) :
  preserves I (_save_to_cache key data).
Proof.
  intros w Hw. unfold _save_to_cache, bind, get_world.
  destruct (disk_ok w key); simpl.
  - by apply I_emit, I_cache.
  - by apply I_emit, I_emit.
Qed.

Lemma preserves_get_from_cache (key : string) :
  preserves I (_get_from_cache key).
Proof. intros w Hw. by apply I_emit. Qed.

Lemma preserves_json_get (data : json) (key : string) (default : json) :
  preserves I (json_get data key default).
Proof. apply preserves_pure. by destruct data. Qed.

Lemma preserves_api_response (key : string) (r : response) :
  preserves I
    (do! raise_for_status r in
     let! data := response_json r in
     let! status := json_get data "status" JNull in
     if json_is_str status "OK" then
       do! _save_to_cache key data in
       ret (Some data)
     else
       let! comment := json_get data "comment" (JStr "Unknown error") in
       let! c := json_str comment in
       raise (PyException ("API Error: " ++ c))).
Proof.
  apply preserves_bind.
  { apply preserves_pure. intros w. unfold raise_for_status.
    by repeat destruct (_ && _). }
  intros _. apply preserves_bind.
  { apply preserves_pure. intros w. unfold response_json.
    by destruct (json_body r). }
  intros data. apply preserves_bind; [apply preserves_json_get|]. intros st.
  destruct (json_is_str st "OK").
  - apply preserves_bind; [apply preserves_save_to_cache|].
    intros _. by apply preserves_pure.
  - apply preserves_bind; [apply preserves_json_get|]. intros c.
    apply preserves_bind; [by apply preserves_pure|]. intros s.
    by apply preserves_pure.
Qed.

(** The request itself may establish the invariant. *)
Lemma hoare_api_request (P : world -> Prop) (url : string) (p : nat)
    (key : string) :
  (forall w, P w ->
     I (emit (EvNet (Request GET url (heap w !!! p)) (net w (net_pos w)))
             (set_net_pos (S (net_pos w)) w))) ->
  hoare P (api_request url p key) (fun _ w => I w).
Proof.
  intros HP w Hw. specialize (HP w Hw).
  unfold api_request, read_dict. rewrite bind_ret_l'.
  revert HP. generalize (Request GET url (heap w !!! p)). intros req HP.
  unfold bind at 1, session_send.
  destruct (net w (net_pos w)) as [e|r]; [exact HP|].
  by apply preserves_api_response.
Qed.

Lemma preserves_api_request (url : string) (p : nat) (key : string) :
  preserves I (api_request url p key).
Proof. apply hoare_api_request. intros w Hw. by apply I_emit, I_net_pos. Qed.

Lemma preserves_call_api_except (again : M (option json)) (e : exn) :
  preserves I again -> preserves I (call_api_except again e).
Proof.
  intros Hagain. unfold call_api_except. destruct (is_request_exception e).
  - apply preserves_bind; [apply preserves_print|]. intros _.
    apply preserves_bind; [|intros; by apply preserves_pure].
    apply preserves_retry_loop; auto using preserves_print, preserves_sleep.
  - apply preserves_bind; [apply preserves_print|]. intros _.
    by apply preserves_pure.
Qed.

Lemma call_api_preserves (method : string) (p : nat) :
  preserves I (authenticate_params method p) ->
  forall fuel, preserves I (call_api fuel method (Some p)).
Proof.
  intros Hauth fuel. induction fuel as [|fuel IH]; simpl.
  { by apply preserves_pure. }
  rewrite bind_ret_l.
  apply preserves_bind; [by apply preserves_pure|]. intros items.
  apply preserves_bind; [by apply preserves_pure|]. intros w0.
  apply preserves_bind; [apply preserves_get_from_cache|]. intros cached.
  destruct (truthy_opt cached); [by apply preserves_pure|].
  apply preserves_bind; [exact Hauth|]. intros _.
  apply preserves_try_catch; [apply preserves_api_request|].
  intros e. by apply preserves_call_api_except.
Qed.
End CallApiPreserves.

(** ** The caller's parameter dict *)

(** One step of [call_api] on a dict the caller supplied. *)
Lemma call_api_unfold (fuel : nat) (method : string) (p : nat) (w : world) :
  call_api (S fuel) method (Some p) w
  = let key := cache_key_of w method (heap w !!! p) in
    let w1 := emit (EvCacheGet key (cache_read key w)) w in
    if truthy_opt (cache_read key w) then (Return (cache_read key w), w1)
    else
      try_catch (api_request (urljoin CF_API_BASE method) p key)
                (call_api_except (call_api fuel method (Some p)))
                (snd (authenticate_params method p w1)).
Proof.
  cbn [call_api]. rewrite bind_ret_l. unfold read_dict, get_world.
  rewrite !bind_ret_l'. unfold bind at 1. rewrite get_from_cache_run.
  cbv zeta. destruct (truthy_opt _); [done|].
  unfold bind at 1.
  by destruct (authenticate_params_spec method p
                 (emit (EvCacheGet (cache_key_of w method (heap w !!! p))
                          (cache_read (cache_key_of w method (heap w !!! p)) w)) w))
    as (w2 & -> & _).
Qed.

Lemma dict_has_set {V} (k k' : string) (v : V) (d : pydict V) :
  dict_has k (dict_set k' v d) = String.eqb k k' || dict_has k d.
Proof.
  unfold dict_has. destruct (String.eqb_spec k k') as [->|Hne]; simpl.
  - by rewrite dict_get_set_eq.
  - by rewrite dict_get_set_ne.
Qed.

(** The dict that [authenticate_params] leaves at [p] when it signs. *)
Lemma signed_dict_keys (d : pydict pval) (a t r s : pval) :
  let signed := dict_set "apiSig" s
                  (dict_update d [("apiKey", a); ("time", t); ("rand", r)]) in
  Forall (fun k => dict_has k signed = true) auth_keys
  /\ (forall k, dict_has k d = true -> dict_has k signed = true)
  /\ (forall k, ~ In k auth_keys -> dict_get k signed = dict_get k d).
Proof.
  simpl. repeat split.
  - repeat constructor; rewrite !dict_has_set; simpl;
      rewrite ?orb_true_r; reflexivity.
  - intros k Hk. rewrite !dict_has_set, Hk. by rewrite !orb_true_r.
  - intros k Hk. unfold auth_keys in Hk. simpl in Hk.
    rewrite !dict_get_set_ne; [done|..]; intros ->; tauto.
Qed.

Lemma params_inv_authenticate (method : string) (p : nat) (d0 d1 : pydict pval)
    (h0 : gmap nat (pydict pval)) (L : list event) :
  preserves (params_inv p d0 d1 h0 L) (authenticate_params method p).
Proof.
  intros w (Hg & Hh & Hq & Hl).
  destruct (authenticate_params_spec method p w) as (w' & -> & Henv & Hw').
  simpl. destruct Henv as (El & _).
  destruct (signs (sess w) method); [|by subst].
  destruct Hw' as (rand & Eh). simpl in Eh.
  match type of Eh with
  | _ = <[_ := dict_set _ ?s (dict_set _ ?r (dict_set _ ?t (dict_set _ ?a _)))]> _ =>
      pose proof (signed_dict_keys (heap w !!! p) a t r s) as (_ & Hmono & Hget)
  end.
  simpl in Hmono, Hget.
  repeat split.
  - intros k Hk. rewrite Eh, lookup_total_insert_eq, Hget by done. by apply Hg.
  - intros k Hk. rewrite Eh, lookup_total_insert_eq. by apply Hmono, Hh.
  - intros q Hqp. rewrite Eh, lookup_insert_ne by done. by apply Hq.
  - by rewrite El.
Qed.

Section ParamsInv.
Variables (p : nat) (d0 d1 : pydict pval) (h0 : gmap nat (pydict pval))
          (L : list event).
Lemma params_inv_emit (e : event) (w : world) : params_inv p d0 d1 h0 L w -> params_inv p d0 d1 h0 L (emit e w).
Proof.
  intros (Hg & Hh & Hq & evs & Hl). repeat split; try done.
  exists (e :: evs). simpl. by rewrite Hl.
Qed.

Lemma params_inv_now (t : Z) (w : world) : params_inv p d0 d1 h0 L w -> params_inv p d0 d1 h0 L (set_now t w).
Proof. intros (Hg & Hh & Hq & evs & Hl). repeat split; try done. by exists evs. Qed.

Lemma params_inv_net_pos (n : nat) (w : world) : params_inv p d0 d1 h0 L w -> params_inv p d0 d1 h0 L (set_net_pos n w).
Proof. intros (Hg & Hh & Hq & evs & Hl). repeat split; try done. by exists evs. Qed.

Lemma params_inv_cache (c : gmap string cache_file) (w : world) :
  params_inv p d0 d1 h0 L w -> params_inv p d0 d1 h0 L (set_cache c w).
Proof. intros (Hg & Hh & Hq & evs & Hl). repeat split; try done. by exists evs. Qed.

Lemma call_api_params_inv (method : string) (fuel : nat) :
  preserves (params_inv p d0 d1 h0 L) (call_api fuel method (Some p)).
Proof.
  apply call_api_preserves.
  - exact params_inv_emit.
  - exact params_inv_now.
  - exact params_inv_net_pos.
  - exact params_inv_cache.
  - apply params_inv_authenticate.
Qed.
End ParamsInv.

Lemma call_api_unsigned (method : string) (p : nat)
    (h0 : gmap nat (pydict pval)) (fuel : nat) :
  preserves (unsigned_inv method h0) (call_api fuel method (Some p)).
Proof.
  apply call_api_preserves; try done.
  intros w [Hh Hs].
  destruct (authenticate_params_spec method p w) as (w' & -> & _ & Hw').
  rewrite Hs in Hw'. simpl. by subst.
Qed.

(** C10 (amended). A call of [call_api] on a dict [p] of the caller:
    - when the session signs (authenticated, method other than "user.info")
      and the cache lookup gives nothing usable, the request dispatched
      right after the lookup carries the dict with [apiKey], [time], [rand]
      and [apiSig] added, and so does the caller's dict when the call ends,
      however it ends; its other keys keep their values;
    - when the session does not sign, or the cache lookup answers, the heap
      is left as it was;
    - no other object of the heap is ever touched. *)
Theorem call_api_params_effect (fuel : nat) (method : string) (p : nat) (w : world) :
  let w' := snd (call_api (S fuel) method (Some p) w) in
  let key := cache_key_of w method (heap w !!! p) in
  (signs (sess w) method = true /\ truthy_opt (cache_read key w) = false ->
     (exists signed res evs,
        log w' = (evs ++ EvNet (Request GET (urljoin CF_API_BASE method) signed) res
                      :: EvCacheGet key (cache_read key w) :: log w)%list
        /\ Forall (fun k => dict_has k signed = true) auth_keys
        /\ (forall k, dict_has k signed = true -> dict_has k (heap w' !!! p) = true))
     /\ Forall (fun k => dict_has k (heap w' !!! p) = true) auth_keys
     /\ (forall k, dict_has k (heap w !!! p) = true ->
                   dict_has k (heap w' !!! p) = true)
     /\ (forall k, ~ In k auth_keys ->
                   dict_get k (heap w' !!! p) = dict_get k (heap w !!! p)))
  /\ (signs (sess w) method = false \/ truthy_opt (cache_read key w) = true ->
      heap w' = heap w)
  /\ (forall q, q <> p -> heap w' !! q = heap w !! q).
Proof.
  cbv zeta. rewrite call_api_unfold. cbv zeta.
  set (key := cache_key_of w method (heap w !!! p)).
  set (w1 := emit (EvCacheGet key (cache_read key w)) w).
  assert (Hunsigned : signs (sess w) method = false ->
            heap (snd (try_catch (api_request (urljoin CF_API_BASE method) p key)
                         (call_api_except (call_api fuel method (Some p)))
                         (snd (authenticate_params method p w1)))) = heap w).
  { intros Hs.
    assert (Hi : unsigned_inv method (heap w) (snd (authenticate_params method p w1))).
    { destruct (authenticate_params_spec method p w1) as (w2 & -> & _ & Hw2).
      simpl in Hw2. rewrite Hs in Hw2. by subst. }
    revert Hi. generalize (snd (authenticate_params method p w1)). intros w2 Hi.
    eapply (preserves_try_catch (unsigned_inv method (heap w))); [| |exact Hi].
    - by apply preserves_api_request.
    - intros e. apply preserves_call_api_except; try done.
      apply call_api_unsigned. }
  assert (Hsigned : signs (sess w) method = true ->
            truthy_opt (cache_read key w) = false ->
            exists signed res,
              Forall (fun k => dict_has k signed = true) auth_keys
              /\ params_inv p (heap w !!! p) signed (heap w)
                   (EvNet (Request GET (urljoin CF_API_BASE method) signed) res
                      :: EvCacheGet key (cache_read key w) :: log w)
                   (snd (try_catch (api_request (urljoin CF_API_BASE method) p key)
                           (call_api_except (call_api fuel method (Some p)))
                           (snd (authenticate_params method p w1))))).
  { intros Hs Hmiss.
    destruct (authenticate_params_spec method p w1) as (w2 & -> & Henv & Hw2).
    simpl in Hw2. rewrite Hs in Hw2. destruct Hw2 as (rand & Eh). simpl in Eh.
    destruct Henv as (El & _). simpl in El. simpl snd.
    match type of Eh with
    | _ = <[_ := ?sd]> _ =>
        match sd with
        | dict_set _ ?s (dict_set _ ?r (dict_set _ ?t (dict_set _ ?a _))) =>
            pose proof (signed_dict_keys (heap w !!! p) a t r s) as (Hk & Hmono & Hget);
            simpl in Hk, Hmono, Hget; set (signed := sd) in *
        end
    end.
    exists signed, (net w2 (net_pos w2)). split; [exact Hk|].
    set (L := EvNet (Request GET (urljoin CF_API_BASE method) signed)
                    (net w2 (net_pos w2))
              :: EvCacheGet key (cache_read key w) :: log w).
    assert (Hsigned_at : heap w2 !!! p = signed).
    { by rewrite Eh, lookup_total_insert_eq. }
    apply (hoare_try_catch (fun w3 => w3 = w2) _ _
             (fun _ w3 => params_inv p (heap w !!! p) signed (heap w) L w3)
             (fun _ w3 => params_inv p (heap w !!! p) signed (heap w) L w3));
      [| |done|done|done].
    - apply hoare_api_request.
      + apply params_inv_emit.
      + apply params_inv_cache.
      + intros w3 ->. rewrite Hsigned_at. repeat split; simpl.
        * intros k Hk'. rewrite Hsigned_at. by apply Hget.
        * intros k Hk'. by rewrite Hsigned_at.
        * intros q Hq. by rewrite Eh, lookup_insert_ne.
        * exists []. simpl. by rewrite El.
    - intros e. apply preserves_call_api_except.
      + apply params_inv_emit.
      + apply params_inv_now.
      + apply call_api_params_inv. }
  split; [|split].
  - intros [Hs Hmiss]. rewrite Hmiss.
    destruct (Hsigned Hs Hmiss) as (signed & res & Hk & Hinv).
    destruct Hinv as (Hg & Hh & Hq & evs & Hl).
    split; [|split; [|split]].
    + exists signed, res, evs. auto.
    + eapply Forall_impl; [exact Hk|]. intros k Hks. by apply Hh.
    + intros k Hk0.
      destruct (in_dec string_dec k auth_keys) as [Hin|Hnin].
      * rewrite Forall_forall in Hk. apply Hh, Hk. by apply list_elem_of_In.
      * unfold dict_has in *. by rewrite (Hg k Hnin).
    + exact Hg.
  - destruct (truthy_opt (cache_read key w)) eqn:Et; [done|].
    intros [Hs|?]; [by apply Hunsigned|done].
  - intros q Hq. destruct (truthy_opt (cache_read key w)) eqn:Et; [done|].
    destruct (signs (sess w) method) eqn:Hs.
    + destruct (Hsigned eq_refl eq_refl) as (signed & res & Hk & Hinv).
      destruct Hinv as (Hg & Hh & Hq' & evs & Hl). by apply Hq'.
    + by rewrite Hunsigned.
Qed.

(** ** Transport failures and the retry *)

Lemma api_request_transport_error (url : string) (p : nat) (key m : string)
    (w : world) :
  transport_error (net w (net_pos w)) = Some m ->
  api_request url p key w
  = (Raise (RequestException m), sent (Request GET url (heap w !!! p)) w).
Proof.
  intros H. unfold api_request, read_dict. rewrite bind_ret_l'.
  unfold bind at 1, session_send, sent.
  destruct (net w (net_pos w)) as [e|r]; simpl in H.
  - destruct e; by simplify_eq.
  - unfold bind at 1, raise_for_status.
    destruct (Z.leb 400 (status_code r) && Z.ltb (status_code r) 500);
      [by simplify_eq|].
    destruct (Z.leb 500 (status_code r) && Z.ltb (status_code r) 600);
      [by simplify_eq|].
    unfold ret, bind, response_json.
    destruct (json_body r) as [[]|]; by simplify_eq.
Qed.

Lemma api_request_ok (url : string) (p : nat) (key : string) (data : json)
    (w : world) :
  ok_response (net w (net_pos w)) = Some data ->
  fst (api_request url p key w) = Return (Some data).
Proof.
  intros H. unfold api_request, read_dict. rewrite bind_ret_l'.
  unfold bind at 1, session_send.
  destruct (net w (net_pos w)) as [e|r]; simpl in H; [done|].
  unfold bind at 1, raise_for_status.
  destruct (Z.leb 400 (status_code r) && Z.ltb (status_code r) 500); [done|].
  destruct (Z.leb 500 (status_code r) && Z.ltb (status_code r) 600); [done|].
  unfold ret, bind at 1, response_json.
  destruct (json_body r) as [|[| | | | |d]]; try done.
  unfold ret, bind at 1. simpl.
  destruct (dict_get "status" d) as [[| | |s| |]|]; try done.
  unfold ret, json_is_str. destruct (String.eqb s "OK"); [|done].
  simplify_eq. unfold bind, _save_to_cache, get_world, bind. simpl.
  by destruct (disk_ok w key).
Qed.

Lemma before_first_retry_env (w : world) :
  cache (before_first_retry w) = cache w
  /\ net (before_first_retry w) = net w
  /\ net_pos (before_first_retry w) = net_pos w
  /\ sleeps (log (before_first_retry w)) = 1 :: sleeps (log w).
Proof. done. Qed.

Lemma print_env (s : string) (w : world) :
  cache (snd (print s w)) = cache w
  /\ net (snd (print s w)) = net w
  /\ net_pos (snd (print s w)) = net_pos w
  /\ sleeps (log (snd (print s w))) = sleeps (log w).
Proof. done. Qed.

Lemma retry_first_attempt {A} (func : M A) (w : world) :
  _retry_with_backoff func 3 1 w
  = match func (before_first_retry w) with
    | (Return a, w') => (Return (Some a), w')
    | (Raise e, w') => retry_loop func 3 1 [1; 2] w'
    | (Diverge, w') => (Diverge, w')
    end.
Proof.
  unfold _retry_with_backoff, before_first_retry.
  change (range 3) with [0; 1; 2]. cbn [retry_loop].
  change (1 * 2 ^ 0) with 1. change (Z.eqb 0 (3 - 1)) with false. cbv iota.
  fold (retry_line 1 0 3).
  unfold bind at 1 2, try_catch.
  change (print (retry_line 1 0 3) w)
    with (Return tt, snd (print (retry_line 1 0 3) w)).
  cbv iota beta.
  change (sleep 1 (snd (print (retry_line 1 0 3) w)))
    with (Return tt, snd (sleep 1 (snd (print (retry_line 1 0 3) w)))).
  cbv iota beta. unfold bind at 1.
  destruct (func _) as [[a|e|] w']; reflexivity.
Qed.

Lemma retry_loop_attempt {A} (func : M A) (max_retries base_delay attempt : Z)
    (rest : list Z) (w : world) :
  retry_loop func max_retries base_delay (attempt :: rest) w
  = match func (before_attempt max_retries base_delay attempt w) with
    | (Return a, w') => (Return (Some a), w')
    | (Raise e, w') =>
        if Z.eqb attempt (max_retries - 1)
        then (Raise e, emit (EvOut giving_up_line) w')
        else retry_loop func max_retries base_delay rest w'
    | (Diverge, w') => (Diverge, w')
    end.
Proof.
  unfold before_attempt. cbn [retry_loop]. fold (retry_line (base_delay * 2 ^ attempt) attempt max_retries).
  rewrite (bind_return _ _ _ _ _ (print_run _ w)).
  erewrite bind_return by reflexivity.
  unfold try_catch, bind at 1.
  rewrite print_run. cbn [snd].
  destruct (func _) as [[a|e|] w']; try reflexivity.
  destruct (Z.eqb attempt (max_retries - 1)); reflexivity.
Qed.

(** [_retry_with_backoff] on a plain request over a transport that always
    raises: three requests, after sleeps of 1, 2 and 4 seconds, then the
    last error is raised. *)
Lemma retry_with_backoff_plain_request (req : request) (e : exn) (w : world) :
  (forall i, net w i = NetRaises e) ->
  exists w',
    _retry_with_backoff (session_send req) 3 1 w = (Raise e, w')
    /\ net_pos w' = (net_pos w + 3)%nat
    /\ sleeps (log w') = ([4; 2; 1] ++ sleeps (log w))%list.
Proof.
  intros H. eexists. split.
  - unfold _retry_with_backoff. change (range 3) with [0; 1; 2].
    cbn [retry_loop]. unfold bind, try_catch, session_send, print, sleep,
      stdout_write, modify, raise. simpl. rewrite !H. simpl. rewrite !H.
    simpl. rewrite !H. reflexivity.
  - simpl. split; [lia|done].
Qed.

Lemma call_api_enter (fuel : nat) (method : string) (params : option nat)
    (w : world) :
  call_api (S fuel) method params w
  = call_api (S fuel) method (Some (fst (enter params w))) (snd (enter params w)).
Proof. by destruct params. Qed.

Lemma authenticate_params_env (method : string) (p : nat) (w : world) :
  same_env w (snd (authenticate_params method p w)).
Proof. by destruct (authenticate_params_spec method p w) as (w' & -> & ? & _). Qed.

Lemma call_api_except_result (again : M (option json)) (m : string) (w : world) :
  call_api_except again (RequestException m) w
  = match _retry_with_backoff again 3 1
            (snd (print (Fore_RED ++ "Network error: " ++ m ++ Style_RESET_ALL) w)) with
    | (Return _, w') => (Return None, w')
    | (Raise e, w') => (Raise e, w')
    | (Diverge, w') => (Diverge, w')
    end.
Proof.
  unfold call_api_except.
  change (is_request_exception (RequestException m)) with true.
  change (exn_str (RequestException m)) with m. cbv iota.
  unfold bind at 1.
  change (print (Fore_RED ++ "Network error: " ++ m ++ Style_RESET_ALL) w)
    with (Return tt, snd (print (Fore_RED ++ "Network error: " ++ m ++ Style_RESET_ALL) w)).
  cbv iota beta. unfold bind.
  by destruct (_retry_with_backoff again 3 1 _) as [[a|e|] w'].
Qed.

Lemma call_api_ok_response (fuel : nat) (method : string) (p : nat)
    (data : json) (w : world) :
  truthy_opt (cache_read (cache_key_of w method (heap w !!! p)) w) = false ->
  ok_response (net w (net_pos w)) = Some data ->
  fst (call_api (S fuel) method (Some p) w) = Return (Some data).
Proof.
  intros Hmiss Hok. rewrite call_api_unfold. cbv zeta. rewrite Hmiss.
  set (w1 := emit _ w).
  pose proof (authenticate_params_env method p w1) as (_ & _ & En & Ep & _).
  unfold try_catch.
  set (w2 := snd (authenticate_params method p w1)) in *.
  pose proof (api_request_ok (urljoin CF_API_BASE method) p
                (cache_key_of w method (heap w !!! p)) data w2) as H.
  rewrite En, Ep in H. specialize (H Hok).
  destruct (api_request _ _ _ w2) as [[a|e|] w3]; simpl in H; by simplify_eq.
Qed.

Lemma failed_request_unfold (method : string) (p : nat) (w : world) :
  failed_request method p w
  = let key := cache_key_of w method (heap w !!! p) in
    let w2 := snd (authenticate_params method p
                     (emit (EvCacheGet key (cache_read key w)) w)) in
    sent (Request GET (urljoin CF_API_BASE method) (heap w2 !!! p)) w2.
Proof. reflexivity. Qed.

#[global] Arguments failed_request : simpl never.

Lemma failed_request_env (method : string) (p : nat) (w : world) :
  cache (failed_request method p w) = cache w
  /\ net (failed_request method p w) = net w
  /\ net_pos (failed_request method p w) = S (net_pos w)
  /\ sleeps (log (failed_request method p w)) = sleeps (log w).
Proof.
  rewrite failed_request_unfold. cbv zeta. set (w1 := emit _ w).
  pose proof (authenticate_params_env method p w1) as (El & Ec & En & Ep & _).
  simpl. by rewrite El, Ec, En, Ep.
Qed.

Lemma call_api_transport_error_step (fuel : nat) (method : string) (p : nat)
    (m : string) (w : world) :
  truthy_opt (cache_read (cache_key_of w method (heap w !!! p)) w) = false ->
  transport_error (net w (net_pos w)) = Some m ->
  call_api (S fuel) method (Some p) w
  = call_api_except (call_api fuel method (Some p)) (RequestException m)
      (failed_request method p w).
Proof.
  intros Hmiss Herr. rewrite call_api_unfold. cbv zeta. rewrite Hmiss.
  rewrite failed_request_unfold. cbv zeta. set (w1 := emit _ w).
  pose proof (authenticate_params_env method p w1) as (_ & _ & En & Ep & _).
  unfold try_catch.
  rewrite (api_request_transport_error _ _ _ m); [done|].
  by rewrite En, Ep.
Qed.

Lemma enter_env (params : option nat) (w : world) :
  net (snd (enter params w)) = net w
  /\ net_pos (snd (enter params w)) = net_pos w
  /\ cache (snd (enter params w)) = cache w
  /\ log (snd (enter params w)) = log w.
Proof. by destruct params. Qed.

(** C9 (amended). When the first request of a call raises a transport
    error, [call_api] never returns a document: the result of
    [_retry_with_backoff] is dropped.  The call is made again up to three
    times, after sleeps of 1, 2 and 4 seconds: as soon as one of these
    retried calls returns, whatever it returns, [call_api] returns [None];
    when the three of them raise, the exception of the third is raised to
    the caller, after the giving-up line.  In particular [call_api] returns
    [None] when the first retried request is answered with status OK (here
    from an empty cache, so that the retried call reaches the transport). *)
Theorem call_api_transport_error_result (fuel : nat) (method : string)
    (params : option nat) (m : string) (w : world) :
  let p := fst (enter params w) in
  let w0 := snd (enter params w) in
  let again := call_api fuel method (Some p) in
  let w1 := snd (print (Fore_RED ++ "Network error: " ++ m ++ Style_RESET_ALL)
                   (failed_request method p w0)) in
  let res := call_api (S fuel) method params w in
  truthy_opt (cache_read (cache_key_of w0 method (heap w0 !!! p)) w0) = false ->
  transport_error (net w (net_pos w)) = Some m ->
  (forall j, fst res <> Return (Some j))
  /\ (forall a w',
        again (before_attempt 3 1 0 w1) = (Return a, w') ->
        res = (Return None, w'))
  /\ (forall e0 s0 a w',
        again (before_attempt 3 1 0 w1) = (Raise e0, s0) ->
        again (before_attempt 3 1 1 s0) = (Return a, w') ->
        res = (Return None, w'))
  /\ (forall e0 s0 e1 s1 a w',
        again (before_attempt 3 1 0 w1) = (Raise e0, s0) ->
        again (before_attempt 3 1 1 s0) = (Raise e1, s1) ->
        again (before_attempt 3 1 2 s1) = (Return a, w') ->
        res = (Return None, w'))
  /\ (forall e0 s0 e1 s1 e2 s2,
        again (before_attempt 3 1 0 w1) = (Raise e0, s0) ->
        again (before_attempt 3 1 1 s0) = (Raise e1, s1) ->
        again (before_attempt 3 1 2 s1) = (Raise e2, s2) ->
        res = (Raise e2, emit (EvOut giving_up_line) s2))
  /\ (forall data,
        cache w = ∅ -> ok_response (net w (S (net_pos w))) = Some data ->
        fst (call_api (S (S fuel)) method params w) = Return None).
Proof.
  cbv zeta. rewrite (call_api_enter fuel), (call_api_enter (S fuel)).
  destruct (enter_env params w) as (En0 & Ep0 & Ec0 & _).
  revert En0 Ep0 Ec0.
  generalize (snd (enter params w)) (fst (enter params w)).
  intros w0 p En0 Ep0 Ec0 Hmiss Herr. rewrite <- En0, <- Ep0 in Herr.
  assert (Hrun : call_api (S fuel) method (Some p) w0
            = match retry_loop (call_api fuel method (Some p)) 3 1 [0; 1; 2]
                      (snd (print (Fore_RED ++ "Network error: " ++ m ++ Style_RESET_ALL)
                              (failed_request method p w0))) with
              | (Return _, w') => (Return None, w')
              | (Raise e, w') => (Raise e, w')
              | (Diverge, w') => (Diverge, w')
              end).
  { rewrite (call_api_transport_error_step _ _ _ m) by done.
    by rewrite call_api_except_result. }
  split; [|split; [|split; [|split; [|split]]]].
  - intros j. rewrite Hrun.
    by destruct (retry_loop _ 3 1 _ _) as [[a|e|] w'].
  - intros a w' H0. by rewrite Hrun, retry_loop_attempt, H0.
  - intros e0 s0 a w' H0 H1. rewrite Hrun, retry_loop_attempt, H0.
    change (Z.eqb 0 (3 - 1)) with false. cbv iota.
    by rewrite retry_loop_attempt, H1.
  - intros e0 s0 e1 s1 a w' H0 H1 H2. rewrite Hrun, retry_loop_attempt, H0.
    change (Z.eqb 0 (3 - 1)) with false. cbv iota.
    rewrite retry_loop_attempt, H1.
    change (Z.eqb 1 (3 - 1)) with false. cbv iota.
    by rewrite retry_loop_attempt, H2.
  - intros e0 s0 e1 s1 e2 s2 H0 H1 H2. rewrite Hrun, retry_loop_attempt, H0.
    change (Z.eqb 0 (3 - 1)) with false. cbv iota.
    rewrite retry_loop_attempt, H1.
    change (Z.eqb 1 (3 - 1)) with false. cbv iota.
    rewrite retry_loop_attempt, H2.
    change (Z.eqb 2 (3 - 1)) with true. reflexivity.
  - intros data Hc Hok.
    rewrite (call_api_transport_error_step _ _ _ m) by done.
    rewrite call_api_except_result, retry_first_attempt.
    destruct (failed_request_env method p w0) as (Ec & En & Ep & _).
    match goal with
    | |- context [before_first_retry (snd (print ?s ?w3))] =>
        destruct (before_first_retry_env (snd (print s w3))) as (Ec5 & En5 & Ep5 & _);
        destruct (print_env s w3) as (Ec4 & En4 & Ep4 & _)
    end.
    set (w5 := before_first_retry _) in *.
    rewrite Ec4, Ec, Ec0, Hc in Ec5. rewrite En4, En, En0 in En5.
    rewrite Ep4, Ep, Ep0 in Ep5.
    pose proof (call_api_ok_response fuel method p data w5) as H.
    rewrite En5, Ep5 in H. unfold cache_read in H. rewrite Ec5 in H.
    rewrite lookup_empty in H. specialize (H eq_refl Hok).
    destruct (call_api (S fuel) method (Some p) w5) as [[a|e|] w6];
      simpl in H; by simplify_eq.
Qed.


Lemma repeat_app_cons {A} (x : A) (n : nat) (l : list A) :
  (repeat x n ++ x :: l)%list = x :: (repeat x n ++ l)%list.
Proof. induction n as [|n IH]; simpl; [done|]. by rewrite IH. Qed.

(** C1 (the code at the failing input). Over a transport on which every
    request fails, and from an empty cache, [call_api] does not raise the
    transport error after three attempts: each retried call is [call_api]
    itself, which catches its own failure and starts a retry of its own at
    attempt 0.  Whatever the depth allowed, the call is cut short at that
    depth, having sent one request per level and slept one second (the base
    delay times 2^0) before each of them: no second or third attempt of any
    retry is ever reached. *)
Theorem call_api_failing_transport_unbounded (method : string)
    (params : option nat) (w : world) :
  cache w = ∅ ->
  (forall i, transport_error (net w i) <> None) ->
  forall fuel,
    fst (call_api fuel method params w) = Diverge
    /\ net_pos (snd (call_api fuel method params w)) = (net_pos w + fuel)%nat
    /\ sleeps (log (snd (call_api fuel method params w)))
       = (repeat 1 fuel ++ sleeps (log w))%list.
Proof.
  intros Hc Hfail fuel. revert params w Hc Hfail.
  induction fuel as [|fuel IH]; intros params w Hc Hfail.
  { simpl. split; [done|]. split; [lia|done]. }
  rewrite call_api_enter.
  destruct (enter_env params w) as (En0 & Ep0 & Ec0 & El0).
  revert En0 Ep0 Ec0 El0.
  generalize (snd (enter params w)) (fst (enter params w)).
  intros w0 p En0 Ep0 Ec0 El0.
  destruct (transport_error (net w0 (net_pos w0))) as [m|] eqn:Em;
    [|by rewrite En0 in Em; apply Hfail in Em].
  rewrite (call_api_transport_error_step _ _ _ m);
    [|by unfold cache_read; rewrite Ec0, Hc, lookup_empty|done].
  rewrite call_api_except_result, retry_first_attempt.
  destruct (failed_request_env method p w0) as (Ec & En & Ep & Es).
  match goal with
  | |- context [before_first_retry (snd (print ?s ?w3))] =>
      destruct (before_first_retry_env (snd (print s w3))) as (Ec5 & En5 & Ep5 & Es5);
      destruct (print_env s w3) as (Ec4 & En4 & Ep4 & Es4)
  end.
  set (w5 := before_first_retry _) in *.
  rewrite Ec4, Ec, Ec0, Hc in Ec5. rewrite En4, En, En0 in En5.
  rewrite Ep4, Ep, Ep0 in Ep5. rewrite Es4, Es, El0 in Es5.
  destruct (IH (Some p) w5 Ec5) as (Hd & Hn & Hs).
  { intros i. rewrite En5. apply Hfail. }
  destruct (call_api fuel method (Some p) w5) as [[a|e|] w6]; simpl in Hd;
    try discriminate.
  simpl in *. split; [done|]. split; [lia|].
  by rewrite Hs, Es5, repeat_app_cons.
Qed.

(** ** The verdict poller *)

Lemma poll_queued_step (url : string) (params : pydict pval) (attempt : Z)
    (rest : list Z) (w : world) :
  queued_answer (net w (net_pos w)) = true ->
  poll url params (attempt :: rest) w
  = poll url params rest (queued_tick url params attempt w).
Proof.
  intros Hq. unfold queued_tick, sent. cbn [poll].
  destruct (net w (net_pos w)) as [e|r] eqn:En; [done|]. simpl in Hq.
  apply andb_true_iff in Hq as [Hs Hq].
  destruct (json_body r) as [e|[| | | | |d]] eqn:Eb; try done.
  destruct (dict_get "verdict" d) as [[| | |v| |]|] eqn:Ev; try done.
  erewrite bind_return by (rewrite session_send_run, En; reflexivity).
  rewrite Hs. change (negb true) with false. cbv iota.
  erewrite bind_return by (unfold response_json; rewrite Eb; reflexivity).
  erewrite bind_return by (simpl; rewrite Ev; reflexivity).
  unfold json_is_str. rewrite Hq. reflexivity.
Qed.

Lemma quiet_bind {A B} (m : M A) (k : A -> M B) :
  quiet m -> (forall a, quiet (k a)) -> quiet (bind m k).
Proof.
  intros Hm Hk w. unfold bind. destruct (Hm w) as (Hd & Hn & Hs).
  destruct (m w) as [[a|e|] w1]; simpl in *; [|done|done].
  destruct (Hk a w1) as (Hd' & Hn' & Hs'). rewrite Hn', Hs'. done.
Qed.

Lemma quiet_pure {A} (m : M A) :
  (forall w, snd (m w) = w /\ fst (m w) <> Diverge) -> quiet m.
Proof. intros H w. destruct (H w) as [-> ?]. done. Qed.

Lemma quiet_print (s : string) : quiet (print s).
Proof. done. Qed.

Lemma quiet_json_get (data : json) (key : string) (default : json) :
  quiet (json_get data key default).
Proof. apply quiet_pure. by destruct data. Qed.

Lemma quiet_json_str (x : json) : quiet (json_str x).
Proof. by apply quiet_pure. Qed.

Lemma quiet_floordiv_1024 (x : json) : quiet (floordiv_1024 x).
Proof. apply quiet_pure. by destruct x. Qed.

(** One tick of the poller: either the submission is still queued and the
    loop goes on after a sleep, or the loop ends here, having used one
    request and no sleep. *)
Lemma poll_step (url : string) (params : pydict pval) (attempt : Z)
    (rest : list Z) (w : world) :
  let r := poll url params (attempt :: rest) w in
  if queued_answer (net w (net_pos w)) then
    r = poll url params rest (queued_tick url params attempt w)
  else
    fst r <> Diverge /\ net_pos (snd r) = S (net_pos w)
    /\ sleeps (log (snd r)) = sleeps (log w).
Proof.
  cbv zeta. destruct (queued_answer (net w (net_pos w))) eqn:Hq.
  { by apply poll_queued_step. }
  cbn [poll].
  destruct (net w (net_pos w)) as [e|r] eqn:En.
  { erewrite bind_raise by (rewrite session_send_run, En; reflexivity). done. }
  erewrite bind_return by (rewrite session_send_run, En; reflexivity).
  set (w1 := emit _ _).
  assert (Hgo : forall (m : M unit), quiet m ->
            fst (m w1) <> Diverge /\ net_pos (snd (m w1)) = S (net_pos w)
            /\ sleeps (log (snd (m w1))) = sleeps (log w)).
  { intros m Hm. destruct (Hm w1) as (? & -> & ->). done. }
  simpl in Hq.
  destruct (Z.eqb (status_code r) 200) eqn:Es.
  2: { change (negb false) with true. cbv iota. apply Hgo, quiet_print. }
  change (negb true) with false. cbv iota. simpl in Hq.
  destruct (json_body r) as [e|data] eqn:Eb.
  { erewrite bind_raise by (unfold response_json; rewrite Eb; reflexivity). done. }
  erewrite bind_return by (unfold response_json; rewrite Eb; reflexivity).
  destruct data as [| | | | |d];
    try (erewrite bind_raise by reflexivity; done).
  erewrite bind_return by reflexivity.
  assert (Hv : json_is_str (default JNull (dict_get "verdict" d)) "TESTING"
               || json_is_str (default JNull (dict_get "verdict" d)) "" = false).
  { destruct (dict_get "verdict" d) as [[| | |v| |]|]; try done. }
  change (match dict_get "verdict" d with Some v => v | None => JNull end)
    with (default JNull (dict_get "verdict" d)).
  rewrite Hv. apply Hgo.
  repeat (first [ apply quiet_print | apply quiet_json_get | apply quiet_json_str
                | apply quiet_floordiv_1024 | apply quiet_bind | intros ? ]).
  destruct (_ && _); [|by apply quiet_pure].
  repeat (first [ apply quiet_print | apply quiet_json_get | apply quiet_json_str
                | apply quiet_bind | intros ? ]).
Qed.

Lemma queued_tick_env (url : string) (params : pydict pval) (attempt : Z)
    (w : world) :
  net (queued_tick url params attempt w) = net w
  /\ net_pos (queued_tick url params attempt w) = S (net_pos w)
  /\ py_repr (queued_tick url params attempt w) = py_repr w
  /\ sleeps (log (queued_tick url params attempt w)) = 2 :: sleeps (log w)
  /\ exists pre, outs (log (queued_tick url params attempt w))
                 = (pre ++ outs (log w))%list.
Proof. repeat split. by exists [queue_line attempt]. Qed.

(** Every run of the loop ends, after at most one request per attempt. *)
Lemma poll_bounded (url : string) (params : pydict pval) (attempts : list Z)
    (w : world) :
  fst (poll url params attempts w) <> Diverge
  /\ (net_pos (snd (poll url params attempts w)) <= net_pos w + length attempts)%nat.
Proof.
  revert w. induction attempts as [|attempt rest IH]; intros w.
  { simpl. split; [done|lia]. }
  pose proof (poll_step url params attempt rest w) as H. cbv zeta in H.
  destruct (queued_answer (net w (net_pos w))).
  - rewrite H. destruct (IH (queued_tick url params attempt w)) as [Hd Hn].
    destruct (queued_tick_env url params attempt w) as (_ & Ep & _).
    rewrite Ep in Hn. split; [done|]. cbn [length]. lia.
  - destruct H as (Hd & Hn & _). split; [done|]. cbn [length]. lia.
Qed.

(** A run of queued answers. *)
Lemma poll_queued_prefix (url : string) (params : pydict pval)
    (pre rest : list Z) (w : world) :
  (forall i, (i < length pre)%nat -> queued_answer (net w (net_pos w + i)) = true) ->
  exists w1,
    poll url params (pre ++ rest) w = poll url params rest w1
    /\ net w1 = net w /\ net_pos w1 = (net_pos w + length pre)%nat
    /\ py_repr w1 = py_repr w
    /\ sleeps (log w1) = (repeat 2 (length pre) ++ sleeps (log w))%list
    /\ exists o, outs (log w1) = (o ++ outs (log w))%list.
Proof.
  revert w. induction pre as [|attempt pre IH]; intros w Hq.
  { exists w. simpl. repeat split; [lia|by exists []]. }
  simpl app. rewrite poll_queued_step
    by (specialize (Hq 0%nat); rewrite Nat.add_0_r in Hq; apply Hq; simpl; lia).
  destruct (queued_tick_env url params attempt w) as (En & Ep & Er & Es & o1 & Eo).
  destruct (IH (queued_tick url params attempt w)) as (w1 & E & En1 & Ep1 & Er1 & Es1 & o2 & Eo2).
  { intros i Hi. rewrite En, Ep.
    replace (S (net_pos w) + i)%nat with (net_pos w + S i)%nat by lia.
    apply Hq. simpl. lia. }
  exists w1. split; [done|]. rewrite En1, Ep1, Er1, Es1, Es, Ep, En, Er.
  repeat split; [simpl; lia| |].
  - by rewrite repeat_app_cons.
  - exists (o2 ++ o1)%list. by rewrite Eo2, Eo, app_assoc.
Qed.

Lemma poll_final (url : string) (params : pydict pval) (attempt : Z)
    (rest : list Z) (w : world) (r : response) (d : pydict json)
    (v : string) (mem : Z) :
  net w (net_pos w) = NetResponse r ->
  status_code r = 200 ->
  json_body r = inr (JDict d) ->
  dict_get "verdict" d = Some (JStr v) -> v <> "TESTING" -> v <> "" ->
  dict_get "memoryConsumedBytes" d = Some (JInt mem) ->
  exists w',
    poll url params (attempt :: rest) w = (Return tt, w')
    /\ net_pos w' = S (net_pos w)
    /\ sleeps (log w') = sleeps (log w)
    /\ outs (log w') = (rev (report_lines w d v mem) ++ outs (log w))%list.
Proof.
  intros Hn Hs Hb Hv Hv1 Hv2 Hm.
  apply String.eqb_neq in Hv1, Hv2.
  cbn [poll].
  erewrite bind_return by (rewrite session_send_run, Hn; reflexivity).
  rewrite Hs. change (negb (Z.eqb 200 200)) with false. cbv iota.
  erewrite bind_return by (unfold response_json; rewrite Hb; reflexivity).
  erewrite bind_return by (simpl; rewrite Hv; reflexivity).
  unfold json_is_str at 1 2. rewrite Hv1, Hv2.
  change (false || false) with false. cbv iota.
  erewrite bind_return by reflexivity.
  erewrite bind_return by reflexivity.
  erewrite bind_return by (simpl; rewrite Hm; reflexivity).
  repeat (erewrite bind_return by reflexivity).
  unfold report_lines, verdict_color, json_is_str, json_has.
  destruct (dict_has "testset" d && dict_has "testCount" d).
  - repeat (erewrite bind_return by reflexivity).
    eexists. split; [reflexivity|].
    destruct (String.eqb v "OK"); repeat split.
  - eexists. split; [reflexivity|].
    destruct (String.eqb v "OK"); repeat split.
Qed.

Lemma status_submission_run (submission_id : string) (w : world) :
  status_submission submission_id w
  = match poll status_url [("submissionId", PStr submission_id)] (range 10)
            (snd (print (checking_line submission_id) w)) with
    | (Raise e, w') =>
        print (Fore_RED ++ "Error checking status: " ++ exn_str e
               ++ Style_RESET_ALL) w'
    | r => r
    end.
Proof. reflexivity. Qed.

Lemma range_10 : range 10 = [0; 1; 2; 3; 4; 5; 6; 7; 8; 9].
Proof. reflexivity. Qed.

(** C2 (amended). The poller of [status] always comes back, after at most
    10 requests.  If the first 10 answers are all queued, it sends exactly
    10 requests, sleeps 2 seconds after each and ends on the "check
    manually" line.  If the answers before index [k] (k < 10) are queued and
    answer [k] carries a verdict that is neither empty nor "TESTING"
    together with an integer [memoryConsumedBytes], it stops there, after
    [k + 1] requests and [k] sleeps of 2 seconds, and the last lines printed
    are the report: the verdict, the time, the memory in KB and, when the
    document has both [testset] and [testCount], the passed and total
    counts. *)
Theorem status_poller (submission_id : string) (w : world) :
  let r := status_submission submission_id w in
  (fst r = Return tt /\ (net_pos (snd r) <= net_pos w + 10)%nat)
  /\ ((forall i, (i < 10)%nat -> queued_answer (net w (net_pos w + i)) = true) ->
      net_pos (snd r) = (net_pos w + 10)%nat
      /\ sleeps (log (snd r)) = (repeat 2 10 ++ sleeps (log w))%list
      /\ exists pre, outs (log (snd r)) = max_polling_line :: pre)
  /\ (forall k resp d v mem,
        (k < 10)%nat ->
        (forall i, (i < k)%nat -> queued_answer (net w (net_pos w + i)) = true) ->
        net w (net_pos w + k) = NetResponse resp ->
        status_code resp = 200 ->
        json_body resp = inr (JDict d) ->
        dict_get "verdict" d = Some (JStr v) -> v <> "TESTING" -> v <> "" ->
        dict_get "memoryConsumedBytes" d = Some (JInt mem) ->
        net_pos (snd r) = (net_pos w + S k)%nat
        /\ sleeps (log (snd r)) = (repeat 2 k ++ sleeps (log w))%list
        /\ exists pre, outs (log (snd r))
                       = (rev (report_lines w d v mem) ++ pre)%list).
Proof.
  cbv zeta. rewrite status_submission_run.
  set (params := [("submissionId", PStr submission_id)]).
  set (w0 := snd (print (checking_line submission_id) w)).
  assert (E0 : net w0 = net w /\ net_pos w0 = net_pos w /\ py_repr w0 = py_repr w
               /\ sleeps (log w0) = sleeps (log w)) by done.
  destruct E0 as (En0 & Ep0 & Er0 & Es0).
  split; [|split].
  - destruct (poll_bounded status_url params (range 10) w0) as [Hd Hn].
    change (length (range 10)) with 10%nat in Hn. rewrite Ep0 in Hn.
    destruct (poll status_url params (range 10) w0) as [[[]|e|] w1];
      simpl in *; done.
  - intros Hq.
    destruct (poll_queued_prefix status_url params (range 10) [] w0)
      as (w1 & E & En1 & Ep1 & _ & Es1 & o & Eo).
    { intros i Hi. rewrite En0, Ep0. by apply Hq. }
    rewrite app_nil_r in E. rewrite E. simpl poll. simpl.
    rewrite Ep1, Es1, Ep0, Es0. repeat split. eauto.
  - intros k resp d v mem Hk Hq Hn Hs Hb Hv Hv1 Hv2 Hm.
    assert (Hsplit : exists attempt,
              range 10 = (take k (range 10) ++ attempt :: drop (S k) (range 10))%list
              /\ length (take k (range 10)) = k).
    { rewrite range_10.
      do 10 (destruct k as [|k]; [eexists; split; reflexivity|]). lia. }
    destruct Hsplit as (attempt & Er & Hlen).
    rewrite Er.
    destruct (poll_queued_prefix status_url params (take k (range 10))
                (attempt :: drop (S k) (range 10)) w0)
      as (w1 & E & En1 & Ep1 & Er1 & Es1 & o & Eo).
    { intros i Hi. rewrite En0, Ep0. apply Hq. by rewrite Hlen in Hi. }
    rewrite E. rewrite Hlen in *.
    destruct (poll_final status_url params attempt (drop (S k) (range 10)) w1
                resp d v mem) as (w2 & -> & Ep2 & Es2 & Eo2); try done.
    { by rewrite En1, Ep1, En0, Ep0. }
    simpl. rewrite Ep2, Es2, Ep1, Es1, Ep0, Es0, Eo2.
    split; [lia|]. split; [done|].
    assert (report_lines w1 d v mem = report_lines w d v mem) as ->.
    { unfold report_lines, render. by rewrite Er1, Er0. }
    eauto.
Qed.

(** ** submit: the duplicate-submission answer *)

(** The POST and what follows it, in the log: the "Submitting" line, the
    request, then only terminal output; on a duplicate answer that output is
    the warning line alone and the block returns. *)
Lemma submit_form_log (url : string) (contest_id : Z) (problem_index : string)
    (data : pydict pval) (w : world) :
  let res := try_catch (submit_form url contest_id problem_index data)
                       submit_except w in
  exists pre,
    log (snd res)
    = (pre ++ EvNet (Request POST url data) (net w (net_pos w))
           :: EvOut (submitting_line contest_id problem_index) :: log w)%list
    /\ (forall e, In e pre -> exists s, e = EvOut s)
    /\ (forall r, net w (net_pos w) = NetResponse r ->
                  contains duplicate_phrase (text r) = true ->
                  fst res = Return tt /\ pre = [EvOut duplicate_warning_line]).
Proof.
  cbv zeta. unfold try_catch, submit_form.
  rewrite (bind_return _ _ _ _ _ (print_run _ w)).
  fold (submitting_line contest_id problem_index).
  destruct (net w (net_pos w)) as [e|r] eqn:En.
  { erewrite bind_raise
      by (rewrite session_send_run; cbn [net net_pos emit]; rewrite En; reflexivity).
    cbv iota beta.
    exists [EvOut (line (Fore_RED ++ "Error submitting solution: " ++ exn_str e
                         ++ Style_RESET_ALL))].
    split; [reflexivity|]. split; [|done].
    intros ev [<-|[]]. eauto. }
  erewrite bind_return
    by (rewrite session_send_run; cbn [net net_pos emit]; rewrite En; reflexivity).
  destruct (contains duplicate_phrase (text r)) eqn:Ed.
  { exists [EvOut duplicate_warning_line]. split; [reflexivity|].
    split; [intros ev [<-|[]]; eauto|]. intros r' _ _. split; reflexivity. }
  destruct (contains _ (resp_url r)).
  - rewrite (bind_return _ _ _ _ _ (print_run _ _)).
    destruct (submission_id_search (text r)) as [i|].
    + rewrite (bind_return _ _ _ _ _ (print_run _ _)).
      eexists [_; _; _]. split; [reflexivity|].
      split; [|intros r' [= <-]; congruence].
      intros ev [<-|[<-|[<-|[]]]]; eauto.
    + eexists [_]. split; [reflexivity|].
      split; [|intros r' [= <-]; congruence].
      intros ev [<-|[]]; eauto.
  - rewrite (bind_return _ _ _ _ _ (print_run _ _)).
    eexists [_; _]. split; [reflexivity|].
    split; [|intros r' [= <-]; congruence].
    intros ev [<-|[<-|[]]]; eauto.
Qed.

Lemma get_session_run (w : world) : get_session w = (Return (sess w), w).
Proof. reflexivity. Qed.

(** [submit_source], by cases on the token and on the page fetched for it. *)
Lemma submit_source_run (contest_id : Z) (problem_index source_code : string)
    (w : world) :
  submit_source contest_id problem_index source_code w
  = let url := urljoin CF_BASE_URL ("contest/" ++ str_of_Z contest_id ++ "/submit") in
    if truthy_str (csrf_token (sess w)) then
      try_catch (submit_form url contest_id problem_index
                   (submit_data (csrf_token (sess w)) problem_index source_code))
                submit_except w
    else
      let w1 := sent (Request GET url []) (emit (EvOut getting_token_line) w) in
      match net w (net_pos w) with
      | NetRaises e => (Raise e, w1)
      | NetResponse r0 =>
          match csrf_search (text r0) with
          | None => (Return tt, emit (EvOut could_not_extract_line) w1)
          | Some tok =>
              try_catch (submit_form url contest_id problem_index
                           (submit_data (Some tok) problem_index source_code))
                        submit_except
                        (set_sess (with_csrf_token tok (sess w)) w1)
          end
      end.
Proof.
  cbv zeta. unfold submit_source.
  rewrite (bind_return _ _ _ _ _ (get_session_run w)).
  destruct (truthy_str (csrf_token (sess w))); cbn [negb]; cbv iota.
  - rewrite bind_ret_l. cbn [negb]. cbv iota.
    by rewrite (bind_return _ _ _ _ _ (get_session_run w)).
  - unfold bind at 1.
    rewrite (bind_return _ _ _ _ _ (print_run _ w)).
    fold getting_token_line.
    unfold bind at 1. rewrite session_send_run. cbn [net net_pos emit].
    unfold sent. cbn [net net_pos emit].
    destruct (net w (net_pos w)) as [e|r0]; [done|].
    destruct (csrf_search (text r0)) as [tok|].
    + unfold bind at 1. unfold modify, ret. cbn [negb]. cbv iota.
      by rewrite (bind_return _ _ _ _ _ (get_session_run _)).
    + rewrite (bind_return _ _ _ _ _ (print_run _ _)). done.
Qed.

(** C8. Whenever a run of [submit] posts the form and the response body
    contains the judge's duplicate-submission phrase, the run returns
    normally (nothing is raised), the warning line is the last thing it
    prints, right after the response, and everything it prints is the
    progress lines and that warning: neither the "Submission failed" line nor
    an "Error submitting solution" line. *)
Theorem submit_duplicate_is_warning (contest_id : Z)
    (problem_index source_code : string) (w : world) (evs : list event)
    (req : request) (r : response) :
  let res := submit_source contest_id problem_index source_code w in
  log (snd res) = (evs ++ log w)%list ->
  In (EvNet req (NetResponse r)) evs -> verb req = POST ->
  contains duplicate_phrase (text r) = true ->
  fst res = Return tt
  /\ (exists pre, evs = EvOut duplicate_warning_line
                        :: EvNet req (NetResponse r) :: pre)
  /\ (forall s, In (EvOut s) evs ->
        s = duplicate_warning_line
        \/ s = submitting_line contest_id problem_index
        \/ s = getting_token_line)
  /\ ~ In (EvOut submission_failed_line) evs.
Proof.
  cut (let res := submit_source contest_id problem_index source_code w in
       log (snd res) = (evs ++ log w)%list ->
       In (EvNet req (NetResponse r)) evs -> verb req = POST ->
       contains duplicate_phrase (text r) = true ->
       fst res = Return tt
       /\ (exists pre, evs = EvOut duplicate_warning_line
                             :: EvNet req (NetResponse r) :: pre)
       /\ (forall s, In (EvOut s) evs ->
             s = duplicate_warning_line
             \/ s = submitting_line contest_id problem_index
             \/ s = getting_token_line)).
  { cbv zeta. intros H Hevs Hin Hverb Hc.
    destruct (H Hevs Hin Hverb Hc) as (Hret & Hpre & Hall).
    repeat split; try done.
    intros Hfail. apply Hall in Hfail as [Hf|[Hf|Hf]];
      vm_compute in Hf; discriminate. }
  cbv zeta. rewrite submit_source_run. cbv zeta.
  set (url := urljoin CF_BASE_URL ("contest/" ++ str_of_Z contest_id ++ "/submit")).
  destruct (truthy_str (csrf_token (sess w))) eqn:Et.
  - match goal with
    | |- context [try_catch (submit_form url contest_id problem_index ?d)] =>
        destruct (submit_form_log url contest_id problem_index d w)
          as (pre & El & Hpre & Hdup)
    end.
    cbv zeta in El, Hdup. rewrite El.
    intros Hevs Hin Hverb Hc.
    change (?a ++ ?b :: ?c :: log w)%list with (a ++ [b; c] ++ log w)%list in Hevs.
    rewrite app_assoc in Hevs. apply app_inv_tail in Hevs. subst evs.
    apply in_app_or in Hin as [Hin|[Hin|[Hin|[]]]];
      [apply Hpre in Hin as [s ?]; done| |done].
    injection Hin as <- Hn.
    destruct (Hdup r Hn Hc) as [Hret ->].
    split; [done|]. split; [rewrite Hn; by eexists|].
    intros s [Hs|[Hs|[Hs|[]]]]; simplify_eq; auto.
  - destruct (net w (net_pos w)) as [e|r0] eqn:En0.
    { unfold sent; cbn [fst snd log emit set_net_pos set_sess net net_pos]. intros Hevs Hin.
      change (?b :: ?c :: log w)%list with ([b; c] ++ log w)%list in Hevs.
      apply app_inv_tail in Hevs. subst evs.
      destruct Hin as [Hin|[Hin|[]]]; [|discriminate].
      rewrite En0 in Hin. discriminate. }
    destruct (csrf_search (text r0)) as [tok|].
    + match goal with
      | |- context [try_catch (submit_form url contest_id problem_index ?d) _ ?w1] =>
          destruct (submit_form_log url contest_id problem_index d w1)
            as (pre & El & Hpre & Hdup)
      end.
      cbv zeta in El, Hdup. rewrite El.
      unfold sent in *; cbn [log net net_pos set_sess emit set_net_pos] in *.
      intros Hevs Hin Hverb Hc.
      change (?a ++ ?b :: ?c :: ?d :: ?e :: log w)%list
        with (a ++ [b; c; d; e] ++ log w)%list in Hevs.
      rewrite app_assoc in Hevs. apply app_inv_tail in Hevs. subst evs.
      apply in_app_or in Hin as [Hin|[Hin|[Hin|[Hin|[Hin|[]]]]]];
        [apply Hpre in Hin as [s ?]; done| |done| |done].
      * injection Hin as <- Hn.
        destruct (Hdup r Hn Hc) as [Hret ->].
        split; [done|]. split; [rewrite Hn; by eexists|].
        intros s [Hs|[Hs|[Hs|[Hs|[Hs|[]]]]]]; simplify_eq; auto.
      * injection Hin as <- _. discriminate.
    + unfold sent; cbn [fst snd log emit set_net_pos set_sess net net_pos]. intros Hevs Hin Hverb.
      change (?a :: ?b :: ?c :: log w)%list with ([a; b; c] ++ log w)%list in Hevs.
      apply app_inv_tail in Hevs. subst evs.
      destruct Hin as [Hin|[Hin|[Hin|[]]]]; try discriminate.
      injection Hin as <- _. discriminate.
Qed.

(** ** The signed string, against its description *)

Lemma str_app_nil_l (b : string) : "" ++ b = b.
Proof. reflexivity. Qed.

Lemma str_app_cons (x : ascii) (a b : string) :
  String x a ++ b = String x (a ++ b).
Proof. reflexivity. Qed.

Lemma str_app_assoc (a b c : string) : (a ++ b) ++ c = a ++ b ++ c.
Proof.
  induction a as [|x a IH]; rewrite ?str_app_nil_l, ?str_app_cons; congruence.
Qed.

Lemma str_app_nil_r (a : string) : a ++ "" = a.
Proof.
  induction a as [|x a IH]; rewrite ?str_app_nil_l, ?str_app_cons; congruence.
Qed.

Lemma list_ascii_app (a b : string) :
  list_ascii_of_string (a ++ b)
  = (list_ascii_of_string a ++ list_ascii_of_string b)%list.
Proof.
  induction a as [|x a IH]; rewrite ?str_app_nil_l, ?str_app_cons; simpl;
    congruence.
Qed.

Lemma rstrip_no_trailing (c : ascii) (s : string) :
  ends_with c s = false -> rstrip c s = s.
Proof.
  unfold ends_with, rstrip. intros H.
  destruct (rev (list_ascii_of_string s)) as [|x l] eqn:E; simpl.
  - apply (f_equal (@rev ascii)) in E. rewrite rev_involutive in E. simpl in E.
    by rewrite <- (string_of_list_ascii_of_string s), E.
  - rewrite H. rewrite <- E, rev_involutive.
    apply string_of_list_ascii_of_string.
Qed.

Lemma rstrip_snoc (c : ascii) (s : string) :
  ends_with c s = false -> rstrip c (s ++ String c "") = s.
Proof.
  intros H. pose proof (rstrip_no_trailing c s H) as Hs.
  unfold rstrip in *. rewrite list_ascii_app, rev_app_distr. simpl.
  by rewrite Ascii.eqb_refl.
Qed.

Lemma ends_with_app (c : ascii) (a b : string) :
  b <> "" -> ends_with c (a ++ b) = ends_with c b.
Proof.
  intros Hb. unfold ends_with. rewrite list_ascii_app, rev_app_distr.
  destruct (rev (list_ascii_of_string b)) as [|x l] eqn:E; [|done].
  apply (f_equal (@rev ascii)) in E. rewrite rev_involutive in E. simpl in E.
  destruct b; simpl in E; done.
Qed.

Lemma concat_empty_cons (x : string) (l : list string) :
  String.concat "" (x :: l) = x ++ String.concat "" l.
Proof. destruct l; simpl; [by rewrite str_app_nil_r|done]. Qed.

Lemma fold_pairs (item : string -> string) (keys : list string) (acc : string) :
  fold_left (fun acc key => acc ++ item key ++ "&") keys acc
  = acc ++ String.concat "" (map (fun key => item key ++ "&") keys).
Proof.
  revert acc. induction keys as [|k keys IH]; intros acc.
  - simpl. by rewrite str_app_nil_r.
  - cbn [fold_left map]. by rewrite IH, concat_empty_cons, str_app_assoc.
Qed.

Lemma concat_pairs_snoc (items : list string) :
  items <> [] ->
  String.concat "" (map (fun i => i ++ "&") items)
  = String.concat "&" items ++ "&".
Proof.
  induction items as [|i items IH]; [done|]. intros _.
  cbn [map]. rewrite concat_empty_cons.
  destruct items as [|i' items]; [by rewrite str_app_nil_r|].
  rewrite IH by done.
  change (String.concat "&" (i :: i' :: items))
    with (i ++ "&" ++ String.concat "&" (i' :: items)).
  by rewrite !str_app_assoc.
Qed.

Lemma ends_with_concat (c : ascii) (items : list string) (x : string) :
  last items = Some x -> x <> "" ->
  String.concat "&" items <> ""
  /\ ends_with c (String.concat "&" items) = ends_with c x.
Proof.
  induction items as [|i items IH]; [done|].
  destruct items as [|i' items].
  - intros [= ->] Hx. done.
  - intros Hl Hx. destruct (IH Hl Hx) as [Hne He].
    change (String.concat "&" (i :: i' :: items))
      with (i ++ "&" ++ String.concat "&" (i' :: items)).
    split; [by destruct i|].
    rewrite ends_with_app by done. by rewrite (ends_with_app c "&").
Qed.

Lemma ends_with_pair (params : pydict pval) (key : string) :
  ends_with "&" (match dict_get key params with
                 | Some v => pval_str v | None => "" end) = false ->
  pair_string params key <> "" /\ ends_with "&" (pair_string params key) = false.
Proof.
  unfold pair_string. generalize (match dict_get key params with
                                  | Some v => pval_str v | None => "" end).
  intros v Hv. split; [by destruct key|].
  rewrite ends_with_app by done.
  destruct v as [|x v]; [done|]. by rewrite (ends_with_app _ "=").
Qed.

(** Where the code and the description agree: on every mapping in which the
    value of the last key, in sorted order, does not end with an ampersand
    (an empty mapping included). *)
Lemma signature_string_matches_spec (method : string) (params : pydict pval)
    (secret : option string) :
  match last (sorted (dict_keys params)) with
  | Some key =>
      ends_with "&" (match dict_get key params with
                     | Some v => pval_str v | None => "" end) = false
  | None => True
  end ->
  signature_string method params secret
  = spec_signature_string method params secret.
Proof.
  unfold signature_string, spec_signature_string. cbv zeta.
  assert (Hfold : forall l acc,
    fold_left
      (fun acc key =>
         acc ++ key ++ "="
             ++ match dict_get key params with Some v => pval_str v | None => "" end
             ++ "&") l acc
    = fold_left (fun acc key => acc ++ pair_string params key ++ "&") l acc).
  { induction l as [|k l IH]; intros acc; [done|]. cbn [fold_left].
    rewrite IH. f_equal. unfold pair_string. by rewrite !str_app_assoc. }
  rewrite Hfold, (fold_pairs (pair_string params)). clear Hfold.
  change (map _ (sorted (dict_keys params)))
    with (map (pair_string params) (sorted (dict_keys params))) at 2.
  generalize (sorted (dict_keys params)). intros ks Hlast.
  destruct (last ks) as [key|] eqn:El.
  - assert (Hne : map (pair_string params) ks <> []).
    { intros Hnil. apply map_eq_nil in Hnil. by subst. }
    rewrite <- (map_map (pair_string params) (fun i => i ++ "&")).
    rewrite concat_pairs_snoc by done.
    destruct (ends_with_pair params key Hlast) as [Hp He].
    destruct (ends_with_concat "&" (map (pair_string params) ks)
                (pair_string params key)) as [Hc Hc'].
    { apply last_Some in El as [l' ->]. rewrite map_app. cbn [map].
      apply last_snoc. }
    { done. }
    rewrite <- (str_app_assoc (method ++ "?") (String.concat "&" _) "&").
    rewrite rstrip_snoc.
    + by rewrite !str_app_assoc.
    + rewrite ends_with_app by done. by rewrite Hc'.
  - apply last_None in El. subst ks.
    cbn [map String.concat]. rewrite str_app_nil_r, str_app_nil_l.
    rewrite rstrip_no_trailing; [by rewrite !str_app_assoc|].
    by rewrite ends_with_app.
Qed.

(** C4 (the code at the failing input). For the mapping whose only value
    is ["x&"], [sign_request] hashes ["m?a=x#s"]: [rstrip] has removed the
    ampersand that belongs to the value together with the separator.  The
    described string is ["m?a=x&#s"], and the two signatures differ. *)
Theorem sign_request_strips_value_ampersand :
  let params := [("a", PStr "x&")] in
  signature_string "m" params (Some "s") = "m?a=x#s"
  /\ spec_signature_string "m" params (Some "s") = "m?a=x&#s"
  /\ api_sig "m" params (Some "s")
     = "123456" ++ sha512_hexdigest "m?a=x#s"
  /\ api_sig "m" params (Some "s")
     <> "123456" ++ sha512_hexdigest (spec_signature_string "m" params (Some "s")).
Proof.
  cbv zeta. repeat split; try (vm_compute; reflexivity).
  vm_compute. discriminate.
Qed.

(** ** The schedule of [_retry_with_backoff] *)

Lemma before_attempt_env (max_retries base_delay attempt : Z) (w : world) :
  net (before_attempt max_retries base_delay attempt w) = net w
  /\ net_pos (before_attempt max_retries base_delay attempt w) = net_pos w
  /\ sleeps (log (before_attempt max_retries base_delay attempt w))
     = base_delay * 2 ^ attempt :: sleeps (log w)
  /\ now (before_attempt max_retries base_delay attempt w)
     = now w + base_delay * 2 ^ attempt * 1000000.
Proof. done. Qed.

(** A run of failing attempts, none of them the last one. *)
Lemma retry_loop_failing_prefix (req : request) (max_retries base_delay : Z)
    (e : nat -> exn) (k : nat) :
  forall (a : nat) (rest : list Z) (w : world),
    (forall i, (i < k)%nat -> net w (net_pos w + i) = NetRaises (e i)) ->
    Z.of_nat (a + k) <= max_retries - 1 ->
    exists w1,
      retry_loop (session_send req) max_retries base_delay
                 (map Z.of_nat (seq a k) ++ rest) w
      = retry_loop (session_send req) max_retries base_delay rest w1
      /\ net w1 = net w /\ net_pos w1 = (net_pos w + k)%nat
      /\ sleeps (log w1)
         = (rev (map (fun i => base_delay * 2 ^ Z.of_nat i) (seq a k))
              ++ sleeps (log w))%list
      /\ now w1 = now w + base_delay * (2 ^ Z.of_nat (a + k) - 2 ^ Z.of_nat a) * 1000000.
Proof.
  revert e. induction k as [|k IH]; intros e a rest w Hfail Hlast.
  { exists w. cbn [seq map rev app]. rewrite !Nat.add_0_r. repeat split; try done; lia. }
  cbn [seq map app]. rewrite retry_loop_attempt.
  destruct (before_attempt_env max_retries base_delay (Z.of_nat a) w)
    as (En & Ep & Es & Et).
  set (w2 := before_attempt max_retries base_delay (Z.of_nat a) w) in *.
  rewrite session_send_run, En, Ep.
  pose proof (Hfail 0%nat ltac:(lia)) as H0. rewrite Nat.add_0_r in H0. rewrite H0.
  replace (Z.eqb (Z.of_nat a) (max_retries - 1)) with false
    by (symmetry; apply Z.eqb_neq; lia).
  set (w3 := emit _ _).
  destruct (IH (fun i => e (S i)) (S a) rest w3) as (w1 & E & En1 & Ep1 & Es1 & Et1).
  { intros i Hi. subst w3. cbn [net net_pos emit set_net_pos]. rewrite ?En, ?Ep.
    replace (S (net_pos w) + i)%nat with (net_pos w + S i)%nat by lia.
    apply Hfail. lia. }
  { lia. }
  exists w1. split; [exact E|].
  subst w3. cbn [net net_pos emit set_net_pos log sleeps now] in *.
  rewrite En1, Ep1, Es1, Et1, ?En, ?Ep, ?Es, ?Et.
  repeat split; [lia| |].
  - cbn [rev]. by rewrite <- app_assoc.
  - replace (Z.of_nat (S a + k)) with (Z.of_nat a + Z.of_nat k + 1) by lia.
    replace (Z.of_nat (a + S k)) with (Z.of_nat a + Z.of_nat k + 1) by lia.
    replace (Z.of_nat (S a)) with (Z.of_nat a + 1) by lia.
    rewrite !Z.pow_add_r by lia. lia.
Qed.

Lemma range_of_nat (n : nat) : range (Z.of_nat n) = map Z.of_nat (seq 0 n).
Proof. unfold range. by rewrite Nat2Z.id. Qed.

Lemma seq_split_at (k n : nat) :
  (k < n)%nat -> seq 0 n = (seq 0 k ++ k :: seq (S k) (n - S k))%list.
Proof.
  intros H. replace n with (k + S (n - S k))%nat at 1 by lia.
  by rewrite seq_app.
Qed.

(** X1. [_retry_with_backoff] on a request, with any number of retries and
    any base delay from 0 up: when the first [k] attempts raise (whatever
    they raise) and attempt [k] is answered, the answer is returned after [k
    + 1] requests, the sleeps before them are the base delay times 1, 2, 4,
    ..., 2^k, and the clock has moved by the base delay times 2^(k+1) - 1. *)
Theorem retry_with_backoff_returns_first_answer (req : request) (n k : nat)
    (base_delay : Z) (e : nat -> exn) (r : response) (w : world) :
  0 <= base_delay ->
  (k < n)%nat ->
  (forall i, (i < k)%nat -> net w (net_pos w + i) = NetRaises (e i)) ->
  net w (net_pos w + k) = NetResponse r ->
  let res := _retry_with_backoff (session_send req) (Z.of_nat n) base_delay w in
  fst res = Return (Some r)
  /\ net_pos (snd res) = (net_pos w + S k)%nat
  /\ sleeps (log (snd res)) = (backoff_delays base_delay (S k) ++ sleeps (log w))%list
  /\ now (snd res) = now w + base_delay * (2 ^ Z.of_nat (S k) - 1) * 1000000.
Proof.
  intros _ Hk Hfail Hok. cbv zeta. unfold _retry_with_backoff.
  rewrite range_of_nat, (seq_split_at k n Hk), map_app. cbn [map].
  destruct (retry_loop_failing_prefix req (Z.of_nat n) base_delay e k 0
              (Z.of_nat k :: map Z.of_nat (seq (S k) (n - S k))) w Hfail)
    as (w1 & -> & En1 & Ep1 & Es1 & Et1); [lia|].
  rewrite retry_loop_attempt.
  destruct (before_attempt_env (Z.of_nat n) base_delay (Z.of_nat k) w1)
    as (En & Ep & Es & Et).
  rewrite session_send_run, En, Ep, En1, Ep1, Hok.
  cbn [fst snd net_pos log emit set_net_pos sleeps now].
  rewrite ?Ep, ?Es, ?Et, ?Ep1, ?Es1, ?Et1.
  repeat split; [lia| |].
  - unfold backoff_delays. rewrite seq_S, map_app, rev_app_distr. reflexivity.
  - rewrite Nat2Z.inj_succ, Z.pow_succ_r by lia. cbn [Nat.add]. change (2 ^ Z.of_nat 0) with 1. lia.
Qed.

(** X2. When all [n] attempts raise (n at least 1), [_retry_with_backoff]
    raises what the last attempt raised, after exactly [n] requests and
    sleeps of the base delay times 1, 2, ..., 2^(n-1); the last thing it
    prints is the "Max retries reached" line. With no retry allowed it
    returns [None] at once and calls nothing. *)
Theorem retry_with_backoff_gives_up (req : request) (n : nat)
    (base_delay : Z) (e : nat -> exn) (w : world) :
  0 <= base_delay ->
  (forall i, (i < S n)%nat -> net w (net_pos w + i) = NetRaises (e i)) ->
  (let res := _retry_with_backoff (session_send req) (Z.of_nat (S n)) base_delay w in
   fst res = Raise (e n)
   /\ net_pos (snd res) = (net_pos w + S n)%nat
   /\ sleeps (log (snd res)) = (backoff_delays base_delay (S n) ++ sleeps (log w))%list
   /\ (exists pre, log (snd res) = EvOut giving_up_line :: pre))
  /\ (forall m, m <= 0 ->
        _retry_with_backoff (session_send req) m base_delay w = (Return None, w)).
Proof.
  intros _ Hfail. split.
  - cbv zeta. unfold _retry_with_backoff.
    rewrite range_of_nat, seq_S, map_app. cbn [map Nat.add].
    destruct (retry_loop_failing_prefix req (Z.of_nat (S n)) base_delay e n 0
                [Z.of_nat n] w)
      as (w1 & -> & En1 & Ep1 & Es1 & Et1); [intros i Hi; apply Hfail; lia|lia|].
    rewrite retry_loop_attempt.
    destruct (before_attempt_env (Z.of_nat (S n)) base_delay (Z.of_nat n) w1)
      as (En & Ep & Es & Et).
    rewrite session_send_run, En, Ep, En1, Ep1, (Hfail n) by lia.
    replace (Z.eqb (Z.of_nat n) (Z.of_nat (S n) - 1)) with true
      by (symmetry; apply Z.eqb_eq; lia).
    cbn [fst snd net_pos log emit set_net_pos sleeps].
    rewrite ?Ep, ?Es, ?Ep1, ?Es1.
    repeat split; [lia| |by eexists].
    unfold backoff_delays. rewrite (seq_S n), map_app, rev_app_distr. reflexivity.
  - intros m Hm. unfold _retry_with_backoff, range.
    replace (Z.to_nat m) with 0%nat by lia. reflexivity.
Qed.

(** ** Looking a cache file up *)

(** X3. [_get_from_cache] only reads: whatever the key and whatever it
    returns, the cache directory is left as it was, so that a file that has
    expired is not removed and stays a miss afterwards.  Its lifetime is
    inclusive: an entry that [_save_to_cache] wrote is still returned when
    its age is exactly 300 seconds. *)
Theorem cache_lookup_reads_only (key : string) (data : json) (w w1 : world) :
  disk_ok w key = true ->
  _save_to_cache key data w = (Return tt, w1) ->
  (forall k w2, cache (snd (_get_from_cache k w2)) = cache w2)
  /\ (forall w2, cache w2 !! key = cache w1 !! key ->
        now w2 - now w = 300 * 1000000 ->
        fst (_get_from_cache key w2) = Return (Some data))
  /\ (forall w2, cache w2 !! key = cache w1 !! key ->
        now w2 - now w > 300 * 1000000 ->
        let w3 := snd (_get_from_cache key w2) in
        cache w3 !! key = Some (CacheFile (now w) (Some data))
        /\ (now w3 = now w2 /\ fst (_get_from_cache key w3) = Return None)).
Proof.
  intros Hd Hs. rewrite (save_to_cache_written _ _ _ Hd) in Hs.
  injection Hs as <-. split; [done|]. split.
  - intros w2 Hc Hage. rewrite get_from_cache_run. cbn [fst].
    unfold cache_read. rewrite Hc. cbn [cache emit set_cache].
    rewrite lookup_insert_eq. cbn [mtime content]. by rewrite Hage.
  - intros w2 Hc Hage. cbv zeta. rewrite !get_from_cache_run.
    cbn [fst snd cache now emit]. rewrite Hc. cbn [cache emit set_cache].
    rewrite lookup_insert_eq. split; [done|]. split; [done|].
    unfold cache_read. cbn [cache now emit]. rewrite Hc.
    cbn [cache emit set_cache]. rewrite lookup_insert_eq. cbn [mtime content].
    unfold CACHE_TTL.
    by destruct (Z.gtb_spec (now w2 - now w) (300 * 1000000)); [|lia].
Qed.

(** ** What [sign_request] does to the dict *)

Lemma dict_keys_set {V} (k : string) (v : V) (d : pydict V) :
  dict_keys (dict_set k v d)
  = if dict_has k d then dict_keys d else (dict_keys d ++ [k])%list.
Proof.
  unfold dict_has, dict_keys.
  induction d as [|[k' v'] d IH]; cbn [dict_set dict_get map app]; [done|].
  destruct (String.eqb k k'); [done|]. cbn [map fst]. rewrite IH.
  by destruct (dict_get k d).
Qed.

(** X4. [sign_request] returns the dict it was given, changed in one entry
    only: [apiSig] holds "123456" followed by 128 lowercase hexadecimal
    digits, every other key keeps its value, the keys keep their order (a
    new [apiSig] goes last), and nothing else in the process state moves. *)
Theorem sign_request_effect (method : string) (p : nat) (w : world) :
  let res := sign_request method p w in
  let d := heap w !!! p in
  let d' := heap (snd res) !!! p in
  fst res = Return p
  /\ (exists digest,
        dict_get "apiSig" d' = Some (PStr ("123456" ++ digest))
        /\ String.length digest = 128%nat
        /\ forallb lower_hex (list_ascii_of_string digest) = true)
  /\ (forall k, k <> "apiSig" -> dict_get k d' = dict_get k d)
  /\ dict_keys d'
     = (if dict_has "apiSig" d then dict_keys d else (dict_keys d ++ ["apiSig"])%list)
  /\ (forall q, q <> p -> heap (snd res) !! q = heap w !! q)
  /\ log (snd res) = log w /\ sess (snd res) = sess w.
Proof.
  cbv zeta. rewrite sign_request_run. cbn [fst snd heap set_heap log sess].
  rewrite lookup_total_insert_eq. split; [done|]. split; [|split; [|split]].
  - eexists. rewrite dict_get_set_eq. split; [reflexivity|].
    apply sha512_hexdigest_shape.
  - intros k Hk. by rewrite dict_get_set_ne.
  - apply dict_keys_set.
  - split; [|done]. intros q Hq. by rewrite lookup_insert_ne.
Qed.

(** ** Answers of the API that are not OK *)

Lemma raise_for_status_ok (r : response) (w : world) :
  status_code r < 400 \/ 600 <= status_code r ->
  raise_for_status r w = (Return tt, w).
Proof.
  intros H. unfold raise_for_status.
  replace (Z.leb 400 (status_code r) && Z.ltb (status_code r) 500) with false
    by (symmetry; apply andb_false_iff; rewrite Z.leb_gt, Z.ltb_ge; lia).
  replace (Z.leb 500 (status_code r) && Z.ltb (status_code r) 600) with false
    by (symmetry; apply andb_false_iff; rewrite Z.leb_gt, Z.ltb_ge; lia).
  reflexivity.
Qed.

Lemma api_request_api_error (url : string) (p : nat) (key : string)
    (r : response) (d : pydict json) (w : world) :
  net w (net_pos w) = NetResponse r ->
  status_code r < 400 \/ 600 <= status_code r ->
  json_body r = inr (JDict d) ->
  dict_get "status" d <> Some (JStr "OK") ->
  api_request url p key w
  = (Raise (PyException
              ("API Error: "
               ++ render w (default (JStr "Unknown error") (dict_get "comment" d)))),
     sent (Request GET url (heap w !!! p)) w).
Proof.
  intros Hn Hs Hb Hst. unfold api_request, read_dict. rewrite bind_ret_l'.
  erewrite bind_return by (rewrite session_send_run, Hn; reflexivity).
  erewrite bind_return by (apply raise_for_status_ok, Hs).
  erewrite bind_return by (unfold response_json; rewrite Hb; reflexivity).
  erewrite bind_return by reflexivity.
  assert (json_is_str (match dict_get "status" d with Some v => v | None => JNull end) "OK"
          = false) as ->.
  { destruct (dict_get "status" d) as [[| | |s| |]|]; try reflexivity.
    simpl. apply String.eqb_neq. intros ->. by apply Hst. }
  erewrite bind_return by reflexivity.
  erewrite bind_return by reflexivity.
  unfold sent. rewrite Hn. reflexivity.
Qed.

(** The whole state after [authenticate_params]: when the session signs,
    six random characters are consumed and the dict at [p] is replaced. *)
Lemma authenticate_params_run (method : string) (p : nat) (w : world) :
  exists rand,
    authenticate_params method p w
    = (Return tt,
       if signs (sess w) method then
         let d := dict_update (heap w !!! p)
                    [ ("apiKey", opt_pval (api_key (sess w)));
                      ("time", PStr (str_of_Z (Z.quot (now w) 1000000)));
                      ("rand", PStr rand) ] in
         set_heap (<[p := dict_set "apiSig"
                            (PStr (api_sig method d (api_secret (sess w)))) d]>
                     (heap w))
                  (set_rng_pos (6 + rng_pos w) w)
       else w).
Proof.
  unfold authenticate_params, bind, get_session. fold (signs (sess w) method).
  destruct (signs (sess w) method) eqn:Es; [|by exists ""].
  unfold signs in Es. apply andb_true_iff in Es as [Ha _].
  rewrite api_auth_params_run, Ha.
  destruct (random_string_spec 6 w) as (r & -> & _ & _).
  exists r. cbn. rewrite lookup_total_insert_eq. by rewrite insert_insert_eq.
Qed.

Lemma authenticate_params_frame (method : string) (p : nat) (w : world) :
  let w' := snd (authenticate_params method p w) in
  log w' = log w /\ cache w' = cache w /\ net w' = net w
  /\ net_pos w' = net_pos w /\ now w' = now w /\ sess w' = sess w
  /\ disk_ok w' = disk_ok w /\ py_hash w' = py_hash w /\ py_repr w' = py_repr w
  /\ (forall q, q <> p -> heap w' !! q = heap w !! q).
Proof.
  destruct (authenticate_params_run method p w) as (rand & ->). cbn [snd].
  destruct (signs (sess w) method); cbn; repeat split; try done.
  intros q Hq. by rewrite lookup_insert_ne.
Qed.

(** X5. An answer of the API whose status is not OK is not retried and not
    cached: [call_api] prints the error and raises it after that one
    request, without sleeping. *)
Theorem call_api_api_error_not_retried (fuel : nat) (method : string) (p : nat)
    (r : response) (d : pydict json) (w : world) :
  truthy_opt (cache_read (cache_key_of w method (heap w !!! p)) w) = false ->
  net w (net_pos w) = NetResponse r ->
  status_code r < 400 \/ 600 <= status_code r ->
  json_body r = inr (JDict d) ->
  dict_get "status" d <> Some (JStr "OK") ->
  let res := call_api (S fuel) method (Some p) w in
  let msg := "API Error: "
             ++ render w (default (JStr "Unknown error") (dict_get "comment" d)) in
  fst res = Raise (PyException msg)
  /\ net_pos (snd res) = S (net_pos w)
  /\ sleeps (log (snd res)) = sleeps (log w)
  /\ cache (snd res) = cache w
  /\ exists pre,
       log (snd res) = EvOut (line (Fore_RED ++ "Error: " ++ msg ++ Style_RESET_ALL))
                         :: EvNet (Request GET (urljoin CF_API_BASE method)
                                     (heap (snd res) !!! p)) (NetResponse r)
                         :: pre.
Proof.
  intros Hmiss Hn Hs Hb Hst. cbv zeta. rewrite call_api_unfold. cbv zeta.
  rewrite Hmiss. set (key := cache_key_of w method (heap w !!! p)).
  set (w1 := emit _ w).
  destruct (authenticate_params_frame method p w1)
    as (El & Ec & En & Ep & _ & _ & _ & _ & Er & _).
  cbv zeta in *.
  set (w2 := snd (authenticate_params method p w1)) in *.
  unfold try_catch.
  rewrite (api_request_api_error _ _ _ r d) by (by rewrite ?En, ?Ep).
  unfold call_api_except. cbn [is_request_exception exn_str].
  erewrite bind_return by apply print_run.
  unfold raise, sent, render. rewrite Er, En, Ep.
  cbn [fst snd net_pos log emit set_net_pos sleeps cache heap py_repr].
  rewrite El, Ec. unfold line. subst w1.
  cbn [net net_pos log emit sleeps cache py_repr]. rewrite Hn.
  repeat split. by eexists.
Qed.

(** ** A call answered by the cache *)

Lemma ok_response_inv (res : net_result) (data : json) :
  ok_response res = Some data ->
  exists r d,
    res = NetResponse r /\ (status_code r < 400 \/ 600 <= status_code r)
    /\ json_body r = inr data /\ data = JDict d
    /\ dict_get "status" d = Some (JStr "OK").
Proof.
  destruct res as [e|r]; simpl; [done|].
  destruct (Z.leb 400 (status_code r) && Z.ltb (status_code r) 500) eqn:E4; [done|].
  destruct (Z.leb 500 (status_code r) && Z.ltb (status_code r) 600) eqn:E5; [done|].
  destruct (json_body r) as [|[| | | | |d]] eqn:Eb; try done.
  destruct (dict_get "status" d) as [[| | |s| |]|] eqn:Es; try done.
  destruct (String.eqb_spec s "OK") as [->|]; [|done].
  intros [= <-]. exists r, d. repeat split; try done.
  apply andb_false_iff in E4, E5. rewrite Z.leb_gt, Z.ltb_ge in E4, E5. lia.
Qed.

Lemma api_request_ok_run (url : string) (p : nat) (key : string) (data : json)
    (w : world) :
  ok_response (net w (net_pos w)) = Some data ->
  disk_ok w key = true ->
  api_request url p key w
  = (Return (Some data),
     emit (EvCacheSave key data true)
          (set_cache (<[key := CacheFile (now w) (Some data)]> (cache w))
                     (sent (Request GET url (heap w !!! p)) w))).
Proof.
  intros Hok Hd.
  destruct (ok_response_inv _ _ Hok) as (r & d & Hn & Hs & Hb & -> & Hst).
  unfold api_request, read_dict. rewrite bind_ret_l'.
  erewrite bind_return by (rewrite session_send_run, Hn; reflexivity).
  erewrite bind_return by (apply raise_for_status_ok, Hs).
  erewrite bind_return by (unfold response_json; rewrite Hb; reflexivity).
  erewrite bind_return by reflexivity.
  rewrite Hst. cbn [json_is_str]. change (String.eqb "OK" "OK") with true. cbv iota.
  erewrite bind_return by (apply save_to_cache_written; exact Hd).
  unfold sent. rewrite Hn. reflexivity.
Qed.

Lemma call_api_cache_hit (fuel : nat) (method : string) (p : nat) (w : world) :
  truthy_opt (cache_read (cache_key_of w method (heap w !!! p)) w) = true ->
  call_api (S fuel) method (Some p) w
  = (Return (cache_read (cache_key_of w method (heap w !!! p)) w),
     emit (EvCacheGet (cache_key_of w method (heap w !!! p))
             (cache_read (cache_key_of w method (heap w !!! p)) w)) w).
Proof. intros H. rewrite call_api_unfold. cbv zeta. by rewrite H. Qed.

(** The state after a call that went to the network and was answered OK. *)
Lemma call_api_ok_run (fuel : nat) (method : string) (p : nat) (data : json)
    (w : world) :
  let key := cache_key_of w method (heap w !!! p) in
  truthy_opt (cache_read key w) = false ->
  ok_response (net w (net_pos w)) = Some data ->
  disk_ok w key = true ->
  fst (call_api (S fuel) method (Some p) w) = Return (Some data)
  /\ cache (snd (call_api (S fuel) method (Some p) w))
     = <[key := CacheFile (now w) (Some data)]> (cache w)
  /\ net_pos (snd (call_api (S fuel) method (Some p) w)) = S (net_pos w)
  /\ now (snd (call_api (S fuel) method (Some p) w)) = now w
  /\ py_hash (snd (call_api (S fuel) method (Some p) w)) = py_hash w
  /\ sess (snd (call_api (S fuel) method (Some p) w)) = sess w
  /\ (forall q, q <> p ->
        heap (snd (call_api (S fuel) method (Some p) w)) !! q = heap w !! q).
Proof.
  cbv zeta. intros Hmiss Hok Hd. rewrite call_api_unfold. cbv zeta. rewrite Hmiss.
  set (key := cache_key_of w method (heap w !!! p)) in *.
  set (w1 := emit _ w).
  destruct (authenticate_params_frame method p w1)
    as (El & Ec & En & Ep & Et & Ese & Ed & Eh & Er & Hq).
  cbv zeta in *.
  set (w2 := snd (authenticate_params method p w1)) in *.
  unfold try_catch.
  rewrite (api_request_ok_run _ _ _ data) by (by rewrite ?En, ?Ep, ?Ed).
  cbn [fst snd cache net_pos now py_hash sess heap emit set_cache sent set_net_pos].
  rewrite Ec, Ep, Et, Eh, Ese. repeat split. exact Hq.
Qed.

(** X6. A call that was answered OK by the network is answered by the cache
    afterwards, in a state where the cache file it wrote is still as it was
    written and is at most 300 seconds old: a call of the same method whose
    parameters hash to the same number (as the same items do when the same
    interpreter process hashes them) returns the same document without any
    request and leaves every dict alone, whatever the session then is. *)
Theorem call_api_answer_is_reused (fuel fuel2 : nat) (method : string) (p : nat)
    (data : json) (w : world) :
  let key := cache_key_of w method (heap w !!! p) in
  let w1 := snd (call_api (S fuel) method (Some p) w) in
  truthy_opt (cache_read key w) = false ->
  ok_response (net w (net_pos w)) = Some data ->
  disk_ok w key = true ->
  fst (call_api (S fuel) method (Some p) w) = Return (Some data)
  /\ forall (w2 : world) (q : nat),
       cache w2 !! key = cache w1 !! key ->
       py_hash w2 (heap w2 !!! q) = py_hash w (heap w !!! p) ->
       now w2 - now w <= 300 * 1000000 ->
       fst (call_api (S fuel2) method (Some q) w2) = Return (Some data)
       /\ net_pos (snd (call_api (S fuel2) method (Some q) w2)) = net_pos w2
       /\ heap (snd (call_api (S fuel2) method (Some q) w2)) = heap w2.
Proof.
  cbv zeta. intros Hmiss Hok Hd.
  destruct (call_api_ok_run fuel method p data w Hmiss Hok Hd)
    as (Hr & Hc & _).
  split; [exact Hr|]. intros w2 q Ec2 Eh2 Hage.
  assert (Hkey : cache_key_of w2 method (heap w2 !!! q)
                 = cache_key_of w method (heap w !!! p)).
  { unfold cache_key_of. by rewrite Eh2. }
  assert (Hread : cache_read (cache_key_of w2 method (heap w2 !!! q)) w2 = Some data).
  { rewrite Hkey. unfold cache_read. rewrite Ec2, Hc.
    rewrite lookup_insert_eq. cbn [mtime content]. unfold CACHE_TTL.
    destruct (Z.gtb_spec (now w2 - now w) (300 * 1000000)); [lia|done]. }
  assert (Ht : truthy data = true).
  { destruct (ok_response_inv _ _ Hok) as (r & d & _ & _ & _ & -> & Hst).
    destruct d; [done|reflexivity]. }
  rewrite call_api_cache_hit by (rewrite Hread; exact Ht).
  rewrite Hread. done.
Qed.

(** ** The web login *)

Lemma raise_for_status_run (r : response) (w : world) :
  raise_for_status r w
  = (match http_error r with
     | Some m => Raise (RequestException m)
     | None => Return tt
     end, w).
Proof.
  unfold raise_for_status, http_error.
  destruct (Z.leb 400 (status_code r) && Z.ltb (status_code r) 500); [done|].
  by destruct (Z.leb 500 (status_code r) && Z.ltb (status_code r) 600).
Qed.

Lemma web_login_except_run (e : exn) (w : world) :
  web_login_except e w
  = if is_request_exception e then
      (Return false,
       emit (EvOut (line (Fore_RED ++ "Network error during login: " ++ exn_str e
                          ++ Style_RESET_ALL))) w)
    else (Raise e, w).
Proof. unfold web_login_except. by destruct (is_request_exception e). Qed.

(** [web_login], by cases on the handle and on the two answers. *)
Lemma web_login_run (w : world) :
  web_login w
  = if truthy_str (handle (sess w)) then
      let w1 := sent (Request GET CF_BASE_URL []) w in
      match net w (net_pos w) with
      | NetRaises e => web_login_except e w1
      | NetResponse r0 =>
          match http_error r0 with
          | Some m => web_login_except (RequestException m) w1
          | None =>
              match csrf_search (text r0) with
              | None => (Return false, emit (EvOut could_not_extract_line) w1)
              | Some tok =>
                  let w2 := set_sess (with_csrf_token tok (sess w)) w1 in
                  let w3 := sent (Request POST login_url (login_form (sess w) tok)) w2 in
                  match net w (S (net_pos w)) with
                  | NetRaises e => web_login_except e w3
                  | NetResponse r1 =>
                      if contains invalid_login_phrase (text r1)
                      then (Return false, emit (EvOut login_failed_line) w3)
                      else (Return true,
                            set_sess (with_logged_in true (sess w2)) w3)
                  end
              end
          end
      end
    else (Return false, emit (EvOut handle_not_set_line) w).
Proof.
  unfold web_login. rewrite (bind_return _ _ _ _ _ (get_session_run w)).
  destruct (truthy_str (handle (sess w))); cbn [negb]; cbv iota; [|reflexivity].
  cbv zeta. unfold try_catch at 1.
  unfold bind at 1. rewrite session_send_run. unfold sent.
  cbn [net net_pos emit set_net_pos set_sess].
  destruct (net w (net_pos w)) as [e|r0]; [reflexivity|].
  unfold bind at 1. rewrite raise_for_status_run.
  destruct (http_error r0) as [m|]; [reflexivity|].
  destruct (csrf_search (text r0)) as [tok|]; [|reflexivity].
  unfold bind at 1, modify at 1.
  rewrite (bind_return _ _ _ _ _ (get_session_run _)).
  unfold bind at 1. rewrite session_send_run.
  unfold login_form, login_url.
  cbn [net net_pos emit set_net_pos set_sess sess handle csrf_token with_csrf_token opt_pval].
  destruct (net w (S (net_pos w))) as [e|r1]; [reflexivity|].
  destruct (contains invalid_login_phrase (text r1)); reflexivity.
Qed.

Lemma csrf_search_nonempty (s tok : string) :
  csrf_search s = Some tok -> tok <> "".
Proof.
  induction s as [|c s IH]; cbn [csrf_search]; unfold csrf_match_here.
  - destruct (String.prefix csrf_prefix ""); [|done].
    destruct (take_until_quote _) as [[|? ?] [|? ?]]; try done. by intros [= <-].
  - destruct (String.prefix csrf_prefix (String c s)).
    + destruct (take_until_quote _) as [[|? ?] [|? ?]]; try done. by intros [= <-].
    + exact IH.
Qed.

(** What a successful login leaves behind. *)
Lemma web_login_success (w : world) :
  fst (web_login w) = Return true ->
  logged_in (sess (snd (web_login w))) = true
  /\ net_pos (snd (web_login w)) = (net_pos w + 2)%nat
  /\ exists tok, csrf_token (sess (snd (web_login w))) = Some tok /\ tok <> "".
Proof.
  rewrite web_login_run.
  destruct (truthy_str (handle (sess w))); [|done]. cbv zeta.
  assert (Hex : forall e w1, fst (web_login_except e w1) <> Return true).
  { intros e w1. rewrite web_login_except_run.
    by destruct (is_request_exception e). }
  destruct (net w (net_pos w)) as [e|r0]; [by intros H; apply Hex in H|].
  destruct (http_error r0) as [m|]; [by intros H; apply Hex in H|].
  destruct (csrf_search (text r0)) as [tok|] eqn:Ecs; [|done].
  pose proof (csrf_search_nonempty _ _ Ecs) as Hne.
  destruct (net w (S (net_pos w))) as [e|r1]; [by intros H; apply Hex in H|].
  destruct (contains invalid_login_phrase (text r1)); [done|].
  intros _. unfold sent.
  cbn [fst snd sess logged_in csrf_token net_pos emit set_sess set_net_pos
       with_logged_in with_csrf_token].
  split; [done|]. split; [lia|]. by exists tok.
Qed.

(** X7. Whatever the site answers, [web_login] sends at most two requests
    and never sleeps: the GET of the home page and, when a token was found
    on that page, one POST to the login address whose form has exactly three
    fields, the handle, the action and that token. No password, API key or
    API secret is part of any request. *)
Theorem web_login_requests (w : world) :
  exists evs,
    log (snd (web_login w)) = (evs ++ log w)%list
    /\ sleeps evs = []
    /\ (requests evs = []
        \/ requests evs = [Request GET CF_BASE_URL []]
        \/ exists r0 tok,
             net w (net_pos w) = NetResponse r0
             /\ csrf_search (text r0) = Some tok /\ tok <> ""
             /\ requests evs = [ Request POST login_url (login_form (sess w) tok);
                                 Request GET CF_BASE_URL [] ]).
Proof.
  rewrite web_login_run.
  destruct (truthy_str (handle (sess w))).
  2: { eexists [_]. split; [reflexivity|]. split; [reflexivity|]. by left. }
  cbv zeta. unfold sent. cbn [net net_pos emit set_net_pos set_sess].
  destruct (net w (net_pos w)) as [e|r0] eqn:En.
  { rewrite web_login_except_run.
    destruct (is_request_exception e);
      [eexists [_; _]|eexists [_]]; (split; [reflexivity|]);
      (split; [reflexivity|]); right; by left. }
  destruct (http_error r0) as [m|].
  { rewrite web_login_except_run. cbn [is_request_exception].
    eexists [_; _]. split; [reflexivity|]. split; [reflexivity|]. right. by left. }
  destruct (csrf_search (text r0)) as [tok|] eqn:Ecs.
  2: { eexists [_; _]. split; [reflexivity|]. split; [reflexivity|]. right. by left. }
  pose proof (csrf_search_nonempty _ _ Ecs) as Htok.
  assert (Hgoal : forall l : list event,
            requests l = [ Request POST login_url (login_form (sess w) tok);
                           Request GET CF_BASE_URL [] ] ->
            requests l = []
            \/ requests l = [Request GET CF_BASE_URL []]
            \/ exists r1 tok1,
                 NetResponse r0 = NetResponse r1
                 /\ csrf_search (text r1) = Some tok1 /\ tok1 <> ""
                 /\ requests l = [ Request POST login_url (login_form (sess w) tok1);
                                   Request GET CF_BASE_URL [] ]).
  { intros l Hl. right. right. exists r0, tok. done. }
  destruct (net w (S (net_pos w))) as [e|r1].
  { rewrite web_login_except_run.
    destruct (is_request_exception e);
      [eexists [_; _; _]|eexists [_; _]]; (split; [reflexivity|]);
      (split; [reflexivity|]); by apply Hgoal. }
  destruct (contains invalid_login_phrase (text r1)).
  - eexists [_; _; _]. split; [reflexivity|]. split; [reflexivity|]. by apply Hgoal.
  - eexists [_; _]. split; [reflexivity|]. split; [reflexivity|]. by apply Hgoal.
Qed.

(** X8. [web_login] always comes back. It raises only what is not a
    [requests.RequestException]; it returns [True] only after two requests,
    with [logged_in] set and a non-empty CSRF token stored; in every other
    case [logged_in] is left as it was; with no handle (unset or empty) it
    returns [False] without any request; the handle, the API key and the API
    secret are never changed. *)
Theorem web_login_outcome (w : world) :
  let res := web_login w in
  fst res <> Diverge
  /\ (forall e, fst res = Raise e -> is_request_exception e = false)
  /\ (fst res = Return true ->
        logged_in (sess (snd res)) = true
        /\ net_pos (snd res) = (net_pos w + 2)%nat
        /\ exists tok, csrf_token (sess (snd res)) = Some tok /\ tok <> "")
  /\ (fst res <> Return true -> logged_in (sess (snd res)) = logged_in (sess w))
  /\ (truthy_str (handle (sess w)) = false ->
        fst res = Return false /\ net_pos (snd res) = net_pos w)
  /\ handle (sess (snd res)) = handle (sess w)
  /\ api_key (sess (snd res)) = api_key (sess w)
  /\ api_secret (sess (snd res)) = api_secret (sess w).
Proof.
  cbv zeta. rewrite web_login_run.
  destruct (truthy_str (handle (sess w))); [|by repeat split].
  cbv zeta. unfold sent. cbn [net net_pos emit set_net_pos set_sess].
  assert (Hex : forall e w1,
            logged_in (sess w1) = logged_in (sess w) ->
            handle (sess w1) = handle (sess w) ->
            api_key (sess w1) = api_key (sess w) ->
            api_secret (sess w1) = api_secret (sess w) ->
            let res := web_login_except e w1 in
            fst res <> Diverge
            /\ (forall e', fst res = Raise e' -> is_request_exception e' = false)
            /\ (fst res = Return true ->
                  logged_in (sess (snd res)) = true
                  /\ net_pos (snd res) = (net_pos w + 2)%nat
                  /\ exists tok, csrf_token (sess (snd res)) = Some tok /\ tok <> "")
            /\ (fst res <> Return true ->
                  logged_in (sess (snd res)) = logged_in (sess w))
            /\ (true = false ->
                  fst res = Return false /\ net_pos (snd res) = net_pos w)
            /\ handle (sess (snd res)) = handle (sess w)
            /\ api_key (sess (snd res)) = api_key (sess w)
            /\ api_secret (sess (snd res)) = api_secret (sess w)).
  { intros e w1 Hl Hh Hk Hx. cbv zeta. rewrite web_login_except_run.
    destruct (is_request_exception e) eqn:Ee; cbn [fst snd sess emit].
    - repeat split; try done.
    - repeat split; try done. by intros e' [= <-]. }
  destruct (net w (net_pos w)) as [e|r0]; [by apply Hex|].
  destruct (http_error r0) as [m|]; [by apply Hex|].
  destruct (csrf_search (text r0)) as [tok|] eqn:Ecs; [|by repeat split].
  pose proof (csrf_search_nonempty _ _ Ecs) as Htok.
  destruct (net w (S (net_pos w))) as [e|r1]; [by apply Hex|].
  destruct (contains invalid_login_phrase (text r1)); [by repeat split|].
  cbn [fst snd sess logged_in csrf_token handle api_key api_secret net_pos emit
       set_sess set_net_pos with_logged_in with_csrf_token].
  repeat split; try done; [lia|by exists tok].
Qed.

(** X9. Once the home page gave a token, the outcome of [web_login] depends
    on the text of the answer to the POST alone, not on its status code:
    without the "Invalid handle/email or password" phrase the login counts
    as done, even when the answer is an error page; with the phrase it
    fails, and the session keeps the token just fetched. *)
Theorem web_login_post_answer (w : world) (r0 r1 : response) (tok : string) :
  truthy_str (handle (sess w)) = true ->
  net w (net_pos w) = NetResponse r0 ->
  http_error r0 = None ->
  csrf_search (text r0) = Some tok ->
  net w (S (net_pos w)) = NetResponse r1 ->
  let res := web_login w in
  fst res = Return (negb (contains invalid_login_phrase (text r1)))
  /\ logged_in (sess (snd res))
     = negb (contains invalid_login_phrase (text r1)) || logged_in (sess w)
  /\ csrf_token (sess (snd res)) = Some tok.
Proof.
  intros Hh Hn0 Hs0 Hc Hn1. cbv zeta. rewrite web_login_run, Hh, Hn0, Hs0, Hc, Hn1.
  cbv zeta. destruct (contains invalid_login_phrase (text r1)); by repeat split.
Qed.

(** ** The command login *)

(** [login], by cases on what [call_api] does. *)
Lemma login_run (fuel : nat) (h key secret : string) (w : world) :
  login fuel h key secret w
  = match call_api fuel "user.info" (Some (login_params w))
            (login_start h key secret w) with
    | (Return response, w') =>
        match response with
        | Some (JDict d) =>
            (Return (response_ok response),
             emit (EvOut (if response_ok response then login_success_line h
                          else login_failure_line)) w')
        | Some r =>
            if truthy r then
              (Return false,
               emit (EvOut (login_error_line
                              (AttributeError ("'" ++ type_name r
                                               ++ "' object has no attribute 'get'")))) w')
            else (Return false, emit (EvOut login_failure_line) w')
        | None => (Return false, emit (EvOut login_failure_line) w')
        end
    | (Raise e, w') => (Return false, emit (EvOut (login_error_line e)) w')
    | (Diverge, w') => (Diverge, w')
    end.
Proof.
  unfold login. unfold bind at 1, modify at 1.
  unfold try_catch. unfold bind at 1, alloc_dict at 1.
  cbn [heap set_sess]. fold (login_params w). fold (login_start h key secret w).
  unfold bind at 1.
  destruct (call_api fuel "user.info" _ _) as [[response|e|] w']; try reflexivity.
  destruct response as [r|]; [|reflexivity].
  destruct r as [|b|n|s|l|d]; cbn [truthy]; try reflexivity.
  - destruct b; reflexivity.
  - destruct (negb (Z.eqb n 0)); reflexivity.
  - destruct (negb (String.eqb s "")); reflexivity.
  - destruct l; reflexivity.
  - destruct d as [|kv d]; [reflexivity|].
    cbn [response_ok]. unfold bind at 1. cbn [json_get]. unfold ret at 1.
    unfold bind at 1, ret at 1. unfold default.
    destruct (json_is_str _ "OK"); reflexivity.
Qed.

Lemma call_api_keeps_session (fuel : nat) (method : string) (p : nat) (w : world) :
  sess (snd (call_api fuel method (Some p) w)) = sess w.
Proof.
  apply (call_api_preserves (fun w' => sess w' = sess w)); try done.
  intros w1 Hw1.
  destruct (authenticate_params_frame method p w1) as (_ & _ & _ & _ & _ & Es & _).
  cbv zeta in Es.
  change (sess (snd (authenticate_params method p w1)) = sess w).
  by rewrite Es.
Qed.

(** X10. [login] never raises, and its result is decided by what
    [call_api] does on "user.info": an exception of [call_api], whatever it
    is, is caught, printed in the line "Error during authentication: ..."
    and gives [False]; a call that returns gives [True] exactly when it
    returned a document whose status is "OK", with the welcome line printed
    last, and the line "Authentication failed. ..." is printed when it
    returned [None].  The credentials that [login] was given are stored in
    the session before the check and stay there whatever the outcome, so
    that after a failed login with three non-empty values the session still
    counts as authenticated. *)
Theorem login_outcome (fuel : nat) (h key secret : string) (w : world) :
  let call := call_api fuel "user.info" (Some (login_params w))
                (login_start h key secret w) in
  let res := login fuel h key secret w in
  (forall e, fst res <> Raise e)
  /\ (forall e, fst call = Raise e ->
        res = (Return false, emit (EvOut (login_error_line e)) (snd call)))
  /\ (forall response, fst call = Return response ->
        fst res = Return (response_ok response)
        /\ exists l, snd res = emit (EvOut l) (snd call)
             /\ (response_ok response = true -> l = login_success_line h)
             /\ (response = None -> l = login_failure_line))
  /\ handle (sess (snd res)) = Some h
  /\ api_key (sess (snd res)) = Some key
  /\ api_secret (sess (snd res)) = Some secret
  /\ (h <> "" -> key <> "" -> secret <> "" ->
      is_authenticated (sess (snd res)) = true).
Proof.
  cbv zeta. rewrite login_run.
  pose proof (call_api_keeps_session fuel "user.info" (login_params w)
                (login_start h key secret w)) as Hs.
  assert (Hsess : forall (o : outcome bool) (w' : world),
            sess w' = sess (login_start h key secret w) ->
            handle (sess (snd (o, w'))) = Some h
            /\ api_key (sess (snd (o, w'))) = Some key
            /\ api_secret (sess (snd (o, w'))) = Some secret
            /\ (h <> "" -> key <> "" -> secret <> "" ->
                is_authenticated (sess (snd (o, w'))) = true)).
  { intros o w' Hw'. cbn [fst snd]. rewrite Hw'. cbn. repeat split; try done.
    intros Hh Hk Hx. unfold is_authenticated. cbn.
    apply String.eqb_neq in Hh, Hk, Hx. by rewrite Hh, Hk, Hx. }
  destruct (call_api fuel "user.info" _ _) as [[response|e|] w']; cbn [fst snd] in *.
  - assert (Hres : forall (b : bool) (l : string),
              b = response_ok response ->
              (response_ok response = true -> l = login_success_line h) ->
              (response = None -> l = login_failure_line) ->
              (forall e, fst (Return b, emit (EvOut l) w') <> Raise e)
              /\ (forall e, Return response = Raise e ->
                    (Return b, emit (EvOut l) w')
                    = (Return false, emit (EvOut (login_error_line e)) w'))
              /\ (forall response0, Return response = Return response0 ->
                    fst (Return b, emit (EvOut l) w') = Return (response_ok response0)
                    /\ exists l0, snd (Return b, emit (EvOut l) w') = emit (EvOut l0) w'
                         /\ (response_ok response0 = true -> l0 = login_success_line h)
                         /\ (response0 = None -> l0 = login_failure_line))).
    { intros b l -> Hl1 Hl2. split; [done|]. split; [done|].
      intros response0 [= <-]. split; [done|]. by exists l. }
    destruct response as [[|b|n|s|l|d]|]; cbn [truthy];
      repeat match goal with |- context [if ?c then _ else _] => destruct c eqn:? end;
      match goal with
      | |- context [fst (Return ?b, emit (EvOut ?l) w')] =>
          destruct (Hres b l) as (H1 & H2 & H3);
          [first [done | congruence]
          |first [done | congruence | intros; cbn in *; congruence]
          |first [done | congruence]
          |split; [exact H1|split; [exact H2|split; [exact H3|]]];
           cbn [snd]; apply (Hsess (Return true)); exact Hs]
      end.
  - split; [done|]. split; [by intros e0 [= <-]|]. split; [done|].
    cbn [snd]. apply (Hsess (Return true)). exact Hs.
  - split; [done|]. split; [done|]. split; [done|].
    cbn [snd]. apply (Hsess (Return true)). exact Hs.
Qed.

(** *** What does not depend on the session *)

Lemma blind_bind {A B} (m : M A) (k : A -> M B) :
  session_blind m -> (forall a, session_blind (k a)) -> session_blind (bind m k).
Proof.
  intros Hm Hk s w. unfold bind. rewrite Hm.
  destruct (m w) as [[a|e|] w1]; cbn [fst snd]; [apply Hk|done|done].
Qed.

Lemma blind_try_catch {A} (m : M A) (h : exn -> M A) :
  session_blind m -> (forall e, session_blind (h e)) ->
  session_blind (try_catch m h).
Proof.
  intros Hm Hh s w. unfold try_catch. rewrite Hm.
  destruct (m w) as [[a|e|] w1]; cbn [fst snd]; [done|apply Hh|done].
Qed.

Lemma blind_print (s : string) : session_blind (print s).
Proof. done. Qed.

Lemma blind_sleep (d : Z) : session_blind (sleep d).
Proof. done. Qed.

Lemma blind_session_send (req : request) : session_blind (session_send req).
Proof.
  intros s w. rewrite !session_send_run. cbn [net net_pos set_sess fst snd].
  reflexivity.
Qed.

Lemma blind_json_get (data : json) (key : string) (default : json) :
  session_blind (json_get data key default).
Proof. by destruct data. Qed.

Lemma blind_save_to_cache (key : string) (data : json) :
  session_blind (_save_to_cache key data).
Proof.
  intros s w. unfold _save_to_cache, bind, get_world. cbn [disk_ok set_sess].
  by destruct (disk_ok w key).
Qed.

Lemma blind_retry_loop {A} (func : M A) (max_retries base_delay : Z)
    (attempts : list Z) :
  session_blind func ->
  session_blind (retry_loop func max_retries base_delay attempts).
Proof.
  intros Hf. induction attempts as [|attempt rest IH]; cbn [retry_loop]; [done|].
  apply blind_bind; [apply blind_print|]. intros _.
  apply blind_bind; [apply blind_sleep|]. intros _.
  apply blind_try_catch.
  - apply blind_bind; [exact Hf|]. by intros a.
  - intros e. destruct (Z.eqb attempt (max_retries - 1)); [|exact IH].
    apply blind_bind; [apply blind_print|]. by intros _.
Qed.

Lemma blind_api_request (url : string) (p : nat) (key : string) :
  session_blind (api_request url p key).
Proof.
  unfold api_request.
  apply blind_bind; [done|]. intros params.
  apply blind_bind; [apply blind_session_send|]. intros response.
  apply blind_bind.
  { unfold raise_for_status. by repeat destruct (_ && _). }
  intros _. apply blind_bind.
  { unfold response_json. by destruct (json_body response). }
  intros data. apply blind_bind; [apply blind_json_get|]. intros status.
  destruct (json_is_str status "OK").
  - apply blind_bind; [apply blind_save_to_cache|]. by intros _.
  - apply blind_bind; [apply blind_json_get|]. intros comment.
    apply blind_bind; [done|]. by intros c.
Qed.

Lemma blind_call_api_except (again : M (option json)) (e : exn) :
  session_blind again -> session_blind (call_api_except again e).
Proof.
  intros Ha. unfold call_api_except. destruct (is_request_exception e).
  - apply blind_bind; [apply blind_print|]. intros _.
    apply blind_bind; [by apply blind_retry_loop|]. by intros _.
  - apply blind_bind; [apply blind_print|]. by intros _.
Qed.

Lemma signs_user_info (s : CFSession) : signs s "user.info" = false.
Proof. unfold signs. by rewrite andb_false_r. Qed.

Lemma authenticate_params_user_info (p : nat) (w : world) :
  authenticate_params "user.info" p w = (Return tt, w).
Proof.
  destruct (authenticate_params_run "user.info" p w) as (rand & ->).
  by rewrite signs_user_info.
Qed.

(** A call of "user.info" never looks at the session. *)
Lemma blind_call_api_user_info (fuel : nat) (p : nat) :
  session_blind (call_api fuel "user.info" (Some p)).
Proof.
  induction fuel as [|fuel IH]; [done|].
  intros s w. rewrite !call_api_unfold. cbv zeta.
  rewrite !authenticate_params_user_info. cbn [snd].
  change (cache_key_of (set_sess s w) "user.info" (heap (set_sess s w) !!! p))
    with (cache_key_of w "user.info" (heap w !!! p)).
  set (key := cache_key_of w "user.info" (heap w !!! p)).
  change (cache_read key (set_sess s w)) with (cache_read key w).
  destruct (truthy_opt (cache_read key w)); [reflexivity|].
  change (emit (EvCacheGet key (cache_read key w)) (set_sess s w))
    with (set_sess s (emit (EvCacheGet key (cache_read key w)) w)).
  apply blind_try_catch; [apply blind_api_request|].
  intros e. by apply blind_call_api_except.
Qed.

(** X11. [login] does not check the API key or the secret: the request it
    makes is the unsigned "user.info" call, so two runs that differ only in
    the key and the secret given send the same requests, print the same
    lines and return the same result. *)
Theorem login_ignores_key_and_secret (fuel : nat) (h key1 secret1 key2 secret2 : string)
    (w : world) :
  fst (login fuel h key1 secret1 w) = fst (login fuel h key2 secret2 w)
  /\ log (snd (login fuel h key1 secret1 w)) = log (snd (login fuel h key2 secret2 w))
  /\ cache (snd (login fuel h key1 secret1 w))
     = cache (snd (login fuel h key2 secret2 w)).
Proof.
  rewrite !login_run.
  change (login_start h key2 secret2 w)
    with (set_sess (with_credentials h key2 secret2 (sess w))
                   (login_start h key1 secret1 w)).
  rewrite (blind_call_api_user_info fuel (login_params w)).
  destruct (call_api fuel "user.info" _ (login_start h key1 secret1 w))
    as [[response|e|] w']; cbn [fst snd]; [|done|done].
  destruct response as [[|b|n|s|l|d]|]; cbn [truthy];
    repeat match goal with |- context [if ?c then _ else _] => destruct c end;
    done.
Qed.

Lemma api_request_ok_net_pos (url : string) (p : nat) (key : string) (data : json)
    (w : world) :
  ok_response (net w (net_pos w)) = Some data ->
  net_pos (snd (api_request url p key w)) = S (net_pos w).
Proof.
  intros Hok.
  destruct (ok_response_inv _ _ Hok) as (r & d & Hn & Hs & Hb & -> & Hst).
  unfold api_request, read_dict. rewrite bind_ret_l'.
  erewrite bind_return by (rewrite session_send_run, Hn; reflexivity).
  erewrite bind_return by (apply raise_for_status_ok, Hs).
  erewrite bind_return by (unfold response_json; rewrite Hb; reflexivity).
  erewrite bind_return by reflexivity.
  rewrite Hst. cbn [json_is_str]. change (String.eqb "OK" "OK") with true. cbv iota.
  unfold bind, _save_to_cache, get_world, bind.
  cbn [disk_ok emit set_net_pos]. by destruct (disk_ok w _).
Qed.

(** A first request that fails in transport, then a retried call that is
    answered OK: the answer is dropped. *)
Lemma call_api_error_then_ok (fuel : nat) (method : string) (p : nat)
    (m : string) (data : json) (w : world) :
  cache w = ∅ ->
  transport_error (net w (net_pos w)) = Some m ->
  ok_response (net w (S (net_pos w))) = Some data ->
  fst (call_api (S (S fuel)) method (Some p) w) = Return None
  /\ net_pos (snd (call_api (S (S fuel)) method (Some p) w)) = (net_pos w + 2)%nat.
Proof.
  intros Hc Herr Hok.
  assert (Hmiss : forall w', cache w' = ∅ -> forall k, cache_read k w' = None).
  { intros w' Hw' k. unfold cache_read. by rewrite Hw', lookup_empty. }
  rewrite (call_api_transport_error_step _ _ _ m)
    by (rewrite ?Hmiss by done; done).
  rewrite call_api_except_result, retry_first_attempt.
  destruct (failed_request_env method p w) as (Ec & En & Ep & _).
  match goal with
  | |- context [before_first_retry (snd (print ?s ?w3))] =>
      destruct (before_first_retry_env (snd (print s w3))) as (Ec5 & En5 & Ep5 & _);
      destruct (print_env s w3) as (Ec4 & En4 & Ep4 & _)
  end.
  set (w5 := before_first_retry _) in *.
  rewrite Ec4, Ec, Hc in Ec5. rewrite En4, En in En5. rewrite Ep4, Ep in Ep5.
  assert (Hok5 : ok_response (net w5 (net_pos w5)) = Some data)
    by (by rewrite En5, Ep5).
  pose proof (call_api_ok_response fuel method p data w5) as H.
  rewrite Hmiss in H by done. specialize (H eq_refl Hok5).
  assert (Hp : net_pos (snd (call_api (S fuel) method (Some p) w5)) = S (net_pos w5)).
  { rewrite call_api_unfold. cbv zeta. rewrite Hmiss by done. cbn [truthy_opt].
    set (w6 := emit _ w5).
    destruct (authenticate_params_frame method p w6)
      as (_ & _ & En6 & Ep6 & _).
    cbv zeta in En6, Ep6. unfold try_catch.
    pose proof (api_request_ok (urljoin CF_API_BASE method) p
                  (cache_key_of w5 method (heap w5 !!! p)) data
                  (snd (authenticate_params method p w6))) as Hr.
    pose proof (api_request_ok_net_pos (urljoin CF_API_BASE method) p
                  (cache_key_of w5 method (heap w5 !!! p)) data
                  (snd (authenticate_params method p w6))) as Hn.
    rewrite En6, Ep6 in Hr, Hn. specialize (Hr Hok5). specialize (Hn Hok5).
    destruct (api_request _ _ _ _) as [[a|e|] w7]; cbn [fst snd] in *; try done. }
  destruct (call_api (S fuel) method (Some p) w5) as [[a|e|] w6];
    cbn [fst snd] in *; try done.
  split; [done|]. rewrite Hp, Ep5. lia.
Qed.

(** X12. When the first request of [login] fails in transport and the
    retried one is answered with status OK, [login] still reports a failure:
    [call_api] has dropped the answer of the retry, so [login] gets [None],
    prints "Authentication failed" and returns [False], after two requests. *)
Theorem login_fails_after_successful_retry (fuel : nat) (h key secret m : string)
    (data : json) (w : world) :
  cache w = ∅ ->
  transport_error (net w (net_pos w)) = Some m ->
  ok_response (net w (S (net_pos w))) = Some data ->
  let res := login (S (S fuel)) h key secret w in
  fst res = Return false
  /\ net_pos (snd res) = (net_pos w + 2)%nat
  /\ exists pre, log (snd res) = EvOut login_failure_line :: pre.
Proof.
  intros Hc Herr Hok. cbv zeta. rewrite login_run.
  destruct (call_api_error_then_ok fuel "user.info" (login_params w) m data
              (login_start h key secret w) Hc Herr Hok) as [Hr Hp].
  destruct (call_api (S (S fuel)) "user.info" _ _) as [[response|e|] w'];
    cbn [fst snd] in *; try done.
  injection Hr as ->. cbn [fst snd net_pos log emit].
  split; [done|]. split; [exact Hp|]. by eexists.
Qed.

Lemma login_start_env (h key secret : string) (w : world) :
  heap (login_start h key secret w) !!! login_params w
  = ([("handles", PStr h)] : pydict pval)
  /\ cache (login_start h key secret w) = cache w
  /\ net (login_start h key secret w) = net w
  /\ net_pos (login_start h key secret w) = net_pos w
  /\ now (login_start h key secret w) = now w
  /\ py_hash (login_start h key secret w) = py_hash w
  /\ disk_ok (login_start h key secret w) = disk_ok w.
Proof.
  unfold login_start. cbn. by rewrite lookup_total_insert_eq.
Qed.

(** X13. After a login that the network answered OK, a further login with
    the same handle, in the state that the first one leaves, succeeds
    without any request, whatever key and secret it is given: the answer
    comes from the cache file that the first one wrote. *)
Theorem login_is_answered_by_the_cache (fuel fuel2 : nat) (h key secret : string)
    (data : json) (w : world) :
  let cache_key := cache_key_of w "user.info" [("handles", PStr h)] in
  let w1 := snd (login (S fuel) h key secret w) in
  truthy_opt (cache_read cache_key w) = false ->
  ok_response (net w (net_pos w)) = Some data ->
  disk_ok w cache_key = true ->
  fst (login (S fuel) h key secret w) = Return true
  /\ forall key2 secret2 : string,
       fst (login (S fuel2) h key2 secret2 w1) = Return true
       /\ net_pos (snd (login (S fuel2) h key2 secret2 w1)) = net_pos w1.
Proof.
  cbv zeta. intros Hmiss Hok Hd.
  destruct (ok_response_inv _ _ Hok) as (r & d & _ & _ & _ & -> & Hst).
  assert (Hrok : response_ok (Some (JDict d)) = true).
  { cbn. by rewrite Hst. }
  destruct (login_start_env h key secret w) as (Eh & Ec & En & Ep & Et & Ey & Ed).
  pose proof (call_api_ok_run fuel "user.info" (login_params w) (JDict d)
                (login_start h key secret w)) as H1.
  cbv zeta in H1. unfold cache_key_of, cache_read in H1.
  rewrite Eh, Ey, Ec, Et, En, Ep, Ed in H1.
  specialize (H1 Hmiss Hok Hd).
  destruct H1 as (Hr1 & Hc1 & _ & Ht1 & Hy1 & _).
  rewrite login_run.
  destruct (call_api (S fuel) "user.info" _ (login_start h key secret w))
    as [[response|e|] w'] eqn:Ecall; cbn [fst snd] in *; try done.
  injection Hr1 as ->. rewrite Hrok. split; [done|].
  intros key2 secret2. cbn [snd].
  set (w1 := emit (EvOut (login_success_line h)) w').
  destruct (login_start_env h key2 secret2 w1) as (Eh2 & Ec2 & _ & Ep2 & Et2 & Ey2 & _).
  assert (Hread : cache_read (cache_key_of (login_start h key2 secret2 w1) "user.info"
                                (heap (login_start h key2 secret2 w1) !!! login_params w1))
                             (login_start h key2 secret2 w1)
                  = Some (JDict d)).
  { unfold cache_key_of, cache_read. rewrite Eh2, Ey2, Ec2, Et2.
    subst w1. cbn [cache now py_hash emit]. rewrite Hc1, Hy1, Ht1.
    rewrite lookup_insert_eq. cbn [mtime content]. unfold CACHE_TTL.
    destruct (Z.gtb_spec (now w - now w) (300 * 1000000)); [lia|done]. }
  rewrite login_run, call_api_cache_hit
    by (rewrite Hread; cbn; destruct d; [done|reflexivity]).
  rewrite Hread, Hrok. cbn [fst snd net_pos emit]. by rewrite Ep2.
Qed.

(** ** The verdict poller: ticks that fail *)

Lemma poll_failure_step (url : string) (params : pydict pval) (attempt : Z)
    (rest : list Z) (f : exn + Z) (w : world) :
  tick_failure (net w (net_pos w)) = Some f ->
  poll url params (attempt :: rest) w
  = match f with
    | inl e => (Raise e, sent (Request GET url params) w)
    | inr _ => (Return tt, emit (EvOut (tick_failure_line f))
                             (sent (Request GET url params) w))
    end.
Proof.
  intros Hf. cbn [poll]. unfold sent.
  destruct (net w (net_pos w)) as [e|r] eqn:En; cbn [tick_failure] in Hf.
  { injection Hf as <-.
    erewrite bind_raise by (rewrite session_send_run, En; reflexivity). done. }
  erewrite bind_return by (rewrite session_send_run, En; reflexivity).
  destruct (negb (Z.eqb (status_code r) 200)); [by injection Hf as <-|].
  destruct (json_body r) as [e|j] eqn:Eb.
  { injection Hf as <-.
    erewrite bind_raise by (unfold response_json; rewrite Eb; reflexivity). done. }
  erewrite bind_return by (unfold response_json; rewrite Eb; reflexivity).
  destruct j; try done; injection Hf as <-; reflexivity.
Qed.

(** X14. The poller stops at the first tick that fails, without sleeping
    after it and without asking again: when the answers before index [k] are
    queued and answer [k] is a transport error, an HTTP status other than
    200, a body that is not JSON or a document that is not an object,
    [status] returns after [k + 1] requests and [k] sleeps, and the last
    line it prints is the error. *)
Theorem status_poller_stops_on_failure (submission_id : string) (k : nat)
    (f : exn + Z) (w : world) :
  (k < 10)%nat ->
  (forall i, (i < k)%nat -> queued_answer (net w (net_pos w + i)) = true) ->
  tick_failure (net w (net_pos w + k)) = Some f ->
  let r := status_submission submission_id w in
  fst r = Return tt
  /\ net_pos (snd r) = (net_pos w + S k)%nat
  /\ sleeps (log (snd r)) = (repeat 2 k ++ sleeps (log w))%list
  /\ exists pre, log (snd r) = EvOut (tick_failure_line f) :: pre.
Proof.
  intros Hk Hq Hf. cbv zeta. rewrite status_submission_run.
  set (params := [("submissionId", PStr submission_id)]).
  set (w0 := snd (print (checking_line submission_id) w)).
  assert (E0 : net w0 = net w /\ net_pos w0 = net_pos w
               /\ sleeps (log w0) = sleeps (log w)) by done.
  destruct E0 as (En0 & Ep0 & Es0).
  assert (Hsplit : exists attempt,
            range 10 = (take k (range 10) ++ attempt :: drop (S k) (range 10))%list
            /\ length (take k (range 10)) = k).
  { rewrite range_10.
    do 10 (destruct k as [|k]; [eexists; split; reflexivity|]). lia. }
  destruct Hsplit as (attempt & Er & Hlen). rewrite Er.
  destruct (poll_queued_prefix status_url params (take k (range 10))
              (attempt :: drop (S k) (range 10)) w0)
    as (w1 & E & En1 & Ep1 & _ & Es1 & _).
  { intros i Hi. rewrite En0, Ep0. apply Hq. by rewrite Hlen in Hi. }
  fold status_url. rewrite E, Hlen in *.
  rewrite (poll_failure_step _ _ _ _ f) by (by rewrite En1, Ep1, En0, Ep0).
  destruct f as [e|code]; cbn [fst snd];
    unfold sent; rewrite ?print_run;
    cbn [fst snd net_pos log emit set_net_pos sleeps tick_failure_line];
    rewrite Ep1, Es1, Ep0, Es0; (repeat split; [lia|by eexists]).
Qed.

(** ** submit: what is sent *)

Lemma requests_app (l1 l2 : list event) :
  requests (l1 ++ l2) = (requests l1 ++ requests l2)%list.
Proof.
  induction l1 as [|[] l1 IH]; cbn [requests app]; try done. by rewrite IH.
Qed.

Lemma requests_outs (l : list event) :
  (forall e, In e l -> exists s, e = EvOut s) -> requests l = [].
Proof.
  induction l as [|ev l IH]; intros H; [done|].
  destruct (H ev (or_introl eq_refl)) as [s ->]. cbn [requests].
  apply IH. intros e He. apply H. by right.
Qed.

Lemma submit_url_eq (contest_id : Z) :
  urljoin CF_BASE_URL ("contest/" ++ str_of_Z contest_id ++ "/submit")
  = submit_url contest_id.
Proof. reflexivity. Qed.

(** X15. [submit] posts the solution at most once, and never without a CSRF
    token: with a token in the session it sends the POST alone; without one
    it first fetches the submit page, and posts only if a token is found
    there, which it stores in the session. The form always names compiler 54
    and carries the source unchanged. *)
Theorem submit_source_requests (contest_id : Z) (problem_index source_code : string)
    (w : world) :
  let res := submit_source contest_id problem_index source_code w in
  let url := submit_url contest_id in
  exists evs,
    log (snd res) = (evs ++ log w)%list
    /\ if truthy_str (csrf_token (sess w)) then
         requests evs
         = [Request POST url (submit_data (csrf_token (sess w)) problem_index source_code)]
       else
         requests evs = [Request GET url []]
         \/ exists r0 tok,
              net w (net_pos w) = NetResponse r0
              /\ csrf_search (text r0) = Some tok /\ tok <> ""
              /\ csrf_token (sess (snd res)) = Some tok
              /\ requests evs
                 = [ Request POST url (submit_data (Some tok) problem_index source_code);
                     Request GET url [] ].
Proof.
  cbv zeta. rewrite submit_source_run. cbv zeta. rewrite submit_url_eq.
  destruct (truthy_str (csrf_token (sess w))) eqn:Et.
  - match goal with
    | |- context [try_catch (submit_form ?u contest_id problem_index ?d)] =>
        destruct (submit_form_log u contest_id problem_index d w)
          as (pre & El & Hpre & _)
    end.
    cbv zeta in El. rewrite El.
    eexists (pre ++ [_; _])%list. split; [by rewrite <- app_assoc|].
    rewrite requests_app, (requests_outs pre Hpre). reflexivity.
  - destruct (net w (net_pos w)) as [e|r0] eqn:En0.
    { unfold sent. cbn [net net_pos emit]. rewrite En0. eexists [_; _]. split; [reflexivity|]. by left. }
    destruct (csrf_search (text r0)) as [tok|] eqn:Ecs.
    + pose proof (csrf_search_nonempty _ _ Ecs) as Htok.
      match goal with
      | |- context [try_catch (submit_form ?u contest_id problem_index ?d) _ ?w1] =>
          destruct (submit_form_log u contest_id problem_index d w1)
            as (pre & El & Hpre & _);
          pose proof (preserves_try_catch (fun w' => csrf_token (sess w') = Some tok)
                        (submit_form u contest_id problem_index d) submit_except)
            as Hsess
      end.
      cbv zeta in El. rewrite El. unfold sent. cbn [net net_pos emit]. rewrite En0.
      cbn [log net net_pos emit set_sess set_net_pos].
      eexists (pre ++ [_; _; _; _])%list. split; [by rewrite <- app_assoc|].
      right. exists r0, tok. repeat split; try done.
      * apply Hsess; [| |done].
        -- unfold submit_form.
           apply preserves_bind; [by intros ? ?|]. intros _.
           apply preserves_bind.
           { intros w' Hw'. rewrite session_send_run. exact Hw'. }
           intros response.
           destruct (contains duplicate_phrase (text response)); [by intros ? ?|].
           destruct (contains _ (resp_url response)).
           ++ apply preserves_bind; [by intros ? ?|]. intros _.
              destruct (submission_id_search (text response)); [|by intros ? ?].
              apply preserves_bind; [by intros ? ?|]. by intros _ ? ?.
           ++ apply preserves_bind; [by intros ? ?|]. by intros _ ? ?.
        -- by intros e ? ?.
      * rewrite requests_app, (requests_outs pre Hpre). reflexivity.
    + unfold sent. cbn [net net_pos emit]. rewrite En0. eexists [_; _; _]. split; [reflexivity|]. by left.
Qed.

(** X16. When the first request of [submit] raises, what happens depends on
    which request it is: the POST stands inside the [try], so its error is
    printed and [submit] returns; the GET of the token page stands outside,
    so its error leaves [submit] as an exception, nothing having been
    posted. *)
Theorem submit_source_first_request_raises (contest_id : Z)
    (problem_index source_code : string) (e : exn) (w : world) :
  net w (net_pos w) = NetRaises e ->
  let res := submit_source contest_id problem_index source_code w in
  net_pos (snd res) = S (net_pos w)
  /\ if truthy_str (csrf_token (sess w)) then
       fst res = Return tt
       /\ exists pre, log (snd res) = EvOut (submit_error_line e) :: pre
     else
       fst res = Raise e
       /\ log (snd res)
          = EvNet (Request GET (submit_url contest_id) []) (NetRaises e)
              :: EvOut getting_token_line :: log w.
Proof.
  intros Hn. cbv zeta. rewrite submit_source_run. cbv zeta. rewrite submit_url_eq.
  destruct (truthy_str (csrf_token (sess w))).
  - unfold try_catch, submit_form.
    rewrite (bind_return _ _ _ _ _ (print_run _ w)).
    erewrite bind_raise
      by (rewrite session_send_run; cbn [net net_pos emit]; rewrite Hn; reflexivity).
    cbv iota beta. unfold submit_except. rewrite print_run.
    cbn [fst snd net_pos emit set_net_pos log]. split; [done|]. split; [done|].
    by eexists.
  - rewrite Hn. unfold sent. cbn [net net_pos emit]. rewrite Hn. done.
Qed.

(** ** status: the command *)

Lemma print_submissions_returns (submissions : list (string * string * string))
    (w : world) :
  fst (print_submissions submissions w) = Return tt
  /\ net_pos (snd (print_submissions submissions w)) = net_pos w
  /\ requests (log (snd (print_submissions submissions w))) = requests (log w)
  /\ sess (snd (print_submissions submissions w)) = sess w.
Proof.
  revert w. induction submissions as [|[[subm_id problem_index] verdict] rest IH];
    intros w; [done|].
  cbn [print_submissions]. cbv zeta.
  rewrite (bind_return _ _ _ _ _ (print_run _ w)).
  match goal with
  | |- context [print_submissions rest ?w1] => destruct (IH w1) as (H1 & H2 & H3 & H4)
  end.
  repeat split; [apply H1|apply H2|apply H3|apply H4].
Qed.

Lemma status_contest_run (contest_id : Z) (w : world) :
  exists w',
    try_catch (status_contest contest_id)
      (fun e => print (Fore_RED ++ "Error checking status: " ++ exn_str e
                       ++ Style_RESET_ALL)) w
    = (Return tt, w')
    /\ net_pos w' = S (net_pos w)
    /\ requests (log w')
       = Request GET (contest_url contest_id) [] :: requests (log w).
Proof.
  unfold try_catch, status_contest. cbv zeta.
  unfold bind at 1. rewrite session_send_run.
  change (urljoin CF_BASE_URL ("contest/" ++ str_of_Z contest_id ++ "/my"))
    with (contest_url contest_id).
  destruct (net w (net_pos w)) as [e|r].
  { cbv iota beta. rewrite print_run. eexists. split; [reflexivity|]. done. }
  destruct (contains not_registered_phrase (text r)).
  { rewrite print_run. eexists. split; [reflexivity|]. done. }
  destruct (findall_submissions _ _) as [|row rows].
  { rewrite print_run. eexists. split; [reflexivity|]. done. }
  rewrite (bind_return _ _ _ _ _ (print_run _ _)).
  rewrite (bind_return _ _ _ _ _ (print_run _ _)).
  rewrite (bind_return _ _ _ _ _ (print_run _ _)).
  match goal with
  | |- context [print_submissions ?l ?w1] =>
      destruct (print_submissions_returns l w1) as (H1 & H2 & H3 & _);
      destruct (print_submissions l w1) as [[[]|e|] w2]; cbn [fst snd] in *; try done
  end.
  eexists. split; [reflexivity|]. done.
Qed.

Lemma status_contest_returns (contest_id : Z) (w : world) :
  let res := try_catch (status_contest contest_id)
               (fun e => print (Fore_RED ++ "Error checking status: " ++ exn_str e
                                ++ Style_RESET_ALL)) w in
  fst res = Return tt
  /\ net_pos (snd res) = S (net_pos w)
  /\ requests (log (snd res))
     = Request GET (contest_url contest_id) [] :: requests (log w).
Proof.
  cbv zeta. by destruct (status_contest_run contest_id w) as (w' & -> & ? & ?).
Qed.

Lemma status_submission_returns (submission_id : string) (w : world) :
  fst (status_submission submission_id w) = Return tt.
Proof.
  rewrite status_submission_run.
  match goal with
  | |- context [poll ?u ?p ?a ?w0] =>
      destruct (poll_bounded u p a w0) as [Hd _];
      destruct (poll u p a w0) as [[[]|e|] w1]; cbn [fst] in *; done
  end.
Qed.

(** [status] for a session that is logged in. *)
Lemma status_logged_in (submission_id : option string) (contest_id : option Z)
    (w : world) :
  logged_in (sess w) = true ->
  status submission_id contest_id w
  = if negb (truthy_str submission_id) && negb (truthy_Z contest_id) then
      (Return tt, emit (EvOut need_argument_line) w)
    else
      match submission_id, contest_id with
      | Some sid, _ =>
          if negb (String.eqb sid "") then status_submission sid w
          else
            match contest_id with
            | Some cid =>
                try_catch (status_contest cid)
                  (fun e => print (Fore_RED ++ "Error checking status: " ++ exn_str e
                                   ++ Style_RESET_ALL)) w
            | None => (Return tt, w)
            end
      | None, Some cid =>
          try_catch (status_contest cid)
            (fun e => print (Fore_RED ++ "Error checking status: " ++ exn_str e
                             ++ Style_RESET_ALL)) w
      | None, None => (Return tt, w)
      end.
Proof.
  intros Hl. unfold status.
  destruct (negb (truthy_str submission_id) && negb (truthy_Z contest_id));
    [reflexivity|].
  rewrite (bind_return _ _ _ _ _ (get_session_run w)). rewrite Hl.
  cbn [negb]. cbv iota. rewrite bind_ret_l. cbn [negb]. cbv iota.
  destruct submission_id as [sid|]; [destruct (negb (String.eqb sid ""))|];
    destruct contest_id; reflexivity.
Qed.

(** X17. How [status] reads its arguments. With neither a submission id nor
    a contest id, an empty id and contest 0 counting as absent, it prints
    one message and touches nothing else. With a submission id the contest
    id is ignored. For a session that is logged in it never raises, and the
    contest listing (no submission id) sends exactly one request, the GET of
    the page of the contest. *)
Theorem status_dispatch (submission_id : option string) (contest_id : option Z)
    (w : world) :
  (truthy_str submission_id = false -> truthy_Z contest_id = false ->
     status submission_id contest_id w = (Return tt, emit (EvOut need_argument_line) w))
  /\ (truthy_str submission_id = true ->
        status submission_id contest_id w = status submission_id None w)
  /\ (logged_in (sess w) = true ->
        fst (status submission_id contest_id w) = Return tt
        /\ (truthy_str submission_id = false ->
            forall cid, contest_id = Some cid -> cid <> 0 ->
              requests (log (snd (status submission_id contest_id w)))
              = Request GET (contest_url cid) [] :: requests (log w))).
Proof.
  split; [|split].
  - intros Hs Hc. unfold status. by rewrite Hs, Hc.
  - intros Hs. unfold status. rewrite Hs. cbn [negb andb]. cbv iota.
    destruct submission_id as [sid|]; [|done]. cbn [truthy_str] in Hs.
    rewrite Hs. reflexivity.
  - intros Hl. rewrite status_logged_in by done. split.
    + destruct (negb (truthy_str submission_id) && negb (truthy_Z contest_id));
        [done|].
      destruct submission_id as [sid|], contest_id as [cid|]; try done;
        try destruct (negb (String.eqb sid ""));
        try apply status_submission_returns; try done;
        apply status_contest_returns.
    + intros Hs cid -> Hc. cbn [truthy_Z].
      apply Z.eqb_neq in Hc. rewrite Hs, Hc. cbn [negb andb]. cbv iota.
      destruct submission_id as [sid|].
      * cbn [truthy_str] in Hs. rewrite Hs. apply status_contest_returns.
      * apply status_contest_returns.
Qed.

(** X18. For a session that is not logged in, [status] runs [web_login]
    first. When the login succeeds it goes on exactly as a logged-in session
    would; when the login fails it prints that it cannot check the status
    and sends nothing more; what [web_login] raises leaves [status] as an
    exception, the login standing outside its [try]. *)
Theorem status_logs_in_first (submission_id : option string) (contest_id : option Z)
    (w : world) :
  logged_in (sess w) = false ->
  truthy_str submission_id || truthy_Z contest_id = true ->
  status submission_id contest_id w
  = match web_login (emit (EvOut logging_in_line) w) with
    | (Return true, w1) => status submission_id contest_id w1
    | (Return false, w1) => (Return tt, emit (EvOut cannot_check_line) w1)
    | (Raise e, w1) => (Raise e, w1)
    | (Diverge, w1) => (Diverge, w1)
    end.
Proof.
  intros Hl Hargs.
  assert (Hno : negb (truthy_str submission_id) && negb (truthy_Z contest_id)
                = false).
  { destruct (truthy_str submission_id), (truthy_Z contest_id); done. }
  pose proof (web_login_success (emit (EvOut logging_in_line) w)) as Htrue.
  unfold status at 1. rewrite Hno.
  rewrite (bind_return _ _ _ _ _ (get_session_run w)). rewrite Hl.
  cbn [negb]. cbv iota.
  unfold bind at 1. unfold bind at 1. rewrite print_run.
  fold logging_in_line. unfold line. unfold bind at 1.
  change (Fore_CYAN ++ "Logging in to Codeforces..." ++ Style_RESET_ALL ++ NL)
    with ((Fore_CYAN ++ "Logging in to Codeforces..." ++ Style_RESET_ALL) ++ NL)
    in *.
  destruct (web_login _) as [[[]|e|] w1]; cbn [fst snd] in *; try reflexivity.
  destruct (Htrue eq_refl) as (Hl1 & _).
  cbn [negb]. cbv iota. unfold ret at 1. cbv iota beta. cbn [negb]. cbv iota.
  rewrite status_logged_in by done. rewrite Hno.
  destruct submission_id as [sid|]; [destruct (negb (String.eqb sid ""))|];
    destruct contest_id; reflexivity.
Qed.

(** ** The submissions found on a contest page *)

Lemma str_drop_length (n : nat) (s : string) :
  (String.length (str_drop n s) <= String.length s)%nat.
Proof.
  revert s. induction n as [|n IH]; intros [|c s]; cbn [str_drop String.length];
    try lia. specialize (IH s). lia.
Qed.

Lemma take_digits_spec (s run tl : string) :
  take_digits s = (run, tl) ->
  String.length s = (String.length run + String.length tl)%nat
  /\ forallb is_digit (list_ascii_of_string run) = true.
Proof.
  revert run tl. induction s as [|c s IH]; intros run tl; cbn [take_digits].
  { by intros [= <- <-]. }
  destruct (is_digit c) eqn:Ec.
  - destruct (take_digits s) as [run' tl'].
    intros [= <- <-]. destruct (IH _ _ eq_refl) as [Hl Hd].
    cbn [String.length list_ascii_of_string forallb]. rewrite Ec, Hd. split; [lia|done].
  - intros [= <- <-]. done.
Qed.

Lemma contains_char_cons (a c : ascii) (s : string) :
  contains (String a "") (String c s) = Ascii.eqb a c || contains (String a "") s.
Proof.
  cbn [contains]. f_equal. cbn [String.prefix].
  destruct (ascii_dec a c) as [<-|Hne].
  - rewrite Ascii.eqb_refl. by destruct s.
  - apply Ascii.eqb_neq in Hne. by rewrite Hne.
Qed.

Lemma contains_quote_cons (c : ascii) (s : string) :
  contains DQ (String c s) = Ascii.eqb (ascii_of_nat 34) c || contains DQ s.
Proof. apply contains_char_cons. Qed.

Lemma take_until_quote_spec (s run tl : string) :
  take_until_quote s = (run, tl) ->
  String.length s = (String.length run + String.length tl)%nat
  /\ contains DQ run = false.
Proof.
  revert run tl. induction s as [|c s IH]; intros run tl; cbn [take_until_quote].
  { by intros [= <- <-]. }
  destruct (Ascii.eqb c (ascii_of_nat 34)) eqn:Ec.
  - intros [= <- <-]. done.
  - destruct (take_until_quote s) as [run' tl'].
    intros [= <- <-]. destruct (IH _ _ eq_refl) as [Hl Hq].
    rewrite contains_quote_cons, Hq, Ascii.eqb_sym, Ec.
    cbn [String.length]. split; [lia|done].
Qed.

Lemma quoted_digits_spec (attr s run rest : string) :
  quoted_digits attr s = Some (run, rest) ->
  run <> "" /\ forallb is_digit (list_ascii_of_string run) = true
  /\ (String.length rest < String.length s)%nat.
Proof.
  unfold quoted_digits. destruct (String.prefix _ s); [|done].
  destruct (take_digits _) as [run' tl] eqn:Et.
  destruct (take_digits_spec _ _ _ Et) as [Hl Hd].
  pose proof (str_drop_length (String.length (attr ++ DQ)) s) as Hs.
  destruct run' as [|c0 run']; [done|]. destruct tl as [|c tl]; [done|].
  destruct (Ascii.eqb c (ascii_of_nat 34)); [|done].
  intros [= <- <-]. cbn [String.length] in *. repeat split; [done|done|lia].
Qed.

Lemma quoted_run_spec (nonempty : bool) (attr s run rest : string) :
  quoted_run nonempty attr s = Some (run, rest) ->
  (nonempty = true -> run <> "") /\ contains DQ run = false
  /\ (String.length rest < String.length s)%nat.
Proof.
  unfold quoted_run. destruct (String.prefix _ s); [|done].
  destruct (take_until_quote _) as [run' tl] eqn:Et.
  destruct (take_until_quote_spec _ _ _ Et) as [Hl Hq].
  pose proof (str_drop_length (String.length (attr ++ DQ)) s) as Hs.
  destruct tl as [|c tl]; [done|].
  destruct (nonempty && String.eqb run' "") eqn:Ene; [done|].
  intros [= <- <-]. cbn [String.length] in *. repeat split; [|done|lia].
  intros -> ->. cbn in Ene. discriminate.
Qed.

(** A search succeeds at some position of the text. *)
Lemma re_search_spec {A} (here : string -> option (A * string)) (s : string)
    (a : A) (rest : string) :
  re_search here s = Some (a, rest) ->
  exists s', (String.length s' <= String.length s)%nat /\ here s' = Some (a, rest).
Proof.
  induction s as [|c s IH]; cbn [re_search].
  - destruct (here "") as [r|] eqn:E; [|done]. intros [= ->]. by exists "".
  - destruct (here (String c s)) as [r|] eqn:E.
    + intros [= ->]. by exists (String c s).
    + intros H. destruct (IH H) as (s' & Hl & Hs'). exists s'.
      cbn [String.length]. split; [lia|done].
Qed.

Lemma submission_row_here_spec (s rest : string) (row : string * string * string) :
  submission_row_here s = Some (row, rest) ->
  row_ok row /\ (String.length rest < String.length s)%nat.
Proof.
  unfold submission_row_here.
  destruct (quoted_digits "data-submission-id=" s) as [[subm_id s1]|] eqn:E1; [|done].
  destruct (quoted_digits_spec _ _ _ _ E1) as (Hid & Hdig & Hl1).
  intros H. apply re_search_spec in H as (s2 & Hl2 & H).
  destruct (quoted_digits "data-problemId=" s2) as [[pid s3]|] eqn:E2; [|done].
  destruct (quoted_digits_spec _ _ _ _ E2) as (_ & _ & Hl3).
  apply re_search_spec in H as (s4 & Hl4 & H).
  destruct (quoted_run true "data-problemIndex=" s4) as [[idx s5]|] eqn:E3; [|done].
  destruct (quoted_run_spec _ _ _ _ _ E3) as (Hidx & Hq3 & Hl5).
  apply re_search_spec in H as (s6 & Hl6 & H).
  destruct (quoted_run false "submissionVerdict=" s6) as [[v s7]|] eqn:E4; [|done].
  destruct (quoted_run_spec _ _ _ _ _ E4) as (_ & Hq4 & Hl7).
  injection H as <- <-. split; [|lia].
  unfold row_ok. repeat split; auto.
Qed.

(** X19. The rows that [status] reads off a contest page of ASCII text
    (where the pattern's digit class is 0 to 9): each row has an identifier
    made of one or more digits, a problem index that is not empty, and no
    double quote in the index or the verdict; and the search always comes to
    its end, each match consuming text, so that the rows do not depend on
    the bound given above the length of the page. *)
Theorem findall_submissions_rows (s : string) (fuel : nat) :
  is_ascii_text s = true ->
  (String.length s < fuel)%nat ->
  Forall row_ok (findall_submissions fuel s)
  /\ findall_submissions fuel s = findall_submissions (S (String.length s)) s.
Proof.
  intros _ Hfuel. split.
  - clear Hfuel. revert s. induction fuel as [|fuel IH]; intros s; [constructor|].
    cbn [findall_submissions].
    destruct (re_search submission_row_here s) as [[row rest]|] eqn:E; [|constructor].
    apply re_search_spec in E as (s' & _ & E).
    apply submission_row_here_spec in E as [Hrow _].
    constructor; [exact Hrow|apply IH].
  - assert (H : forall n s, (String.length s < n)%nat ->
              forall m, (String.length s < m)%nat ->
                findall_submissions n s = findall_submissions m s).
    { clear. induction n as [|n IH]; intros s Hn m Hm; [lia|].
      destruct m as [|m]; [lia|]. cbn [findall_submissions].
      destruct (re_search submission_row_here s) as [[row rest]|] eqn:E; [|done].
      apply re_search_spec in E as (s' & Hs' & E).
      apply submission_row_here_spec in E as [_ Hl].
      f_equal. apply IH; lia. }
    apply H; lia.
Qed.

(** ** File names: from generate to submit *)

Lemma string_of_uint_digits (d : Decimal.uint) :
  forallb is_digit (list_ascii_of_string (NilEmpty.string_of_uint d)) = true.
Proof. induction d; cbn; auto. Qed.

Lemma int_of_digits_acc (d : Decimal.uint) (acc : positive) :
  fold_left (fun a c => 10 * a + (Z.of_nat (nat_of_ascii c) - 48))
            (list_ascii_of_string (NilEmpty.string_of_uint d)) (Z.pos acc)
  = Z.pos (Pos.of_uint_acc d acc).
Proof.
  revert acc.
  induction d as [|d IH|d IH|d IH|d IH|d IH|d IH|d IH|d IH|d IH|d IH]; intros acc;
    [reflexivity|..];
    cbn [NilEmpty.string_of_uint list_ascii_of_string fold_left Pos.of_uint_acc];
    match goal with
    | |- fold_left _ _ ?z = _ =>
        match goal with
        | |- _ = Z.pos (Pos.of_uint_acc _ ?q) =>
            replace z with (Z.pos q)
              by (match goal with
                  | |- _ = _ + ?k => let v := eval vm_compute in k in change k with v
                  end; lia)
        end
    end; apply IH.
Qed.

Lemma int_of_digits_uint (d : Decimal.uint) :
  int_of_digits (NilEmpty.string_of_uint d) = Z.of_N (Pos.of_uint d).
Proof.
  unfold int_of_digits.
  induction d as [|d IH|d IH|d IH|d IH|d IH|d IH|d IH|d IH|d IH|d IH];
    [reflexivity|exact IH|..];
    cbn [NilEmpty.string_of_uint list_ascii_of_string fold_left Pos.of_uint];
    match goal with
    | |- fold_left _ _ ?z = Z.of_N (N.pos (Pos.of_uint_acc _ ?q)) =>
        replace z with (Z.pos q) by (vm_compute; reflexivity)
    end; apply int_of_digits_acc.
Qed.

(** [str(n)] of a natural number: a non-empty run of digits that [int]
    reads back. *)
Lemma str_of_Z_nonneg (n : Z) :
  0 <= n ->
  str_of_Z n <> ""
  /\ forallb is_digit (list_ascii_of_string (str_of_Z n)) = true
  /\ int_of_digits (str_of_Z n) = n.
Proof.
  intros Hn. destruct n as [|p|p]; [done| |lia].
  unfold str_of_Z. cbn [Z.to_int NilZero.string_of_int].
  pose proof (DecimalPos.Unsigned.to_uint_nonnil p) as Hnil.
  assert (E : NilZero.string_of_uint (Pos.to_uint p)
              = NilEmpty.string_of_uint (Pos.to_uint p)).
  { unfold NilZero.string_of_uint. by destruct (Pos.to_uint p). }
  rewrite E. repeat split.
  - destruct (Pos.to_uint p); done.
  - apply string_of_uint_digits.
  - by rewrite int_of_digits_uint, DecimalPos.Unsigned.of_to.
Qed.

Lemma str_of_Z_neg (n : Z) :
  n < 0 -> exists s, str_of_Z n = String "-" s.
Proof.
  intros Hn. destruct n as [|p|p]; [lia|lia|].
  unfold str_of_Z. cbn [Z.to_int NilZero.string_of_int]. by eexists.
Qed.

Lemma take_digits_app (run : string) (c : ascii) (tl : string) :
  forallb is_digit (list_ascii_of_string run) = true ->
  is_digit c = false ->
  take_digits (run ++ String c tl) = (run, String c tl).
Proof.
  intros Hrun Hc. induction run as [|d run IH].
  - rewrite str_app_nil_l. cbn [take_digits]. by rewrite Hc.
  - cbn [list_ascii_of_string forallb] in Hrun.
    apply andb_true_iff in Hrun as [Hd Hrun].
    rewrite str_app_cons. cbn [take_digits]. by rewrite Hd, (IH Hrun).
Qed.

Lemma prefix_app_self (a x : string) : String.prefix a (a ++ x) = true.
Proof.
  induction a as [|c a IH]; [by destruct x|].
  rewrite str_app_cons. cbn [String.prefix].
  by destruct (ascii_dec c c).
Qed.

Lemma str_drop_app (a x : string) : str_drop (String.length a) (a ++ x) = x.
Proof.
  induction a as [|c a IH]; [by destruct x|].
  rewrite str_app_cons. exact IH.
Qed.

Lemma problem_index_ok_cases (problem_index : string) :
  problem_index_ok problem_index = true ->
  exists c, is_upper c = true
    /\ (problem_index = String c ""
        \/ (exists d, is_digit d = true /\ problem_index = String c (String d ""))
        \/ problem_index = String c NL
        \/ (exists d, is_digit d = true /\ problem_index = String c (String d NL))).
Proof.
  destruct problem_index as [|c rest]; [done|]. cbn [problem_index_ok].
  intros H. apply andb_true_iff in H as [Hc H]. exists c. split; [done|].
  destruct rest as [|d rest']; [by left|].
  apply orb_true_iff in H as [H|H].
  - apply andb_true_iff in H as [Hd H]. apply orb_true_iff in H as [H|H];
      apply String.eqb_eq in H; subst rest'.
    + right. left. by exists d.
    + right. right. right. by exists d.
  - apply orb_true_iff in H as [H|H]; apply String.eqb_eq in H; [done|].
    injection H as -> ->. right. right. by left.
Qed.

(** X20. The name that [generate] gives the file of a problem is read back
    by [submit] as the same contest and the same problem, for every contest
    number from 0 up and every problem index that passed the check of
    [generate], except an index that ends in a newline (which the check lets
    through, its dollar sign matching before a final newline). A negative
    contest number, which [generate] accepts, gives a name that [submit]
    does not recognise. *)
Theorem generated_filename_is_read_back (contest_id : Z) (problem_index : string) :
  problem_index_ok problem_index = true ->
  submit_target (output_filename contest_id problem_index)
  = if Z.leb 0 contest_id && negb (contains NL problem_index)
    then Some (contest_id, problem_index)
    else None.
Proof.
  intros Hok. unfold submit_target, filename_match, output_filename.
  rewrite prefix_app_self. change 7%nat with (String.length "Contest").
  rewrite str_drop_app.
  destruct (Z.leb_spec 0 contest_id) as [Hc|Hc].
  2: { destruct (str_of_Z_neg contest_id Hc) as [s ->].
       rewrite str_app_cons. cbn [take_digits andb].
       change (is_digit "-") with false. cbv iota. reflexivity. }
  destruct (str_of_Z_nonneg contest_id Hc) as (Hne & Hdig & Hint).
  change ("_" ++ problem_index ++ ".cpp")
    with (String "_" (problem_index ++ ".cpp")).
  rewrite (take_digits_app _ "_") by done.
  destruct (str_of_Z contest_id) as [|c0 digits] eqn:Es; [done|].
  assert (Hnl : forall x, is_upper x = true \/ is_digit x = true ->
                 Ascii.eqb (ascii_of_nat 10) x = false).
  { intros x Hx. apply Ascii.eqb_neq. intros <-. by destruct Hx. }
  assert (Hdot : forall x, is_digit x = true -> String.prefix ".cpp" (String x ".cpp") = false).
  { intros x Hx. cbn [String.prefix]. destruct (ascii_dec "." x) as [<-|]; done. }
  destruct (problem_index_ok_cases _ Hok)
    as (c & Hup & [->|[(d & Hd & ->)|[->|(d & Hd & ->)]]]);
    unfold NL; rewrite ?contains_char_cons, ?Hnl, ?Ascii.eqb_refl by auto;
    change (contains (String (ascii_of_nat 10) "") "") with false;
    rewrite !str_app_cons, str_app_nil_l; rewrite ?Ascii.eqb_refl, Hup, ?Hd;
    cbn [andb orb negb]; cbv iota.
  - change (is_digit ".") with false. cbn [andb]. cbv iota.
    change (String.prefix ".cpp" ".cpp") with true. cbv iota. by rewrite Hint.
  - change (String.prefix ".cpp" ".cpp") with true. cbv iota. by rewrite Hint.
  - change (is_digit (ascii_of_nat 10)) with false. cbn [andb]. cbv iota.
    reflexivity.
  - change (String.prefix ".cpp" (String (ascii_of_nat 10) ".cpp")) with false.
    cbv iota.
    replace (String.prefix ".cpp" (String d (String (ascii_of_nat 10) ".cpp")))
      with false; [done|].
    symmetry. cbn [String.prefix]. destruct (ascii_dec "." d) as [<-|]; done.
Qed.

(** ** What [call_api] can return *)

Lemma api_request_returns_ok (url : string) (p : nat) (key : string)
    (w : world) (o : option json) :
  fst (api_request url p key w) = Return o ->
  exists data, o = Some data /\ status_ok data.
Proof.
  unfold api_request, read_dict. rewrite bind_ret_l'.
  unfold bind at 1. rewrite session_send_run.
  destruct (net w (net_pos w)) as [e|r]; [done|].
  unfold bind at 1. rewrite raise_for_status_run.
  destruct (http_error r); [done|].
  unfold bind at 1, response_json.
  destruct (json_body r) as [e|data]; [done|]. unfold ret at 1.
  unfold bind at 1.
  destruct (json_get data "status" JNull _) as [[st|e|] w1] eqn:Eg; [|done|done].
  destruct (json_is_str st "OK") eqn:Eok.
  - pose proof (json_get_status_ok _ _ _ _ Eg Eok) as Hst.
    unfold bind at 1.
    destruct (_save_to_cache key data w1) as [[[]|e|] w2]; [|done|done].
    intros [= <-]. eauto.
  - unfold bind at 1.
    destruct (json_get data "comment" _ w1) as [[c|e|] w2]; done.
Qed.

Lemma call_api_except_returns (again : M (option json)) (e : exn) (w : world)
    (o : option json) :
  fst (call_api_except again e w) = Return o -> o = None.
Proof.
  unfold call_api_except. destruct (is_request_exception e).
  - unfold bind at 1. rewrite print_run. unfold bind.
    destruct (_retry_with_backoff again 3 1 _) as [[a|e'|] w']; [|done|done].
    by intros [= <-].
  - unfold bind. by rewrite print_run.
Qed.

(** X21. Over a cache directory whose readable files all hold documents with
    status OK (the only ones [call_api] ever writes), every document that
    [call_api] returns has status OK: an answer with any other status is
    raised, never returned. *)
Theorem call_api_returns_ok_documents (fuel : nat) (method : string)
    (params : option nat) (data : json) (w : world) :
  cache_ok (cache w) ->
  fst (call_api fuel method params w) = Return (Some data) ->
  status_ok data.
Proof.
  intros Hc. destruct fuel as [|fuel]; [done|].
  rewrite call_api_enter.
  destruct (enter_env params w) as (_ & _ & Ec0 & _).
  revert Ec0. generalize (snd (enter params w)) (fst (enter params w)).
  intros w0 p Ec0. rewrite <- Ec0 in Hc. clear Ec0 w params.
  rewrite call_api_unfold. cbv zeta.
  destruct (truthy_opt (cache_read _ w0)) eqn:Et.
  - cbn [fst]. unfold cache_read.
    destruct (cache w0 !! _) as [f|] eqn:Ef; [|done].
    destruct (Z.gtb _ _); [done|]. intros Hf. injection Hf as Hf.
    by apply (Hc _ f data Ef).
  - unfold try_catch.
    match goal with
    | |- context [api_request ?u ?p ?k ?w1] =>
        pose proof (api_request_returns_ok u p k w1) as Hreq;
        destruct (api_request u p k w1) as [[o|e|] w2]; cbn [fst] in *
    end.
    + intros [= ->]. destruct (Hreq _ eq_refl) as (data' & [= <-] & Hst). exact Hst.
    + intros H. by apply call_api_except_returns in H.
    + done.
Qed.

(** ** The request that a signing session sends *)

Lemma log_extends_call_api (L : list event) (method : string) (p : nat)
    (fuel : nat) :
  preserves (log_extends L) (call_api fuel method (Some p)).
Proof.
  apply call_api_preserves.
  - intros e w [evs H]. exists (e :: evs). cbn. by rewrite H.
  - intros t w [evs H]. by exists evs.
  - intros n w [evs H]. by exists evs.
  - intros c w [evs H]. by exists evs.
  - intros w [evs H].
    destruct (authenticate_params_frame method p w) as (El & _).
    cbv zeta in El.
    change (log_extends L (snd (authenticate_params method p w))).
    exists evs. by rewrite El.
Qed.

(** The first request of a call that the cache does not answer. *)
Lemma call_api_first_request (fuel : nat) (method : string) (p : nat) (w : world) :
  let key := cache_key_of w method (heap w !!! p) in
  let w2 := snd (authenticate_params method p
                   (emit (EvCacheGet key (cache_read key w)) w)) in
  truthy_opt (cache_read key w) = false ->
  log_extends (EvNet (Request GET (urljoin CF_API_BASE method) (heap w2 !!! p))
                     (net w (net_pos w))
               :: EvCacheGet key (cache_read key w) :: log w)
              (snd (call_api (S fuel) method (Some p) w)).
Proof.
  cbv zeta. intros Hmiss. rewrite call_api_unfold. cbv zeta. rewrite Hmiss.
  set (key := cache_key_of w method (heap w !!! p)).
  set (w1 := emit (EvCacheGet key (cache_read key w)) w).
  destruct (authenticate_params_frame method p w1) as (El & _ & En & Ep & _).
  cbv zeta in El, En, Ep.
  set (w2 := snd (authenticate_params method p w1)) in *.
  set (L := EvNet _ _ :: _).
  apply (hoare_try_catch (fun w3 => w3 = w2) _ _
           (fun _ w3 => log_extends L w3) (fun _ w3 => log_extends L w3));
    [| |done|done|done].
  - apply hoare_api_request.
    + intros e w3 [evs H]. exists (e :: evs). cbn. by rewrite H.
    + intros c w3 [evs H]. by exists evs.
    + intros w3 ->. exists []. subst L. cbn. by rewrite En, Ep, El.
  - intros e. apply preserves_call_api_except.
    + intros e' w3 [evs H]. exists (e' :: evs). cbn. by rewrite H.
    + intros t w3 [evs H]. by exists evs.
    + apply log_extends_call_api.
Qed.

Lemma dict_update_fresh_key {V} (k : string) (d src : pydict V) :
  dict_has k d = false -> dict_has k src = false ->
  dict_has k (dict_update d src) = false.
Proof.
  unfold dict_update. revert d.
  induction src as [|[k' v'] src IH]; intros d Hd Hs; [done|].
  cbn [fold_left fst snd]. unfold dict_has in Hs. cbn [dict_get] in Hs.
  destruct (String.eqb k k') eqn:Ek; [done|].
  apply IH; [|done]. by rewrite dict_has_set, Ek, Hd.
Qed.

Lemma dict_has_app {V} (k : string) (d1 d2 : pydict V) :
  dict_has k (d1 ++ d2)%list = dict_has k d1 || dict_has k d2.
Proof.
  unfold dict_has. induction d1 as [|[k' v'] d1 IH]; cbn [app dict_get]; [done|].
  by destruct (String.eqb k k').
Qed.

Lemma dict_set_fresh {V} (k : string) (v : V) (d : pydict V) :
  dict_has k d = false -> dict_set k v d = (d ++ [(k, v)])%list.
Proof.
  unfold dict_has. induction d as [|[k' v'] d IH]; cbn [dict_set dict_get app]; [done|].
  destruct (String.eqb k k'); [done|]. intros H. by rewrite IH.
Qed.

(** X22. The request that an authenticated session sends for a method other
    than "user.info", on a dict of the caller that holds none of the four
    authentication keys: the caller's entries unchanged, then [apiKey] (the
    key of the session), [time] (the clock in whole seconds), [rand] (six
    lowercase letters or digits) and last [apiSig], the signature of exactly
    the other entries sent. *)
Theorem call_api_signed_request (fuel : nat) (method : string) (p : nat) (w : world) :
  let key := cache_key_of w method (heap w !!! p) in
  let d := heap w !!! p in
  signs (sess w) method = true ->
  truthy_opt (cache_read key w) = false ->
  Forall (fun k => dict_has k d = false) auth_keys ->
  exists rand evs,
    let unsigned :=
      (d ++ [ ("apiKey", opt_pval (api_key (sess w)));
              ("time", PStr (str_of_Z (Z.quot (now w) 1000000)));
              ("rand", PStr rand) ])%list in
    let sent :=
      (unsigned ++ [("apiSig", PStr (api_sig method unsigned (api_secret (sess w))))])%list in
    log (snd (call_api (S fuel) method (Some p) w))
    = (evs ++ EvNet (Request GET (urljoin CF_API_BASE method) sent) (net w (net_pos w))
           :: EvCacheGet key (cache_read key w) :: log w)%list
    /\ String.length rand = 6%nat
    /\ Forall (fun c => lower_alnum c = true) (list_ascii_of_string rand).
Proof.
  cbv zeta. intros Hs Hmiss Hfresh.
  pose proof (call_api_first_request fuel method p w Hmiss) as [evs Hlog].
  cbv zeta in Hlog.
  set (key := cache_key_of w method (heap w !!! p)) in *.
  set (w1 := emit (EvCacheGet key (cache_read key w)) w) in *.
  assert (Hrun : exists rand,
            String.length rand = 6%nat
            /\ Forall (fun c => lower_alnum c = true) (list_ascii_of_string rand)
            /\ heap (snd (authenticate_params method p w1)) !!! p
               = let d' := dict_update (heap w !!! p)
                             [ ("apiKey", opt_pval (api_key (sess w)));
                               ("time", PStr (str_of_Z (Z.quot (now w) 1000000)));
                               ("rand", PStr rand) ] in
                 dict_set "apiSig" (PStr (api_sig method d' (api_secret (sess w)))) d').
  { unfold authenticate_params, bind, get_session. fold (signs (sess w1) method).
    change (sess w1) with (sess w). rewrite Hs.
    pose proof Hs as Ha. unfold signs in Ha. apply andb_true_iff in Ha as [Ha _].
    rewrite api_auth_params_run. change (sess w1) with (sess w). rewrite Ha.
    destruct (random_string_spec 6 w1) as (r & -> & Hlen & Hall).
    exists r. split; [done|]. split; [done|].
    cbn. rewrite lookup_total_insert_eq. by rewrite lookup_total_insert_eq. }
  destruct Hrun as (rand & Hlen & Hall & Hheap).
  exists rand, evs. split; [|done].
  rewrite Hlog, Hheap. cbv zeta. do 4 f_equal.
  rewrite Forall_forall in Hfresh.
  assert (Hk : forall k, In k auth_keys -> dict_has k (heap w !!! p) = false).
  { intros k Hin. apply Hfresh. by apply list_elem_of_In. }
  assert (Hupd : dict_update (heap w !!! p)
                   [ ("apiKey", opt_pval (api_key (sess w)));
                     ("time", PStr (str_of_Z (Z.quot (now w) 1000000)));
                     ("rand", PStr rand) ]
                 = (heap w !!! p
                      ++ [ ("apiKey", opt_pval (api_key (sess w)));
                           ("time", PStr (str_of_Z (Z.quot (now w) 1000000)));
                           ("rand", PStr rand) ])%list).
  { unfold dict_update. cbn [fold_left fst snd].
    rewrite (dict_set_fresh "apiKey") by (apply Hk; cbn; tauto).
    rewrite (dict_set_fresh "time")
      by (rewrite dict_has_app, Hk by (cbn; tauto); reflexivity).
    rewrite (dict_set_fresh "rand")
      by (rewrite !dict_has_app, Hk by (cbn; tauto); reflexivity).
    by rewrite <- !app_assoc. }
  rewrite dict_set_fresh
    by (apply dict_update_fresh_key; [apply Hk; cbn; tauto|reflexivity]).
  by rewrite Hupd.
Qed.

(** ** The signature of a retried request *)

(** The dict at [p] after [authenticate_params], for a session that signs:
    the signature is computed over the dict as it stands after the update,
    whatever it held before. *)
Lemma authenticate_params_signed (method : string) (p : nat) (w : world) :
  signs (sess w) method = true ->
  exists covered,
    heap (snd (authenticate_params method p w)) !!! p
    = dict_set "apiSig" (PStr (api_sig method covered (api_secret (sess w)))) covered
    /\ dict_get "apiSig" covered = dict_get "apiSig" (heap w !!! p).
Proof.
  intros Hs. destruct (authenticate_params_run method p w) as (rand & ->).
  rewrite Hs. cbn [snd heap set_heap]. rewrite lookup_total_insert_eq.
  eexists. split; [reflexivity|].
  unfold dict_update. cbn [fold_left fst snd].
  by rewrite !dict_get_set_ne.
Qed.

(** X23. When a signing session's first request fails in transport, the
    retried request is signed again over the same dict, which by then holds
    the signature of the first request: the hash of the second [apiSig]
    covers a parameter list in which [apiSig] is the first signature. *)
Theorem call_api_retry_signs_over_old_signature (fuel : nat) (method : string)
    (p : nat) (m : string) (w : world) :
  signs (sess w) method = true ->
  cache w = ∅ ->
  transport_error (net w (net_pos w)) = Some m ->
  exists first second covered stale evs mid,
    log (snd (call_api (S (S fuel)) method (Some p) w))
    = (evs ++ EvNet (Request GET (urljoin CF_API_BASE method) second)
                    (net w (S (net_pos w)))
           :: mid ++ EvNet (Request GET (urljoin CF_API_BASE method) first)
                           (net w (net_pos w))
           :: EvCacheGet (cache_key_of w method (heap w !!! p)) None :: log w)%list
    /\ dict_get "apiSig" first = Some (PStr stale)
    /\ dict_get "apiSig" covered = Some (PStr stale)
    /\ dict_get "apiSig" second
       = Some (PStr (api_sig method covered (api_secret (sess w)))).
Proof.
  intros Hs Hc Herr.
  assert (Hmiss : forall w', cache w' = ∅ -> forall k, cache_read k w' = None).
  { intros w' Hw' k. unfold cache_read. by rewrite Hw', lookup_empty. }
  rewrite (call_api_transport_error_step _ _ _ m)
    by (rewrite ?Hmiss by done; done).
  rewrite call_api_except_result, retry_first_attempt.
  (* the state after the failed request *)
  rewrite failed_request_unfold. cbv zeta. rewrite (Hmiss w Hc).
  set (key := cache_key_of w method (heap w !!! p)).
  set (w1 := emit (EvCacheGet key None) w).
  destruct (authenticate_params_frame method p w1)
    as (El2 & Ec2 & En2 & Ep2 & _ & Es2 & _).
  destruct (authenticate_params_signed method p w1 Hs) as (covered1 & Eh2 & _).
  cbv zeta in El2, Ec2, En2, Ep2, Es2.
  set (w2 := snd (authenticate_params method p w1)) in *.
  set (first := heap w2 !!! p) in *.
  set (w3 := sent (Request GET (urljoin CF_API_BASE method) first) w2).
  match goal with
  | |- context [before_first_retry ?w4] => set (w5 := before_first_retry w4)
  end.
  assert (E5 : cache w5 = ∅ /\ net w5 = net w /\ net_pos w5 = S (net_pos w)
               /\ sess w5 = sess w /\ heap w5 !!! p = first
               /\ exists mid, log w5
                    = (mid ++ EvNet (Request GET (urljoin CF_API_BASE method) first)
                                    (net w (net_pos w))
                           :: EvCacheGet key None :: log w)%list).
  { subst w5 w3. unfold before_first_retry, sent.
    cbn [snd print stdout_write modify sleep cache net net_pos sess heap log emit
         set_now set_net_pos].
    rewrite Ec2, En2, Ep2, Es2, El2. repeat split; try done.
    eexists [_; _; _]. reflexivity. }
  destruct E5 as (Ec5 & En5 & Ep5 & Es5 & Eh5 & mid & El5).
  (* the retried call *)
  pose proof (call_api_first_request fuel method p w5) as Hfirst.
  cbv zeta in Hfirst. rewrite (Hmiss w5 Ec5) in Hfirst. specialize (Hfirst eq_refl).
  set (key5 := cache_key_of w5 method (heap w5 !!! p)) in *.
  set (w6 := emit (EvCacheGet key5 None) w5) in *.
  destruct (authenticate_params_signed method p w6) as (covered & Eh7 & Ecov).
  { change (sess w6) with (sess w5). by rewrite Es5. }
  change (sess w6) with (sess w5) in Eh7. rewrite Es5 in Eh7.
  change (heap w6) with (heap w5) in Ecov. rewrite Eh5 in Ecov.
  set (second := heap (snd (authenticate_params method p w6)) !!! p) in *.
  rewrite En5, Ep5 in Hfirst.
  set (L := EvNet (Request GET (urljoin CF_API_BASE method) second)
                  (net w (S (net_pos w)))
            :: EvCacheGet key5 None :: log w5) in *.
  match goal with
  | |- context [log (snd ?X)] => assert (Hfinal : log_extends L (snd X))
  end.
  { destruct (call_api (S fuel) method (Some p) w5) as [[a|e|] w7]; cbn [snd] in *;
      try done.
    pose proof (preserves_retry_loop (log_extends L)
                  (call_api (S fuel) method (Some p)) 3 1 [1; 2]) as Hloop.
    assert (Hl : log_extends L
                   (snd (retry_loop (call_api (S fuel) method (Some p)) 3 1 [1; 2] w7))).
    { apply Hloop; try done.
      - intros s w' [evs H]. exists (EvOut (s ++ NL) :: evs). cbn. by rewrite H.
      - intros d w' [evs H]. exists (EvSleep d :: evs). cbn. by rewrite H.
      - apply log_extends_call_api. }
    by destruct (retry_loop _ 3 1 [1; 2] w7) as [[a|e'|] w8]. }
  destruct Hfinal as [evs Hlog].
  assert (Hstale : exists stale, dict_get "apiSig" first = Some (PStr stale)).
  { subst first. rewrite Eh2, dict_get_set_eq. by eexists. }
  destruct Hstale as [stale Hstale].
  exists first, second, covered, stale, evs, (EvCacheGet key5 None :: mid).
  split; [|split; [|split]].
  - rewrite Hlog. subst L. by rewrite El5.
  - exact Hstale.
  - by rewrite Ecov.
  - subst second. by rewrite Eh7, dict_get_set_eq.
Qed.

(** ** After the web login, submit *)

(** X24. A submission that follows a successful [web_login] fetches no token
    of its own: the session holds the token of the login, and [submit] sends
    one request, the POST, with that token in its form. *)
Theorem submit_after_web_login (contest_id : Z) (problem_index source_code : string)
    (w : world) :
  fst (web_login w) = Return true ->
  let w1 := snd (web_login w) in
  exists tok evs,
    csrf_token (sess w1) = Some tok /\ tok <> ""
    /\ log (snd (submit_source contest_id problem_index source_code w1))
       = (evs ++ log w1)%list
    /\ requests evs
       = [Request POST (submit_url contest_id)
            (submit_data (Some tok) problem_index source_code)].
Proof.
  intros Hok. cbv zeta.
  destruct (web_login_success w Hok) as (_ & _ & Htok).
  destruct Htok as (tok & Htok & Hne).
  generalize dependent (snd (web_login w)). intros w1 Htok.
  rewrite submit_source_run. cbv zeta. rewrite submit_url_eq.
  assert (Ht : truthy_str (csrf_token (sess w1)) = true).
  { rewrite Htok. cbn. apply String.eqb_neq in Hne. by rewrite Hne. }
  rewrite Ht.
  match goal with
  | |- context [try_catch (submit_form ?u contest_id problem_index ?d)] =>
      destruct (submit_form_log u contest_id problem_index d w1)
        as (pre & El & Hpre & _)
  end.
  cbv zeta in El. rewrite El.
  exists tok. eexists (pre ++ [_; _])%list.
  split; [done|]. split; [done|]. split; [by rewrite <- app_assoc|].
  rewrite requests_app, (requests_outs pre Hpre), Htok. reflexivity.
Qed.

(** ** The request of login *)

(** X25. The request by which [login] checks the credentials carries the
    handle and nothing else: no [apiKey], no [apiSig], whatever the key and
    the secret. *)
Theorem login_request_is_unsigned (fuel : nat) (h key secret : string) (w : world) :
  let cache_key := cache_key_of w "user.info" [("handles", PStr h)] in
  truthy_opt (cache_read cache_key w) = false ->
  exists evs,
    log (snd (login (S fuel) h key secret w))
    = (evs ++ EvNet (Request GET "https://codeforces.com/api/user.info"
                       [("handles", PStr h)])
                    (net w (net_pos w))
           :: EvCacheGet cache_key (cache_read cache_key w) :: log w)%list.
Proof.
  cbv zeta. intros Hmiss.
  destruct (login_start_env h key secret w) as (Eh & Ec & En & Ep & Et & Ey & _).
  pose proof (call_api_first_request fuel "user.info" (login_params w)
                (login_start h key secret w)) as Hfirst.
  cbv zeta in Hfirst. rewrite authenticate_params_user_info in Hfirst.
  cbn [snd heap emit] in Hfirst.
  unfold cache_key_of, cache_read in Hfirst, Hmiss.
  rewrite Eh, Ey, Ec, Et, En, Ep in Hfirst. specialize (Hfirst Hmiss).
  destruct Hfirst as [evs Hlog].
  assert (El0 : log (login_start h key secret w) = log w) by reflexivity.
  rewrite El0 in Hlog.
  rewrite login_run.
  destruct (call_api (S fuel) "user.info" _ _) as [[response|e|] w'];
    cbn [snd] in Hlog.
  - destruct response as [[|b|n|s|l|d]|]; cbn [truthy];
      repeat match goal with |- context [if ?c then _ else _] => destruct c end;
      eexists (_ :: evs); cbn [snd log emit app]; by rewrite Hlog.
  - eexists (_ :: evs). cbn [snd log emit app]. by rewrite Hlog.
  - exists evs. exact Hlog.
Qed.

(** ** The request of a session that does not sign *)

(** X26. For a session that is not authenticated, and for the method
    "user.info" in any session, the request that [call_api] sends when the
    cache does not answer carries the entries of the caller's dict and
    nothing else, and the dict is left as it was, however the call ends. *)
Theorem call_api_unsigned_request (fuel : nat) (method : string) (p : nat) (w : world) :
  let key := cache_key_of w method (heap w !!! p) in
  let w' := snd (call_api (S fuel) method (Some p) w) in
  signs (sess w) method = false ->
  truthy_opt (cache_read key w) = false ->
  (exists evs,
     log w' = (evs ++ EvNet (Request GET (urljoin CF_API_BASE method) (heap w !!! p))
                            (net w (net_pos w))
                   :: EvCacheGet key (cache_read key w) :: log w)%list)
  /\ heap w' = heap w.
Proof.
  cbv zeta. intros Hs Hmiss. split.
  - pose proof (call_api_first_request fuel method p w Hmiss) as Hfirst.
    cbv zeta in Hfirst.
    destruct (authenticate_params_run method p
                (emit (EvCacheGet (cache_key_of w method (heap w !!! p))
                         (cache_read (cache_key_of w method (heap w !!! p)) w)) w))
      as (rand & E).
    rewrite E in Hfirst. change (sess (emit _ w)) with (sess w) in Hfirst.
    rewrite Hs in Hfirst. exact Hfirst.
  - apply (call_api_unsigned method p (heap w) (S fuel) w). by split.
Qed.

(** * Concrete runs *)

Lemma call_api_failing_transport_unbounded_witness :
  fst (call_api 7 "contest.list" None (world0 anonymous down ∅)) = Diverge
  /\ net_pos (snd (call_api 7 "contest.list" None (world0 anonymous down ∅))) = 7%nat
  /\ sleeps (log (snd (call_api 7 "contest.list" None (world0 anonymous down ∅))))
     = [1; 1; 1; 1; 1; 1; 1].
Proof.
  apply (call_api_failing_transport_unbounded "contest.list" None
           (world0 anonymous down ∅)).
  - reflexivity.
  - intros i. simpl. discriminate.
Defined.

Lemma sign_request_deterministic_witness :
  dict_get "apiSig"
    (heap (snd (sign_request "m" 0 (world0 alice down {[0%nat := two_params_swapped]}))) !!! 0%nat)
  = dict_get "apiSig"
      (heap (snd (sign_request "m" 0 (world0 alice down {[0%nat := two_params]}))) !!! 0%nat).
Proof.
  apply (sign_request_deterministic "m" 0 0
           (world0 alice down {[0%nat := two_params]})
           (world0 alice down {[0%nat := two_params_swapped]})).
  - reflexivity.
  - vm_compute. apply NoDup_cons. split; [|apply NoDup_singleton].
    intros H. apply list_elem_of_In in H. destruct H as [H|[]]. discriminate.
  - vm_compute. apply perm_swap.
Defined.

Lemma cache_ttl_witness :
  let w := world0 anonymous down ∅ in
  let w1 := snd (_save_to_cache "contest.list_0" ok_doc w) in
  fst (_get_from_cache "contest.list_0" (set_now (now w + 299 * 1000000) w1))
  = Return (Some ok_doc)
  /\ fst (_get_from_cache "contest.list_0" (set_now (now w + 301 * 1000000) w1))
     = Return None.
Proof.
  cbv zeta.
  destruct (cache_ttl "contest.list_0" ok_doc (world0 anonymous down ∅)
              (snd (_save_to_cache "contest.list_0" ok_doc (world0 anonymous down ∅)))
              eq_refl eq_refl) as [H _].
  split.
  - apply (H (set_now _ _)); [reflexivity|]. simpl. lia.
  - apply (H (set_now _ _)); [reflexivity|]. simpl. lia.
Defined.

Lemma call_api_cache_discipline_witness :
  let w := world0 alice (down_then ok_doc) {[0%nat := []]} in
  log_ok (log (snd (call_api 3 "contest.list" (Some 0%nat) w)))
  /\ cache_ok (cache (snd (call_api 3 "contest.list" (Some 0%nat) w))).
Proof.
  cbv zeta. apply call_api_cache_discipline.
  - exact I.
  - intros k f data H. simpl in H. rewrite lookup_empty in H. discriminate.
Defined.

Lemma submit_duplicate_is_warning_witness :
  let res := submit_source 1 "A" "int main(){}" duplicate_world in
  let evs := [ EvOut duplicate_warning_line;
               EvNet duplicate_post (NetResponse duplicate_page);
               EvOut (submitting_line 1 "A") ] in
  fst res = Return tt
  /\ (exists pre, evs = EvOut duplicate_warning_line
                        :: EvNet duplicate_post (NetResponse duplicate_page) :: pre)
  /\ (forall s, In (EvOut s) evs ->
        s = duplicate_warning_line \/ s = submitting_line 1 "A"
        \/ s = getting_token_line)
  /\ ~ In (EvOut submission_failed_line) evs.
Proof.
  cbv zeta.
  apply (submit_duplicate_is_warning 1 "A" "int main(){}" duplicate_world).
  - vm_compute. reflexivity.
  - right. left. reflexivity.
  - reflexivity.
  - vm_compute. reflexivity.
Defined.

Lemma call_api_transport_error_result_witness :
  let w := world0 anonymous (down_then ok_doc) {[0%nat := []]} in
  (forall j, fst (call_api 2 "contest.list" (Some 0%nat) w) <> Return (Some j))
  /\ fst (call_api 2 "contest.list" (Some 0%nat) w) = Return None
  /\ sleeps (log (snd (call_api 2 "contest.list" (Some 0%nat) w))) = [1].
Proof.
  cbv zeta.
  destruct (call_api_transport_error_result 1 "contest.list" (Some 0%nat) "down"
              (world0 anonymous (down_then ok_doc) {[0%nat := []]}))
    as (Hnever & Hfirst & _).
  - vm_compute. reflexivity.
  - reflexivity.
  - cbv zeta in Hnever, Hfirst. split; [exact Hnever|].
    erewrite Hfirst by (vm_compute; reflexivity).
    split; vm_compute; reflexivity.
Defined.

(** C9, the claim as stated fails: the first request raises a transport
    error, each of the three retried calls is answered with status FAILED,
    and [call_api] does not return [None]: it raises the API error of the
    third retry, after sleeps of 1, 2 and 4 seconds and four requests. *)
Lemma call_api_transport_error_may_raise :
  let w := world0 anonymous (down_then failed_doc) {[0%nat := []]} in
  transport_error (net w (net_pos w)) = Some "down"
  /\ fst (call_api 5 "contest.list" (Some 0%nat) w)
     = Raise (PyException "API Error: x")
  /\ fst (call_api 5 "contest.list" (Some 0%nat) w) <> Return None
  /\ net_pos (snd (call_api 5 "contest.list" (Some 0%nat) w)) = 4%nat
  /\ sleeps (log (snd (call_api 5 "contest.list" (Some 0%nat) w))) = [4; 2; 1].
Proof.
  cbv zeta. repeat split; try (vm_compute; reflexivity).
  vm_compute. discriminate.
Qed.

(** C10, the claim as stated fails: the session is authenticated, the method
    is not "user.info", and the caller's dict is left as it was, without any
    of the four keys, because a fresh cache entry answers the call before any
    parameter is added and before any dispatch. *)
Lemma call_api_cache_hit_leaves_params :
  is_authenticated (sess cached_world) = true
  /\ String.eqb "contest.standings" "user.info" = false
  /\ fst (call_api 5 "contest.standings" (Some 0%nat) cached_world)
     = Return (Some ok_doc)
  /\ heap (snd (call_api 5 "contest.standings" (Some 0%nat) cached_world)) !!! 0%nat
     = [("contestId", PInt 1)]
  /\ forallb (fun k => negb (dict_has k
        (heap (snd (call_api 5 "contest.standings" (Some 0%nat) cached_world)) !!! 0%nat)))
       auth_keys = true
  /\ net_pos (snd (call_api 5 "contest.standings" (Some 0%nat) cached_world)) = 0%nat.
Proof. repeat split; vm_compute; reflexivity. Qed.

(** C2, the claim as stated fails on the first answer of the source:
    - a final verdict whose document carries [passedTestCount] and
      [testCount] but no [testset] is reported without the counts;
    - a final verdict whose document has no [memoryConsumedBytes] is not
      reported at all: the division of the default "N/A" by 1024 raises
      before the verdict is printed, and only the error line comes out. *)
Lemma status_poller_omits_available_fields :
  let w1 := world0 anonymous (fun _ => answer 200 (JDict counts_doc)) ∅ in
  let w2 := world0 anonymous (fun _ => answer 200 (JDict no_memory_doc)) ∅ in
  (dict_get "passedTestCount" counts_doc = Some (JInt 3)
   /\ dict_get "testCount" counts_doc = Some (JInt 3)
   /\ existsb (contains "Verdict: OK") (printed "42" w1) = true
   /\ existsb (contains "Tests:") (printed "42" w1) = false)
  /\ (existsb (contains "Verdict: OK") (printed "42" w2) = false
      /\ existsb (contains "Error checking status: unsupported operand type(s) for //")
           (printed "42" w2) = true
      /\ net_pos (snd (status_submission "42" w2)) = 1%nat).
Proof. cbv zeta. repeat split; vm_compute; reflexivity. Qed.

Lemma status_poller_witness :
  let stuck := status_submission "42" (world0 anonymous (fun _ => answer 200 testing_doc) ∅) in
  let third := status_submission "42" (world0 anonymous accepted_third ∅) in
  (net_pos (snd stuck) = 10%nat
   /\ sleeps (log (snd stuck)) = repeat 2 10
   /\ exists pre, outs (log (snd stuck)) = max_polling_line :: pre)
  /\ (net_pos (snd third) = 3%nat
      /\ sleeps (log (snd third)) = [2; 2]
      /\ exists pre,
           outs (log (snd third))
           = (rev (report_lines (world0 anonymous accepted_third ∅)
                     accepted_doc "OK" 2048) ++ pre)%list).
Proof.
  cbv zeta. split.
  - destruct (status_poller "42" (world0 anonymous (fun _ => answer 200 testing_doc) ∅))
      as (_ & Hq & _).
    apply Hq. intros i Hi. reflexivity.
  - destruct (status_poller "42" (world0 anonymous accepted_third ∅)) as (_ & _ & Hf).
    apply (Hf 2%nat accepted_page accepted_doc "OK" 2048); try reflexivity;
      try discriminate; try lia.
    intros i Hi. destruct i as [|[|i]]; [reflexivity|reflexivity|lia].
Defined.

Lemma api_auth_params_spec_witness :
  exists key rand w',
    api_key alice = Some key
    /\ api_auth_params (world0 alice down ∅)
       = (Return [ ("apiKey", PStr key); ("time", PStr "1700000000");
                   ("rand", PStr rand) ], w')
    /\ String.length rand = 6%nat
    /\ Forall (fun c => lower_alnum c = true) (list_ascii_of_string rand).
Proof.
  apply (proj2 (api_auth_params_spec (world0 alice down ∅))).
  exists "alice", "k", "s". repeat split; discriminate.
Defined.

Lemma call_api_params_effect_witness :
  let w' := snd (call_api 1 "contest.standings" (Some 0%nat) standings_world) in
  Forall (fun k => dict_has k (heap w' !!! 0%nat) = true) auth_keys
  /\ dict_get "contestId" (heap w' !!! 0%nat) = Some (PInt 1).
Proof.
  cbv zeta.
  destruct (call_api_params_effect 0 "contest.standings" 0 standings_world)
    as (Hs & _ & _).
  destruct Hs as (_ & Hkeys & _ & Hget).
  { split; vm_compute; reflexivity. }
  split; [exact Hkeys|].
  rewrite Hget; [reflexivity|].
  unfold auth_keys. simpl. intros [H|[H|[H|[H|[]]]]]; discriminate.
Defined.

Lemma retry_with_backoff_returns_first_answer_witness :
  let res := _retry_with_backoff (session_send plain_get) 3 1
               (world0 anonymous down_twice ∅) in
  fst res = Return (Some pong)
  /\ net_pos (snd res) = 3%nat
  /\ sleeps (log (snd res)) = [4; 2; 1]
  /\ now (snd res) = 1700000000000000 + 7 * 1000000.
Proof.
  cbv zeta.
  apply (retry_with_backoff_returns_first_answer plain_get 3 2 1
           (fun _ => RequestException "down") pong (world0 anonymous down_twice ∅)).
  - lia.
  - lia.
  - intros i Hi. destruct i as [|[|i]]; [reflexivity|reflexivity|lia].
  - reflexivity.
Defined.

Lemma retry_with_backoff_gives_up_witness :
  let res := _retry_with_backoff (session_send plain_get) 3 1
               (world0 anonymous down ∅) in
  fst res = Raise (RequestException "down")
  /\ net_pos (snd res) = 3%nat
  /\ sleeps (log (snd res)) = [4; 2; 1]
  /\ (exists pre, log (snd res) = EvOut giving_up_line :: pre).
Proof.
  cbv zeta.
  apply (retry_with_backoff_gives_up plain_get 2 1
           (fun _ => RequestException "down") (world0 anonymous down ∅)).
  - lia.
  - intros i Hi. reflexivity.
Defined.

Lemma call_api_signed_request_witness :
  exists rand evs,
    log (snd (call_api 1 "contest.standings" (Some 0%nat) standings_world))
    = (evs
       ++ EvNet (Request GET "https://codeforces.com/api/contest.standings"
                   (let unsigned :=
                      [ ("contestId", PInt 1); ("apiKey", PStr "k");
                        ("time", PStr "1700000000"); ("rand", PStr rand) ] in
                    unsigned ++ [("apiSig", PStr (api_sig "contest.standings" unsigned
                                                    (Some "s")))])%list)
                (answer 200 ok_doc)
       :: EvCacheGet "contest.standings_0" None :: [])%list
    /\ String.length rand = 6%nat
    /\ Forall (fun c => lower_alnum c = true) (list_ascii_of_string rand).
Proof.
  destruct (call_api_signed_request 0 "contest.standings" 0 standings_world)
    as (rand & evs & H).
  - reflexivity.
  - reflexivity.
  - repeat constructor.
  - exists rand, evs. exact H.
Defined.

Lemma call_api_retry_signs_over_old_signature_witness :
  exists first second covered stale,
    In (EvNet (Request GET "https://codeforces.com/api/contest.list" second)
          (NetRaises (RequestException "down")))
       (log (snd (call_api 2 "contest.list" (Some 0%nat) (empty_params_world alice down))))
    /\ dict_get "apiSig" first = Some (PStr stale)
    /\ dict_get "apiSig" covered = Some (PStr stale)
    /\ dict_get "apiSig" second = Some (PStr (api_sig "contest.list" covered (Some "s"))).
Proof.
  destruct (call_api_retry_signs_over_old_signature 0 "contest.list" 0 "down"
              (empty_params_world alice down))
    as (first & second & covered & stale & evs & mid & Hlog & H).
  - reflexivity.
  - reflexivity.
  - reflexivity.
  - exists first, second, covered, stale. split; [|exact H].
    rewrite Hlog. apply in_or_app. right. left. reflexivity.
Defined.

Lemma call_api_api_error_not_retried_witness :
  let res := call_api 1 "contest.list" (Some 0%nat)
               (empty_params_world anonymous (fun _ => answer 200 failed_doc)) in
  fst res = Raise (PyException "API Error: x")
  /\ net_pos (snd res) = 1%nat
  /\ sleeps (log (snd res)) = []
  /\ cache (snd res) = ∅.
Proof.
  cbv zeta.
  destruct (call_api_api_error_not_retried 0 "contest.list" 0
              (Response 200 "" "" "" (inr failed_doc))
              [("status", JStr "FAILED"); ("comment", JStr "x")]
              (empty_params_world anonymous (fun _ => answer 200 failed_doc)))
    as (H1 & H2 & H3 & H4 & _).
  - reflexivity.
  - reflexivity.
  - left. cbn. lia.
  - reflexivity.
  - discriminate.
  - repeat split; assumption.
Defined.

Lemma call_api_returns_ok_documents_witness : status_ok ok_doc.
Proof.
  apply (call_api_returns_ok_documents 1 "contest.list" (Some 0%nat) ok_doc
           (empty_params_world anonymous (fun _ => answer 200 ok_doc))).
  - intros k f data H. cbn in H. rewrite lookup_empty in H. discriminate.
  - vm_compute. reflexivity.
Defined.

Lemma call_api_answer_is_reused_witness :
  let w0 := world0 anonymous (fun _ => answer 200 ok_doc)
              {[ 0%nat := []; 1%nat := [] ]} in
  let w1 := snd (call_api 1 "contest.list" (Some 0%nat) w0) in
  let w2 := set_now (now w0 + 300 * 1000000) w1 in
  fst (call_api 1 "contest.list" (Some 1%nat) w2) = Return (Some ok_doc)
  /\ net_pos (snd (call_api 1 "contest.list" (Some 1%nat) w2)) = net_pos w2
  /\ heap (snd (call_api 1 "contest.list" (Some 1%nat) w2)) = heap w2.
Proof.
  cbv zeta.
  destruct (call_api_answer_is_reused 0 0 "contest.list" 0 ok_doc
              (world0 anonymous (fun _ => answer 200 ok_doc)
                      {[ 0%nat := []; 1%nat := [] ]}))
    as [_ H].
  - reflexivity.
  - reflexivity.
  - reflexivity.
  - apply H.
    + reflexivity.
    + vm_compute. reflexivity.
    + cbn. lia.
Defined.

Lemma cache_lookup_reads_only_witness :
  let w := world0 anonymous down ∅ in
  let w1 := snd (_save_to_cache "contest.list_0" ok_doc w) in
  fst (_get_from_cache "contest.list_0" (set_now (now w + 300 * 1000000) w1))
  = Return (Some ok_doc)
  /\ fst (_get_from_cache "contest.list_0" (set_now (now w + 300 * 1000000 + 1) w1))
     = Return None.
Proof.
  cbv zeta.
  destruct (cache_lookup_reads_only "contest.list_0" ok_doc
              (world0 anonymous down ∅)
              (snd (_save_to_cache "contest.list_0" ok_doc (world0 anonymous down ∅))))
    as (_ & Hedge & _).
  - reflexivity.
  - reflexivity.
  - split; [|vm_compute; reflexivity].
    apply Hedge; [reflexivity|]. cbn. lia.
Defined.

Lemma web_login_post_answer_witness :
  let res := web_login (world0 alice_handle_only login_then_error ∅) in
  fst res = Return true
  /\ logged_in (sess (snd res)) = true
  /\ csrf_token (sess (snd res)) = Some "abc".
Proof.
  cbv zeta.
  apply (web_login_post_answer (world0 alice_handle_only login_then_error ∅)
           home_page error_page "abc").
  - reflexivity.
  - reflexivity.
  - reflexivity.
  - vm_compute. reflexivity.
  - reflexivity.
Defined.

Lemma web_login_outcome_witness :
  let res := web_login (world0 anonymous down ∅) in
  fst res = Return false /\ net_pos (snd res) = 0%nat.
Proof.
  cbv zeta.
  destruct (web_login_outcome (world0 anonymous down ∅)) as (_ & _ & _ & _ & H & _).
  apply H. reflexivity.
Defined.

Lemma login_outcome_witness :
  let w := world0 anonymous (fun _ => answer 200 failed_doc) ∅ in
  is_authenticated (sess (snd (login 1 "alice" "wrong" "wrong" w))) = true
  /\ fst (login 1 "alice" "wrong" "wrong" w) = Return false
  /\ exists pre,
       log (snd (login 1 "alice" "wrong" "wrong" w))
       = EvOut (login_error_line (PyException "API Error: x")) :: pre.
Proof.
  cbv zeta.
  destruct (login_outcome 1 "alice" "wrong" "wrong"
              (world0 anonymous (fun _ => answer 200 failed_doc) ∅))
    as (_ & Herr & _ & _ & _ & _ & Hauth).
  cbv zeta in Herr. split; [apply Hauth; discriminate|].
  rewrite (Herr (PyException "API Error: x")) by (vm_compute; reflexivity).
  split; [reflexivity|]. by eexists.
Defined.

Lemma login_fails_after_successful_retry_witness :
  let res := login 2 "alice" "k" "s" (world0 anonymous (down_then ok_doc) ∅) in
  fst res = Return false
  /\ net_pos (snd res) = 2%nat
  /\ exists pre, log (snd res) = EvOut login_failure_line :: pre.
Proof.
  cbv zeta.
  apply (login_fails_after_successful_retry 0 "alice" "k" "s" "down" ok_doc
           (world0 anonymous (down_then ok_doc) ∅)).
  - reflexivity.
  - reflexivity.
  - reflexivity.
Defined.

Lemma login_is_answered_by_the_cache_witness :
  let w := world0 anonymous (fun _ => answer 200 ok_doc) ∅ in
  let w1 := snd (login 1 "alice" "k" "s" w) in
  fst (login 1 "alice" "k" "s" w) = Return true
  /\ fst (login 1 "alice" "other" "other" w1) = Return true
  /\ net_pos (snd (login 1 "alice" "other" "other" w1)) = net_pos w1.
Proof.
  cbv zeta.
  destruct (login_is_answered_by_the_cache 0 0 "alice" "k" "s" ok_doc
              (world0 anonymous (fun _ => answer 200 ok_doc) ∅)) as [H1 H2].
  - reflexivity.
  - reflexivity.
  - reflexivity.
  - split; [exact H1|]. apply H2.
Defined.

Lemma status_poller_stops_on_failure_witness :
  let r := status_submission "42" (world0 alice_with_token forbidden_third ∅) in
  fst r = Return tt
  /\ net_pos (snd r) = 3%nat
  /\ sleeps (log (snd r)) = [2; 2]
  /\ exists pre, log (snd r) = EvOut (tick_failure_line (inr 403)) :: pre.
Proof.
  cbv zeta.
  apply (status_poller_stops_on_failure "42" 2 (inr 403)
           (world0 alice_with_token forbidden_third ∅)).
  - lia.
  - intros i Hi. destruct i as [|[|i]]; [reflexivity|reflexivity|lia].
  - reflexivity.
Defined.

Lemma status_dispatch_witness :
  status (Some "") (Some 0) (world0 anonymous down ∅)
  = (Return tt, emit (EvOut need_argument_line) (world0 anonymous down ∅))
  /\ status (Some "42") (Some 7) (world0 anonymous down ∅)
     = status (Some "42") None (world0 anonymous down ∅)
  /\ requests (log (snd (status None (Some 7) (world0 alice_with_token down ∅))))
     = [Request GET (contest_url 7) []].
Proof.
  destruct (status_dispatch (Some "") (Some 0) (world0 anonymous down ∅))
    as (H1 & _ & _).
  destruct (status_dispatch (Some "42") (Some 7) (world0 anonymous down ∅))
    as (_ & H2 & _).
  destruct (status_dispatch None (Some 7) (world0 alice_with_token down ∅))
    as (_ & _ & H3).
  split; [|split].
  - apply H1; reflexivity.
  - apply H2; reflexivity.
  - destruct (H3 eq_refl) as [_ H4]. apply (H4 eq_refl 7 eq_refl). discriminate.
Defined.

Lemma status_logs_in_first_witness :
  status (Some "42") None (world0 anonymous down ∅)
  = (Return tt,
     emit (EvOut cannot_check_line)
          (emit (EvOut handle_not_set_line)
                (emit (EvOut logging_in_line) (world0 anonymous down ∅)))).
Proof.
  rewrite (status_logs_in_first (Some "42") None (world0 anonymous down ∅));
    reflexivity.
Defined.

Lemma findall_submissions_rows_witness :
  Forall row_ok (findall_submissions 1000 contest_page)
  /\ findall_submissions 1000 contest_page
     = findall_submissions (S (String.length contest_page)) contest_page.
Proof.
  apply (findall_submissions_rows contest_page 1000).
  - vm_compute. reflexivity.
  - vm_compute. lia.
Defined.

Lemma submit_source_first_request_raises_witness :
  let res := submit_source 1 "A" "int main(){}" (world0 alice down ∅) in
  fst res = Raise (RequestException "down")
  /\ fst (submit_source 1 "A" "int main(){}" (world0 alice_with_token down ∅))
     = Return tt.
Proof.
  cbv zeta.
  destruct (submit_source_first_request_raises 1 "A" "int main(){}"
              (RequestException "down") (world0 alice down ∅) eq_refl)
    as [_ H1].
  destruct (submit_source_first_request_raises 1 "A" "int main(){}"
              (RequestException "down") (world0 alice_with_token down ∅) eq_refl)
    as [_ H2].
  cbn in H1, H2. split; [apply H1|apply H2].
Defined.

Lemma generated_filename_is_read_back_witness :
  submit_target (output_filename 1234 "C1") = Some (1234, "C1")
  /\ submit_target (output_filename (-5) "A") = None
  /\ submit_target (output_filename 7 ("A" ++ NL)) = None.
Proof.
  rewrite (generated_filename_is_read_back 1234 "C1") by reflexivity.
  rewrite (generated_filename_is_read_back (-5) "A") by reflexivity.
  rewrite (generated_filename_is_read_back 7 ("A" ++ NL)) by reflexivity.
  repeat split.
Defined.

Lemma submit_after_web_login_witness :
  let w1 := snd (web_login (world0 alice_handle_only login_then_error ∅)) in
  exists tok evs,
    csrf_token (sess w1) = Some tok /\ tok <> ""
    /\ log (snd (submit_source 1 "A" "int main(){}" w1)) = (evs ++ log w1)%list
    /\ requests evs
       = [Request POST (submit_url 1) (submit_data (Some tok) "A" "int main(){}")].
Proof.
  cbv zeta.
  apply (submit_after_web_login 1 "A" "int main(){}"
           (world0 alice_handle_only login_then_error ∅)).
  vm_compute. reflexivity.
Defined.

Lemma login_request_is_unsigned_witness :
  exists evs,
    log (snd (login 1 "alice" "k" "s" (world0 anonymous down ∅)))
    = (evs ++ EvNet (Request GET "https://codeforces.com/api/user.info"
                       [("handles", PStr "alice")])
                    (NetRaises (RequestException "down"))
           :: EvCacheGet "user.info_0" None :: [])%list.
Proof.
  apply (login_request_is_unsigned 0 "alice" "k" "s" (world0 anonymous down ∅)).
  reflexivity.
Defined.

Lemma call_api_unsigned_request_witness :
  let w := world0 anonymous (fun _ => answer 200 ok_doc)
             {[ 0%nat := [("contestId", PInt 1)] ]} in
  (exists evs,
     log (snd (call_api 1 "contest.standings" (Some 0%nat) w))
     = (evs ++ EvNet (Request GET "https://codeforces.com/api/contest.standings"
                        [("contestId", PInt 1)])
                     (answer 200 ok_doc)
            :: EvCacheGet "contest.standings_0" None :: [])%list)
  /\ heap (snd (call_api 1 "contest.standings" (Some 0%nat) w)) = heap w.
Proof.
  cbv zeta.
  destruct (call_api_unsigned_request 0 "contest.standings" 0
              (world0 anonymous (fun _ => answer 200 ok_doc)
                      {[ 0%nat := [("contestId", PInt 1)] ]}))
    as [[evs H1] H2].
  - reflexivity.
  - reflexivity.
  - split; [|exact H2]. exists evs. exact H1.
Defined.
